(** * Metadata extraction pipeline (extract_metadata.py): model and properties

    A shallow embedding of [PaperProcessor]: the string cleanup and the
    normaliser are pure functions over JSON values, the extraction client
    and the orchestrator run in a small state-and-exception monad over a
    world made of the working directory, the in-memory result list and a
    trace of the effects performed. *)

From Stdlib Require Import ZArith String Ascii List DecimalString.
From stdpp Require Import gmap strings list fin_maps.

Set Warnings "-register-all".
Open Scope string_scope.
Open Scope list_scope.

(** ** Python [str] operations used by the source

    A string is a sequence of code points below 256; only ASCII literals
    occur in the source. *)
Module PyStr.

Definition nl : string := String "010"%char "".
Definition dq : string := String "034"%char "".

(** [str.isspace] on one character: TAB..CR, FS..US, SPACE, NEL, NBSP. *)
Definition isspace (c : ascii) : bool :=
  let n := nat_of_ascii c in
  ((9 <=? n)%nat && (n <=? 13)%nat) || ((28 <=? n)%nat && (n <=? 32)%nat)
  || (n =? 133)%nat || (n =? 160)%nat.

Definition is_empty (s : string) : bool :=
  match s with "" => true | _ => false end.

Fixpoint lstrip (s : string) : string :=
  match s with
  | "" => ""
  | String c s' => if isspace c then lstrip s' else s
  end.

Fixpoint rstrip (s : string) : string :=
  match s with
  | "" => ""
  | String c s' =>
      let r := rstrip s' in
      if isspace c && is_empty r then "" else String c r
  end.

(** [s.strip()] *)
Definition strip (s : string) : string := rstrip (lstrip s).

(** [s.startswith(p)] *)
Definition startswith (p s : string) : bool := String.prefix p s.

(** [sub in s] *)
Fixpoint contains (sub s : string) : bool :=
  String.prefix sub s
  || match s with "" => false | String _ s' => contains sub s' end.

(** Scan of [s.replace(old, new)] for a non-empty [old]: occurrences are
    taken left to right without overlap; [skip] counts the characters of
    the occurrence just replaced that are still to be passed over. *)
Fixpoint replace_from (old new : string) (skip : nat) (s : string) : string :=
  match s with
  | "" => ""
  | String c s' =>
      match skip with
      | S k => replace_from old new k s'
      | O =>
          if String.prefix old s
          then new +:+ replace_from old new (String.length old - 1) s'
          else String c (replace_from old new 0 s')
      end
  end.

(** With an empty [old], Python puts [new] before every character and at
    the end. *)
Fixpoint interleave (new s : string) : string :=
  match s with
  | "" => new
  | String c s' => new +:+ String c (interleave new s')
  end.

Definition replace (old new s : string) : string :=
  if is_empty old then interleave new s else replace_from old new 0 s.

Definition cons_head (c : ascii) (ps : list string) : list string :=
  match ps with
  | [] => [String c ""]
  | p :: ps' => String c p :: ps'
  end.

(** Scan of [s.split(sep)] for a non-empty [sep] (the source only splits
    on [","]); the result has one more piece than there are
    occurrences. *)
Fixpoint split_from (sep : string) (skip : nat) (s : string) : list string :=
  match s with
  | "" => [""]
  | String c s' =>
      match skip with
      | S k => split_from sep k s'
      | O =>
          if String.prefix sep s
          then "" :: split_from sep (String.length sep - 1) s'
          else cons_head c (split_from sep 0 s')
      end
  end.

Definition split (sep s : string) : list string := split_from sep 0 s.

(** [str(n)] / [f"{n}"] for an integer *)
Definition of_int (z : Z) : string := NilZero.string_of_int (Z.to_int z).

End PyStr.

(** ** JSON values, as [json.loads] builds them

    A float is kept as its [repr] text; an object is a finite map from
    its keys, which is all the source looks at. *)
Inductive json : Type :=
  | JNull
  | JBool (b : bool)
  | JInt (z : Z)
  | JFloat (r : string)
  | JStr (s : string)
  | JList (l : list json)
  | JDict (d : gmap string json).

(** Python truth value ([if not name], [if author_strings]). *)
Definition truthy (v : json) : bool :=
  match v with
  | JNull => false
  | JBool b => b
  | JInt z => negb (z =? 0)%Z
  | JFloat r => negb (String.eqb r "0.0" || String.eqb r "-0.0")
  | JStr s => negb (PyStr.is_empty s)
  | JList l => match l with [] => false | _ => true end
  | JDict d => negb (bool_decide (d = ∅))
  end.

Definition is_str (v : json) : bool :=
  match v with JStr _ => true | _ => false end.

Definition str_is (k : string) (v : json) : bool :=
  match v with JStr s => String.eqb s k | _ => false end.

(** [get_default_metadata] *)
Definition get_default_metadata : gmap string json :=
  <["title" := JStr "unknown"]>
  (<["authors" := JList [JStr "unknown"]]>
  (<["year" := JStr "unknown"]>
  (<["journal" := JStr "unknown"]>
  (<["doi" := JStr "unknown"]>
  (<["keywords" := JList []]>
  (<["abstract" := JStr "unknown"]> ∅)))))).

Definition target_fields : list string :=
  ["title"; "authors"; "year"; "journal"; "doi"; "keywords"; "abstract"].

(** ** Response cleanup (lines 146-153) *)
Definition fence_json : string := "```json".
Definition fence : string := "```".

Definition clean_response (text : string) : string :=
  let content := PyStr.strip text in
  if PyStr.startswith fence_json content then
    PyStr.strip (PyStr.replace fence "" (PyStr.replace fence_json "" content))
  else if PyStr.startswith fence content then
    PyStr.strip (PyStr.replace fence "" content)
  else content.

(** ** The normaliser (lines 183-227) *)
Section Normalizer.

(** [str(v)] for a value that is not a string: Python's [repr], which the
    program takes from the interpreter. *)
Variable py_repr : json -> string.

Definition py_str (v : json) : string :=
  match v with JStr s => s | _ => py_repr v end.

Definition dict_get (d : gmap string json) (k : string) (dflt : json) : json :=
  default dflt (d !! k).

(** The value appended for an author given as an object; [None] when the
    element is dropped. *)
Definition author_name (author : gmap string json) : option json :=
  let name := dict_get author "name" (JStr "") in
  let name :=
    if truthy name then name
    else JStr (PyStr.strip (py_str (dict_get author "first_name" (JStr ""))
                            +:+ " " +:+
                            py_str (dict_get author "last_name" (JStr "")))) in
  let name :=
    if truthy name then name else dict_get author "full_name" (JStr "") in
  if truthy name then Some name else None.

Fixpoint author_strings (authors : list json) : list json :=
  match authors with
  | [] => []
  | JDict a :: rest =>
      match author_name a with
      | Some name => name :: author_strings rest
      | None => author_strings rest
      end
  | author :: rest => JStr (py_str author) :: author_strings rest
  end.

(** The comprehension pair of lines 207-208 and 220-221. *)
Definition split_names (s : string) : list string :=
  filter (λ a, PyStr.is_empty a = false)
         (PyStr.strip <$> PyStr.split "," (PyStr.replace ";" "," s)).

Definition has_separator (s : string) : bool :=
  PyStr.contains "," s || PyStr.contains ";" s.

Definition normalize_authors (v : json) : json :=
  match v with
  | JList l =>
      match author_strings l with
      | [] => JList [JStr "unknown"]
      | names => JList names
      end
  | JStr s =>
      if has_separator s then JList (JStr <$> split_names s)
      else if PyStr.is_empty s then JList [JStr "unknown"]
      else JList [JStr s]
  | _ => JList [JStr "unknown"]
  end.

Definition normalize_keywords (v : json) : json :=
  match v with
  | JList l => JList ((λ k, JStr (py_str k)) <$> l)
  | JStr s =>
      if has_separator s then JList (JStr <$> split_names s)
      else if PyStr.is_empty s then JList []
      else JList [JStr s]
  | _ => JList []
  end.

Definition normalize_metadata (metadata : gmap string json) : gmap string json :=
  let normalized := metadata in
  let normalized :=
    match normalized !! "authors" with
    | Some v => <["authors" := normalize_authors v]> normalized
    | None => normalized
    end in
  match normalized !! "keywords" with
  | Some v => <["keywords" := normalize_keywords v]> normalized
  | None => normalized
  end.

End Normalizer.

(** The splitting rule in the specification's words: cut at every comma
    and every semicolon, trim the pieces, drop the empty ones. *)
Definition is_separator (c : ascii) : bool :=
  Ascii.eqb c ","%char || Ascii.eqb c ";"%char.

Fixpoint spec_cut (s : string) : list string :=
  match s with
  | "" => [""]
  | String c s' =>
      if is_separator c then "" :: spec_cut s'
      else PyStr.cons_head c (spec_cut s')
  end.

Definition spec_split_names (s : string) : list string :=
  filter (λ a, PyStr.is_empty a = false) (PyStr.strip <$> spec_cut s).

(** ** The world the program runs in *)

(** Exceptions the modelled code can raise.  A [json.JSONDecodeError] is
    caught where it arises and never travels. *)
Inductive exn : Type :=
  | TypeError
  | AttributeError
  | KeyError
  | IOError
  | ApiError
  | JSONDecodeError
  | ValueError           (* an integer literal over the digit limit *)
  | RecursionError       (* nesting too deep for the parser *)
  | UnicodeDecodeError.  (* bytes that are not UTF-8 *)

Inductive outcome (A : Type) : Type :=
  | Ok (a : A)
  | Raise (e : exn).
Arguments Ok {A} a.
Arguments Raise {A} e.

(** What a file of the working directory holds, by what [open] and
    [json.load] make of it: a JSON document, as [json.dump] leaves it and
    [json.load] reads it back; text that is not JSON, as a dump that
    broke off leaves it ([JSONDecodeError]); or a file on which reading
    raises [e], be it [IOError] from [open], [UnicodeDecodeError],
    [ValueError] or [RecursionError] from [json.load]. *)
Inductive fcontent : Type :=
  | FJson (v : json)
  | FCorrupt
  | FUnreadable (e : exn).

(** How an [open(path, 'w')] / [json.dump] pair ends: well; with [open]
    failing (the file is untouched); with the dump failing after the
    file was truncated, which leaves the beginning of a document; or
    with the dump breaking off inside a character of more than one byte,
    which a text written with [ensure_ascii=False] can have. *)
Inductive wfault : Type :=
  | WOk
  | WOpenFails
  | WDumpFails
  | WDumpTorn.

(** One entry of [Path(directory).rglob('*.pdf')]: [str(pdf_path)],
    [str(pdf_path.relative_to(directory))] and [pdf_path.name]. *)
Record pdf_file : Type := PdfFile {
  full_path : string;
  relative_path : string;
  name : string
}.

(** The collaborators outside the repository. *)
Record Host : Type := {
  (** [json.loads]: the value, or the exception it raises
      ([JSONDecodeError] on text that is not JSON; [ValueError] and
      [RecursionError] on some texts too) *)
  json_loads : string -> outcome json;
  (** [repr] of a value that is not a string *)
  py_repr : json -> string;
  (** [PyPDF2.PdfReader]: [None] when opening or parsing fails, else the
      pages' texts, [None] for a page whose extraction raises *)
  pdf_pages : string -> option (list (option string));
  (** the n-th [generate_content] call of the run and its prompt; [None]
      when the call, or reading [response.text], raises *)
  generate_content : nat -> string -> option string;
  (** the directory listing *)
  rglob_pdf : string -> list pdf_file;
  (** fate of the n-th write of the run *)
  write_fault : nat -> wfault;
  (** iteration order of the set of paths at the n-th write of the run:
      whether the first path comes before the second in [list(set)] *)
  set_before : nat -> string -> string -> bool;
  (** [int(time.time())] *)
  unix_time : Z
}.

(** Effects visible from outside, and the console lines that mark the
    orchestrator's decisions. *)
Inductive event : Type :=
  | EvCall (prompt : string)
  | EvSleep (seconds : Z)
  | EvWrite (path : string) (c : fcontent)
  | EvRemove (path : string)
  | EvRename (src dst : string)
  | EvProcessing (rel : string)      (* line 256 *)
  | EvSaved (rel : string)           (* line 294 *)
  | EvSkipped (rel : string)         (* lines 297-298 *)
  | EvAllProcessed.                  (* line 247 *)

Record world : Type := World {
  files : gmap string fcontent;   (* the working directory *)
  results : json;                 (* the list [results] of process_directory *)
  calls : nat;                    (* completion calls so far *)
  writes : nat                    (* writes attempted so far *)
}.

(** A computation takes a world and gives an outcome, the world it
    leaves, and the events it performed, oldest first. *)
Definition M (A : Type) : Type := world -> outcome A * world * list event.

#[global] Instance outcome_ret : MRet outcome := @Ok.
#[global] Instance outcome_bind : MBind outcome := λ A B f m,
  match m with Ok a => f a | Raise e => Raise e end.

#[global] Instance M_ret : MRet M := λ A a w, (Ok a, w, []).
#[global] Instance M_bind : MBind M := λ A B f m w,
  match m w with
  | (Ok a, w1, t1) => let '(r, w2, t2) := f a w1 in (r, w2, t1 ++ t2)
  | (Raise e, w1, t1) => (Raise e, w1, t1)
  end.

Definition raise {A} (e : exn) : M A := λ w, (Raise e, w, []).

Definition lift {A} (o : outcome A) : M A := λ w, (o, w, []).

(** [try: body except Exception: handler] *)
Definition try_except {A} (body : M A) (handler : exn -> M A) : M A := λ w,
  match body w with
  | (Ok a, w1, t1) => (Ok a, w1, t1)
  | (Raise e, w1, t1) => let '(r, w2, t2) := handler e w1 in (r, w2, t1 ++ t2)
  end.

Definition emit (e : event) : M unit := λ w, (Ok tt, w, [e]).

Definition get_results : M json := λ w, (Ok (results w), w, []).

Definition set_results (v : json) : M unit := λ w,
  (Ok tt, World (files w) v (calls w) (writes w), []).

Definition get_writes : M nat := λ w, (Ok (writes w), w, []).

Definition processed_files_path : string := "processed_files.json".
Definition metadata_path : string := "metadata.json".

Definition max_retries : nat := 3.

Definition system_prompt : string :=
  "You are a research paper metadata extractor. Given text from the first few pages of a paper, extract the following information:"
  +:+ PyStr.nl +:+ "- Title"
  +:+ PyStr.nl +:+ "- Authors (as a list)"
  +:+ PyStr.nl +:+ "- Year"
  +:+ PyStr.nl +:+ "- Journal/Conference"
  +:+ PyStr.nl +:+ "- DOI (if available)"
  +:+ PyStr.nl +:+ "- Keywords (if available)"
  +:+ PyStr.nl +:+ "- Abstract (the full abstract text if found)"
  +:+ PyStr.nl +:+ PyStr.nl
  +:+ "If any field is unreadable or not found, return "
  +:+ PyStr.dq +:+ "unknown" +:+ PyStr.dq +:+ " for that field."
  +:+ PyStr.nl +:+ PyStr.nl
  +:+ "Return ONLY a raw JSON object with these exact field names: title, authors, year, journal, doi, keywords, abstract. Do not include any other text or markdown formatting.".

Definition make_prompt (extracted_text : string) : string :=
  system_prompt +:+ PyStr.nl +:+ PyStr.nl
  +:+ "Extract bibliographic information from this text:"
  +:+ PyStr.nl +:+ PyStr.nl +:+ extracted_text.

(** [key in metadata]; [None] when the test itself raises [TypeError]. *)
Definition has_key (metadata : json) (key : string) : option bool :=
  match metadata with
  | JDict d => Some (bool_decide (is_Some (d !! key)))
  | JList l => Some (existsb (str_is key) l)
  | JStr s => Some (PyStr.contains key s)
  | _ => None
  end.

(** [metadata[key] = v]; [None] when it raises [TypeError]. *)
Definition set_item (metadata : json) (key : string) (v : json) : option json :=
  match metadata with
  | JDict d => Some (JDict (<[key := v]> d))
  | _ => None
  end.

(** The loop of lines 165-168 over the keys of the default record. *)
Fixpoint ensure_fields (keys : list string) (metadata : json) : outcome json :=
  match keys with
  | [] => Ok metadata
  | key :: rest =>
      match has_key metadata key with
      | None => Raise TypeError
      | Some true => ensure_fields rest metadata
      | Some false =>
          match set_item metadata key (dict_get get_default_metadata key JNull) with
          | Some metadata' => ensure_fields rest metadata'
          | None => Raise TypeError
          end
      end
  end.

(** [metadata[key]] read from a dict *)
Definition subscript (m : gmap string json) (key : string) : outcome json :=
  match m !! key with
  | Some v => Ok v
  | None => Raise KeyError
  end.

(** Whether [', '.join(v)] goes through. *)
Definition join_check (v : json) : outcome unit :=
  match v with
  | JList l => if forallb is_str l then Ok tt else Raise TypeError
  | JStr _ => Ok tt
  | JDict _ => Ok tt
  | _ => Raise TypeError
  end.

Definition py_len (v : json) : option nat :=
  match v with
  | JStr s => Some (String.length s)
  | JList l => Some (length l)
  | JDict d => Some (size d)
  | _ => None
  end.

(** Line 281: [len] needs a sized value, and past 200 the slice plus
    ["..."] needs a string. *)
Definition abstract_check (v : json) : outcome unit :=
  match py_len v with
  | None => Raise TypeError
  | Some n =>
      if (200 <? n)%nat
      then match v with JStr _ => Ok tt | _ => Raise TypeError end
      else Ok tt
  end.

(** The report of lines 269-282, kept for the exceptions it can raise. *)
Definition report (m : gmap string json) : outcome unit :=
  _ ← subscript m "filename";
  _ ← subscript m "relative_path";
  _ ← subscript m "title";
  authors ← subscript m "authors";
  join_check authors;;
  _ ← subscript m "year";
  _ ← subscript m "journal";
  _ ← subscript m "doi";
  keywords ← subscript m "keywords";
  join_check keywords;;
  abstract ← subscript m "abstract";
  abstract_check abstract.

Definition hashable (v : json) : bool :=
  match v with JList _ | JDict _ => false | _ => true end.

Definition as_str (v : json) : option string :=
  match v with JStr s => Some s | _ => None end.

Fixpoint chars (s : string) : list string :=
  match s with
  | "" => []
  | String c s' => String c "" :: chars s'
  end.

(** [set(v)], as far as a path can be looked up in it: of the hashable
    elements of an array only the strings are kept, a number, boolean or
    null being equal to no path (Python would keep them in the set and
    [save_processed_file] would write them back).  [None] is
    [TypeError]. *)
Definition py_set (v : json) : option (gset string) :=
  match v with
  | JList l => if forallb hashable l then Some (list_to_set (omap as_str l)) else None
  | JStr s => Some (list_to_set (chars s))
  | JDict d => Some (dom d)
  | _ => None
  end.

(** [except (json.JSONDecodeError, IOError)] of the two loaders *)
Definition caught_on_load (e : exn) : bool :=
  match e with
  | JSONDecodeError | IOError => true
  | _ => false
  end.

(** What [load_processed_files] gets from a directory. *)
Definition read_ledger (fs : gmap string fcontent) : outcome (gset string) :=
  match fs !! processed_files_path with
  | Some (FJson v) =>
      match py_set v with
      | Some s => Ok s
      | None => Raise TypeError
      end
  | Some FCorrupt => Ok ∅
  | Some (FUnreadable e) => if caught_on_load e then Ok ∅ else Raise e
  | None => Ok ∅
  end.

(** What [load_existing_metadata] gets from a directory. *)
Definition read_store (fs : gmap string fcontent) : outcome json :=
  match fs !! metadata_path with
  | Some (FJson v) => Ok v
  | Some FCorrupt => Ok (JList [])
  | Some (FUnreadable e) => if caught_on_load e then Ok (JList []) else Raise e
  | None => Ok (JList [])
  end.

(** [list(processed_files)]: the elements of the set in its iteration
    order, which Python leaves open; [before] places each element among
    those already laid out. *)
Fixpoint insert_by (before : string -> string -> bool) (x : string)
    (l : list string) : list string :=
  match l with
  | [] => [x]
  | y :: l' => if before x y then x :: l else y :: insert_by before x l'
  end.

Definition iteration_order (before : string -> string -> bool) (s : gset string)
  : list string :=
  foldr (insert_by before) [] (elements s).

Section Program.

Variable H : Host.

(** *** Text extractor (lines 79-103) *)
Definition page_text (p : option string) : string :=
  match p with
  | Some t => t +:+ PyStr.nl +:+ PyStr.nl
  | None => ""
  end.

Definition extract_text_from_pdf (pdf_path : string) (max_pages : nat) : string :=
  match pdf_pages H pdf_path with
  | Some pages =>
      PyStr.strip (foldr (λ p acc, page_text p +:+ acc) "" (take max_pages pages))
  | None => ""
  end.

(** *** Extraction client (lines 117-181) *)
Definition call_generate (prompt : string) : M string := λ w,
  let w' := World (files w) (results w) (S (calls w)) (writes w) in
  match generate_content H (calls w) prompt with
  | Some text => (Ok text, w', [EvCall prompt])
  | None => (Raise ApiError, w', [EvCall prompt])
  end.

Definition sleep (seconds : Z) : M unit := emit (EvSleep seconds).

(** Lines 156-162: only [JSONDecodeError] is caught at the parse. *)
Definition parse_response (content : string) : outcome json :=
  match json_loads H content with
  | Ok v => Ok v
  | Raise JSONDecodeError => Ok (JDict get_default_metadata)
  | Raise e => Raise e
  end.

(** The body of the [try] of one attempt. *)
Definition attempt_once (extracted_text : string) : M json :=
  text ← call_generate (make_prompt extracted_text);
  let content := clean_response text in
  metadata ← lift (parse_response content);
  lift (ensure_fields target_fields metadata).

(** [for attempt in range(max_retries)], [retry_delay] carried along; a
    loop running out would let the function return [None]. *)
Fixpoint attempts (extracted_text : string) (range : list nat) (retry_delay : Z)
  : M json :=
  match range with
  | [] => mret JNull
  | attempt :: range' =>
      try_except (attempt_once extracted_text)
        (λ _, if (attempt <? max_retries - 1)%nat
              then sleep retry_delay;;
                   attempts extracted_text range' (retry_delay * 2)
              else mret (JDict get_default_metadata))
  end.

Definition extract_metadata_from_pdf (pdf_path : string) : M json :=
  let retry_delay := 2%Z in
  let extracted_text := extract_text_from_pdf pdf_path 3 in
  if PyStr.is_empty extracted_text then mret (JDict get_default_metadata)
  else attempts extracted_text (seq 0 max_retries) retry_delay.

(** *** Ledger and store files *)
Definition load_processed_files : M (gset string) := λ w,
  (read_ledger (files w), w, []).

Definition load_existing_metadata : M json := λ w,
  (read_store (files w), w, []).

(** What a dump that broke off leaves in the file: text that is not
    JSON, or, when it broke off inside a character, bytes that are not
    UTF-8. *)
Definition torn (ensure_ascii : bool) : fcontent :=
  if ensure_ascii then FCorrupt else FUnreadable UnicodeDecodeError.

(** [with open(path, 'w', encoding='utf-8') as f:
       json.dump(v, f, indent=2, ensure_ascii=ensure_ascii)] *)
Definition write_json (path : string) (ensure_ascii : bool) (v : json)
  : M unit := λ w,
  match write_fault H (writes w) with
  | WOk =>
      (Ok tt,
       World (<[path := FJson v]> (files w)) (results w) (calls w) (S (writes w)),
       [EvWrite path (FJson v)])
  | WOpenFails =>
      (Raise IOError,
       World (files w) (results w) (calls w) (S (writes w)),
       [])
  | WDumpFails =>
      (Raise IOError,
       World (<[path := FCorrupt]> (files w)) (results w) (calls w) (S (writes w)),
       [EvWrite path FCorrupt])
  | WDumpTorn =>
      (Raise IOError,
       World (<[path := torn ensure_ascii]> (files w)) (results w) (calls w)
             (S (writes w)),
       [EvWrite path (torn ensure_ascii)])
  end.

Definition save_processed_file (filename : string) : M unit :=
  processed_files ← load_processed_files;
  let processed_files := processed_files ∪ {[filename]} in
  n ← get_writes;
  let paths := iteration_order (set_before H n) processed_files in
  write_json processed_files_path true (JList (JStr <$> paths)).

(** *** Orchestrator (lines 229-299) *)

(** [results.append(metadata)] on the list object shared by the whole loop *)
Definition append_result (metadata : json) : M unit :=
  rs ← get_results;
  match rs with
  | JList l => set_results (JList (l ++ [metadata]))
  | _ => raise AttributeError
  end.

(** The record of a file: the three provenance fields set on the
    extracted object (lines 261-263). *)
Definition with_provenance (f : pdf_file) (d : gmap string json) : gmap string json :=
  <["full_path" := JStr (full_path f)]>
  (<["relative_path" := JStr (relative_path f)]>
  (<["filename" := JStr (name f)]> d)).

(** The body of the per-file [try]. *)
Definition process_file (f : pdf_file) : M unit :=
  metadata ← extract_metadata_from_pdf (full_path f);
  match metadata with
  | JDict d =>
      let metadata := normalize_metadata (py_repr H) (with_provenance f d) in
      lift (report metadata);;
      append_result (JDict metadata);;
      rs ← get_results;
      write_json metadata_path false rs;;
      save_processed_file (relative_path f);;
      emit (EvSaved (relative_path f))
  | _ => raise TypeError
  end.

Fixpoint process_files (unprocessed_files : list pdf_file) : M unit :=
  match unprocessed_files with
  | [] => mret tt
  | f :: rest =>
      emit (EvProcessing (relative_path f));;
      try_except (process_file f) (λ _, emit (EvSkipped (relative_path f)));;
      process_files rest
  end.

Definition unprocessed (processed_files : gset string) (pdf_files : list pdf_file)
  : list pdf_file :=
  filter (λ f, relative_path f ∉ processed_files) pdf_files.

Definition process_directory (directory_path : string) : M unit :=
  processed_files ← load_processed_files;
  rs ← load_existing_metadata;
  set_results rs;;
  let pdf_files := rglob_pdf H directory_path in
  match unprocessed processed_files pdf_files with
  | [] => emit EvAllProcessed
  | unprocessed_files => process_files unprocessed_files
  end.

(** *** Reset (lines 301-309); [os.rename] replaces an existing target *)
Definition backup_name : string :=
  "metadata_backup_" +:+ PyStr.of_int (unix_time H) +:+ ".json".

Definition remove_if_exists (path : string) : M unit := λ w,
  match files w !! path with
  | Some _ =>
      (Ok tt, World (delete path (files w)) (results w) (calls w) (writes w),
       [EvRemove path])
  | None => (Ok tt, w, [])
  end.

Definition rename_if_exists (src dst : string) : M unit := λ w,
  match files w !! src with
  | Some c =>
      (Ok tt,
       World (<[dst := c]> (delete src (files w))) (results w) (calls w) (writes w),
       [EvRename src dst])
  | None => (Ok tt, w, [])
  end.

Definition reset_processing_status : M unit :=
  remove_if_exists processed_files_path;;
  rename_if_exists metadata_path backup_name.

End Program.

(** ** Sample hosts and inputs *)

Definition demo_repr (v : json) : string :=
  match v with
  | JNull => "None"
  | JBool true => "True"
  | JBool false => "False"
  | JInt z => PyStr.of_int z
  | JFloat r => r
  | _ => "?"
  end.

(** The text ["{" dq "title" dq ": 7}"], and the fenced form of it. *)
Definition sample_object : string :=
  "{" +:+ PyStr.dq +:+ "title" +:+ PyStr.dq +:+ ": 7}".

Definition sample_response : string :=
  "```json" +:+ PyStr.nl +:+ sample_object +:+ PyStr.nl +:+ "```".

(** A stand-in for [json.loads] that knows two documents. *)
Definition demo_loads (s : string) : outcome json :=
  if String.eqb s "{}" then Ok (JDict ∅)
  else if String.eqb s sample_object then Ok (JDict {["title" := JInt 7]})
  else Raise JSONDecodeError.

Definition demo_pages (path : string) : option (list (option string)) :=
  if String.eqb path "papers/a.pdf" then Some [Some "A Study"; None; Some "of Things"]
  else if String.eqb path "papers/sub/b.pdf" then Some [Some "Another Study"]
  else if String.eqb path "papers/scan.pdf" then Some [Some " "; Some ""]
  else None.

Definition pdf_a : pdf_file := PdfFile "papers/a.pdf" "a.pdf" "a.pdf".
Definition pdf_b : pdf_file := PdfFile "papers/sub/b.pdf" "sub/b.pdf" "b.pdf".
Definition pdf_scan : pdf_file := PdfFile "papers/scan.pdf" "scan.pdf" "scan.pdf".

Definition demo_host (respond : nat -> option string) (faults : nat -> wfault)
  : Host :=
  {| json_loads := demo_loads;
     py_repr := demo_repr;
     pdf_pages := demo_pages;
     generate_content := λ n _, respond n;
     rglob_pdf := λ dir, if String.eqb dir "papers" then [pdf_a; pdf_b] else [];
     write_fault := faults;
     set_before := λ _ _ _, true;
     unix_time := 1700000000 |}.

(** The service answers every call / never answers / answers garbage. *)
Definition host_up : Host := demo_host (λ _, Some sample_response) (λ _, WOk).
Definition host_down : Host := demo_host (λ _, None) (λ _, WOk).
Definition host_garbled : Host := demo_host (λ _, Some "Sorry, no JSON today") (λ _, WOk).

(** The service fails once, then answers / then answers garbage. *)
Definition host_recovering : Host :=
  demo_host (λ n, if Nat.eqb n 0 then None else Some sample_response) (λ _, WOk).
Definition host_late_garbled : Host :=
  demo_host (λ n, if Nat.eqb n 0 then None else Some "Sorry, no JSON today")
            (λ _, WOk).

(** Two hundred thousand opening brackets: text that is not JSON, and on
    which [json.loads] raises [RecursionError], not [JSONDecodeError]. *)
Definition deep_text : string := N.iter 200000 (String "["%char) "".

(** The service answers [deep_text] every time; [json_loads] stands for
    [json.loads] on that one text. *)
Definition host_deep : Host :=
  {| json_loads := λ _, Raise RecursionError;
     py_repr := demo_repr;
     pdf_pages := demo_pages;
     generate_content := λ _ _, Some deep_text;
     rglob_pdf := λ dir, if String.eqb dir "papers" then [pdf_a; pdf_b] else [];
     write_fault := λ _, WOk;
     set_before := λ _ _ _, true;
     unix_time := 1700000000 |}.

(** The second write of the run, the first Ledger write, breaks off. *)
Definition host_flaky : Host :=
  demo_host (λ _, Some sample_response)
            (λ n, if Nat.eqb n 1 then WDumpFails else WOk).

(** An empty working directory, before and inside a run. *)
Definition empty_world : world := World ∅ JNull 0 0.
Definition fresh_run : world := World ∅ (JList []) 0 0.


(** A directory whose Ledger lists both papers and that has no Store. *)
Definition marked_world : world :=
  World (<[processed_files_path := FJson (JList [JStr "sub/b.pdf"; JStr "a.pdf"])]> ∅)
        JNull 0 0.

(** A directory with a Ledger, a Store, an older backup and a stranger. *)
Definition used_directory : gmap string fcontent :=
  <[processed_files_path := FJson (JList [JStr "a.pdf"])]>
  (<[metadata_path := FJson (JList [JDict get_default_metadata])]>
  (<["metadata_backup_1600000000.json" := FJson (JList [])]>
  (<["notes.txt" := FCorrupt]> ∅))).


(** A fenced answer whose JSON text has backticks of its own. *)
Definition ticks_object : string :=
  "{" +:+ PyStr.dq +:+ "abstract" +:+ PyStr.dq +:+ ": "
  +:+ PyStr.dq +:+ "see ```x``` below" +:+ PyStr.dq +:+ "}".

Definition ticks_response : string :=
  "```json" +:+ PyStr.nl +:+ ticks_object +:+ PyStr.nl +:+ "```".

(** ** Vocabulary of the properties *)

(** Deleting every occurrence of a fence, in the words of the cleanup
    rule: going through the text from the left, an occurrence of [pat]
    at the current place is dropped and the scan goes on behind it;
    otherwise the character at the current place is kept. *)
Inductive deleted (pat : string) : string -> string -> Prop :=
  | deleted_end :
      deleted pat "" ""
  | deleted_occurrence s r :
      deleted pat s r ->
      deleted pat (pat +:+ s) r
  | deleted_keep c s r :
      String.prefix pat (String c s) = false ->
      deleted pat s r ->
      deleted pat (String c s) (String c r).

(** The Ledger as a set of paths: what [load_processed_files] returns,
    nothing when it cannot be read. *)
Definition paths_of (c : fcontent) : gset string :=
  match c with
  | FJson v => default ∅ (py_set v)
  | FCorrupt => ∅
  | FUnreadable _ => ∅
  end.

Definition ledger_paths (fs : gmap string fcontent) : gset string :=
  match fs !! processed_files_path with
  | Some c => paths_of c
  | None => ∅
  end.

(** The document [save_processed_file] writes for a set of paths laid
    out in the order [before]. *)
Definition ledger_doc (before : string -> string -> bool) (s : gset string)
  : json :=
  JList (JStr <$> iteration_order before s).

(** A Store document holds a record for the path [rel]. *)
Definition has_record (rel : string) (v : json) : Prop :=
  ∃ l d, v = JList l ∧ JDict d ∈ l ∧ d !! "relative_path" = Some (JStr rel).

(** A complete Store write with a record for [rel] occurs in the trace. *)
Definition recorded (t : list event) (rel : string) : Prop :=
  ∃ v, EvWrite metadata_path (FJson v) ∈ t ∧ has_record rel v.

(** Write-then-mark: whenever the Ledger file is written, each path it
    then lists was known before ([known]) or has its record in a Store
    write earlier in the trace. *)
Definition ordered (known : string -> Prop) (t : list event) : Prop :=
  ∀ t1 c t2 p,
    t = t1 ++ EvWrite processed_files_path c :: t2 ->
    p ∈ paths_of c ->
    known p ∨ recorded t1 p.

(** The calls and sleeps of the retry loop up to the call of attempt
    [i], the delay doubling from [retry_delay]. *)
Fixpoint backoff_trace (prompt : string) (retry_delay : Z) (i : nat)
  : list event :=
  match i with
  | 0 => [EvCall prompt]
  | S i' =>
      EvCall prompt :: EvSleep retry_delay
      :: backoff_trace prompt (retry_delay * 2) i'
  end.

(** Events of the extraction client. *)
Definition quiet (e : event) : Prop :=
  match e with
  | EvCall _ | EvSleep _ => True
  | _ => False
  end.

(** The candidates begun, in order (line 256). *)
Definition processing_order (t : list event) : list string :=
  omap (λ e, match e with EvProcessing rel => Some rel | _ => None end) t.

(** What the body of the per-file [try] can do to the directory once the
    extraction client is done: outcome, directory left, events. *)
Inductive file_run (f : pdf_file) (fs : gmap string fcontent)
  : outcome unit -> gmap string fcontent -> list event -> Prop :=
  | run_early e :
      file_run f fs (Raise e) fs []
  | run_store_broken c :
      (∀ v, c ≠ FJson v) ->
      file_run f fs (Raise IOError)
        (<[metadata_path := c]> fs)
        [EvWrite metadata_path c]
  | run_unmarked e v :
      has_record (relative_path f) v ->
      file_run f fs (Raise e)
        (<[metadata_path := FJson v]> fs)
        [EvWrite metadata_path (FJson v)]
  | run_ledger_broken v :
      has_record (relative_path f) v ->
      file_run f fs (Raise IOError)
        (<[processed_files_path := FCorrupt]> (<[metadata_path := FJson v]> fs))
        [EvWrite metadata_path (FJson v); EvWrite processed_files_path FCorrupt]
  | run_saved v s before :
      has_record (relative_path f) v ->
      read_ledger fs = Ok s ->
      file_run f fs (Ok tt)
        (<[processed_files_path :=
             FJson (ledger_doc before (s ∪ {[relative_path f]}))]>
           (<[metadata_path := FJson v]> fs))
        [EvWrite metadata_path (FJson v);
         EvWrite processed_files_path
           (FJson (ledger_doc before (s ∪ {[relative_path f]})));
         EvSaved (relative_path f)].


(** ** Further vocabulary *)

(** Every character of [s] passes the test [p]. *)
Fixpoint string_forall (p : ascii -> bool) (s : string) : bool :=
  match s with
  | "" => true
  | String c s' => p c && string_forall p s'
  end.

(** What the attempt made with the n-th completion call of a run comes
    to: the value [attempt_once] returns, or the exception that ends it.
    The body of the [try] reads nothing of the directory, so it is run
    here in an empty one. *)
Definition attempt_outcome (H : Host) (extracted_text : string) (n : nat)
  : outcome json :=
  (attempt_once H extracted_text (World ∅ JNull n 0)).1.1.

(** Completion calls in a trace, and the time slept in it. *)
Fixpoint calls_made (t : list event) : nat :=
  match t with
  | [] => 0
  | EvCall _ :: t' => S (calls_made t')
  | _ :: t' => calls_made t'
  end.

Fixpoint time_slept (t : list event) : Z :=
  match t with
  | [] => 0
  | EvSleep seconds :: t' => seconds + time_slept t'
  | _ :: t' => time_slept t'
  end.

(** A value the client can hand to the orchestrator: an object with the
    seven target fields, or, since the field test of lines 166-168 also
    passes on them, an array or a string that contains the seven names. *)
Definition complete_record (v : json) : Prop :=
  match v with
  | JDict d => ∀ k, k ∈ target_fields -> is_Some (d !! k)
  | JList l => ∀ k, k ∈ target_fields -> JStr k ∈ l
  | JStr s => ∀ k, k ∈ target_fields -> PyStr.contains k s = true
  | _ => False
  end.

(** The service answers a bare number. *)
Definition host_number : Host :=
  {| json_loads := λ _, Ok (JInt 42);
     py_repr := demo_repr;
     pdf_pages := demo_pages;
     generate_content := λ _ _, Some "42";
     rglob_pdf := λ dir, if String.eqb dir "papers" then [pdf_a; pdf_b] else [];
     write_fault := λ _, WOk;
     set_before := λ _ _ _, true;
     unix_time := 1700000000 |}.

(** The candidates given up, in order (lines 297-298). *)
Definition skipped_paths (t : list event) : list string :=
  omap (λ e, match e with EvSkipped rel => Some rel | _ => None end) t.

(** The service answers an object whose abstract is [null]. *)
Definition host_null_abstract : Host :=
  {| json_loads := λ _, Ok (JDict {["abstract" := JNull]});
     py_repr := demo_repr;
     pdf_pages := demo_pages;
     generate_content := λ _ _, Some "{}";
     rglob_pdf := λ dir, if String.eqb dir "papers" then [pdf_a; pdf_b] else [];
     write_fault := λ _, WOk;
     set_before := λ _ _ _, true;
     unix_time := 1700000000 |}.

(** A directory whose Store file holds a JSON object, not an array. *)
Definition object_store_world : world :=
  World (<[metadata_path := FJson (JDict ∅)]> ∅) JNull 0 0.

(** The Store record of a candidate: an object carrying the candidate's
    three provenance fields. *)
Definition record_of (f : pdf_file) (v : json) : Prop :=
  ∃ d : gmap string json,
    v = JDict d
    ∧ d !! "filename" = Some (JStr (name f))
    ∧ d !! "relative_path" = Some (JStr (relative_path f))
    ∧ d !! "full_path" = Some (JStr (full_path f)).

(** What the report of lines 269-282 needs of a record that has all its
    fields: authors that [', '.join] accepts, and an abstract with a
    length that is a string when longer than 200. *)
Definition printable (m : gmap string json) : bool :=
  match m !! "authors", m !! "abstract" with
  | Some (JList names), Some abstract =>
      forallb is_str names
      && match py_len abstract with
         | Some n => (n <=? 200)%nat || is_str abstract
         | None => false
         end
  | _, _ => false
  end.

(** Sample worlds: the used directory before a run, a Ledger file that
    holds a number, and a run whose next write is the second of
    [host_flaky]. *)
Definition used_world : world := World used_directory JNull 0 0.

Definition number_ledger_world : world :=
  World (<[processed_files_path := FJson (JInt 5)]> ∅) JNull 0 0.

Definition second_write_world : world := World ∅ JNull 0 1.

(** A Ledger file, and a Store file, whose bytes are not UTF-8. *)
Definition undecodable_ledger_world : world :=
  World (<[processed_files_path := FUnreadable UnicodeDecodeError]> ∅) JNull 0 0.

Definition undecodable_store_world : world :=
  World (<[metadata_path := FUnreadable UnicodeDecodeError]> ∅) JNull 0 0.

(** The set of paths comes out in one order at the even writes of the
    run and in the opposite order at the odd ones. *)
Definition host_shuffling : Host :=
  {| json_loads := demo_loads;
     py_repr := demo_repr;
     pdf_pages := demo_pages;
     generate_content := λ _ _, Some sample_response;
     rglob_pdf := λ dir, if String.eqb dir "papers" then [pdf_a; pdf_b] else [];
     write_fault := λ _, WOk;
     set_before := λ n _ _, Nat.even n;
     unix_time := 1700000000 |}.


(** ** The command-line entry point (lines 311-358)

    What the operator and the environment give [main]: the two lines
    typed at the prompts, which directories exist, and the API key.  The
    console output is left out but for the final report, which [main]
    is made to return; an operator interrupt is not modelled. *)
Record Operator : Type := {
  typed_directory : string;
  typed_reset : string;
  directory_exists : string -> bool;
  api_key : option string
}.

Inductive main_report : Type :=
  | NoDirectory (directory : string)        (* line 316 *)
  | NoApiKey                                (* lines 321-328 *)
  | Summary (processed entries : nat).      (* lines 349-351 *)

(** [str.lower] on code points below 256: A-Z and the capital letters of
    Latin-1 (all of 192..222 but the multiplication sign) move up by 32. *)
Definition lower_char (c : ascii) : ascii :=
  let n := nat_of_ascii c in
  if ((65 <=? n)%nat && (n <=? 90)%nat)
     || ((192 <=? n)%nat && (n <=? 222)%nat && negb (n =? 215)%nat)
  then ascii_of_nat (n + 32)
  else c.

Fixpoint lower (s : string) : string :=
  match s with
  | "" => ""
  | String c s' => String (lower_char c) (lower s')
  end.

(** Lines 332-336: the reset is offered only when a Ledger file exists. *)
Definition offer_reset (H : Host) (O : Operator) : M unit := λ w,
  match files w !! processed_files_path with
  | Some _ =>
      let reset := lower (PyStr.strip (typed_reset O)) in
      if String.eqb reset "y" then reset_processing_status H w
      else (Ok tt, w, [])
  | None => (Ok tt, w, [])
  end.

Definition main (H : Host) (O : Operator) : M main_report :=
  let directory := PyStr.strip (typed_directory O) in
  if negb (directory_exists O directory) then mret (NoDirectory directory)
  else
    match api_key O with
    | None => mret NoApiKey
    | Some key =>
        if PyStr.is_empty key then mret NoApiKey
        else
          offer_reset H O;;
          process_directory H directory;;
          processed_files ← load_processed_files;
          metadata ← load_existing_metadata;
          match py_len metadata with
          | Some entries => mret (Summary (size processed_files) entries)
          | None => raise TypeError
          end
    end.

(** An operator who names the papers directory and answers the reset
    prompt with [answer]. *)
Definition operator (answer : string) : Operator :=
  {| typed_directory := " papers ";
     typed_reset := answer;
     directory_exists := λ d, String.eqb d "papers";
     api_key := Some "key" |}.

(** * Properties *)

(** ** Strings *)
Lemma prefix_empty s : String.prefix "" s = true.
Proof. by destruct s. Qed.

Lemma append_cons c s t : String c s +:+ t = String c (s +:+ t).
Proof. reflexivity. Qed.

Lemma append_empty t : "" +:+ t = t.
Proof. reflexivity. Qed.

(** Unfold a prefix test against a literal and split on each character
    comparison it makes. *)
Ltac prefix_simpl :=
  rewrite ?append_cons, ?append_empty in *;
  cbn [String.prefix PyStr.replace_from String.length Nat.sub] in *;
  rewrite ?prefix_empty, ?append_cons, ?append_empty in *.

Ltac prefix_cases :=
  unfold fence, fence_json in *; prefix_simpl;
  repeat (match goal with
          | H : context [ascii_dec ?a ?b] |- _ => destruct (ascii_dec a b); subst
          | |- context [ascii_dec ?a ?b] => destruct (ascii_dec a b); subst
          end; prefix_simpl);
  try discriminate; try congruence; try reflexivity.

Section StringFacts.

Import PyStr.

Lemma prefix_fence_json s :
  String.prefix fence_json s = true -> String.prefix fence s = true.
Proof.
  destruct s as [|a [|b [|c s]]]; prefix_cases.
Qed.

Lemma contains_cons sub c s :
  contains sub (String c s) = false ->
  String.prefix sub (String c s) = false /\ contains sub s = false.
Proof.
  cbn [contains]. intros Hc. apply orb_false_elim in Hc. exact Hc.
Qed.

(** The closing fence goes, and nothing else, even when the body ends in
    one or two backticks of its own. *)
Lemma remove_closing_fence body :
  contains fence body = false ->
  replace_from fence "" 0 (body +:+ fence) = body.
Proof.
  induction body as [|c b IH]; [reflexivity|].
  intros Hc. apply contains_cons in Hc as [Hp Hs].
  rewrite append_cons.
  cbn [replace_from].
  destruct (String.prefix fence (String c (b +:+ fence))) eqn:Hq.
  - destruct b as [|c1 [|c2 b]]; prefix_cases.
  - f_equal. auto.
Qed.

Lemma keep_closing_fence body :
  contains fence body = false ->
  replace_from fence_json "" 0 (body +:+ fence) = body +:+ fence.
Proof.
  induction body as [|c b IH]; [reflexivity|].
  intros Hc. apply contains_cons in Hc as [Hp Hs].
  rewrite append_cons.
  cbn [replace_from].
  destruct (String.prefix fence_json (String c (b +:+ fence))) eqn:Hq.
  - destruct b as [|c1 [|c2 [|c3 b]]]; prefix_cases.
  - f_equal. auto.
Qed.

Lemma split_semicolons s :
  split "," (replace ";" "," s) = spec_cut s.
Proof.
  unfold split, replace. cbn [is_empty].
  induction s as [|c s IH]; [reflexivity|].
  cbn [replace_from spec_cut String.prefix String.length Nat.sub].
  unfold is_separator.
  destruct (ascii_dec ";" c) as [<-|Hsemi].
  - rewrite prefix_empty, append_cons, append_empty.
    cbn [split_from String.prefix String.length Nat.sub].
    destruct (ascii_dec "," ",") as [_|Hne]; [|congruence].
    rewrite prefix_empty, IH. reflexivity.
  - assert (Ascii.eqb c ";" = false) as ->
      by (apply Ascii.eqb_neq; congruence).
    rewrite orb_false_r.
    cbn [split_from String.prefix String.length Nat.sub].
    destruct (ascii_dec "," c) as [<-|Hcomma].
    + rewrite prefix_empty, IH. reflexivity.
    + assert (Ascii.eqb c "," = false) as ->
        by (apply Ascii.eqb_neq; congruence).
      rewrite IH. reflexivity.
Qed.

Lemma split_names_spec s : split_names s = spec_split_names s.
Proof. unfold split_names, spec_split_names. by rewrite split_semicolons. Qed.

End StringFacts.

Section CleanupFacts.

Import PyStr.

Lemma string_prefix_app p s : String.prefix p (p +:+ s) = true.
Proof.
  induction p as [|c p IH]; [apply prefix_empty|].
  rewrite append_cons. cbn [String.prefix].
  destruct (ascii_dec c c); [exact IH | congruence].
Qed.

Lemma replace_from_skip old new p s :
  replace_from old new (String.length p) (p +:+ s) = replace_from old new 0 s.
Proof. induction p as [|c p IH]; [reflexivity | exact IH]. Qed.

(** An occurrence at the very start is removed and the scan goes on
    behind it. *)
Lemma replace_from_head c old s :
  replace_from (String c old) "" 0 (String c old +:+ s)
  = replace_from (String c old) "" 0 s.
Proof.
  pose proof (string_prefix_app (String c old) s) as Hp.
  rewrite append_cons in Hp |- *. cbn [replace_from]. rewrite Hp.
  cbn [String.length Nat.sub]. rewrite Nat.sub_0_r, append_empty.
  apply replace_from_skip.
Qed.

Lemma no_json_after_fence body :
  startswith "json" body = false ->
  startswith fence_json (fence +:+ body +:+ fence) = false.
Proof.
  unfold startswith. intros Hj.
  destruct body as [|a [|b [|c [|d body]]]]; prefix_cases.
Qed.

(** The scan of [str.replace] with an empty replacement deletes every
    occurrence, in the sense of [deleted]. *)
Lemma prefix_split p : ∀ s,
  String.prefix p s = true -> ∃ r, s = p +:+ r.
Proof.
  induction p as [|c p IH]; intros s Hp; [by exists s|].
  destruct s as [|c' s]; [discriminate|]. cbn [String.prefix] in Hp.
  destruct (ascii_dec c c') as [<-|]; [|discriminate].
  destruct (IH s Hp) as [r ->]. by exists r.
Qed.

Lemma append_length p r :
  String.length (p +:+ r) = String.length p + String.length r.
Proof. induction p as [|c p IH]; [done|]. rewrite append_cons. cbn. by rewrite IH. Qed.

Lemma append_inv_head p : ∀ a b, p +:+ a = p +:+ b -> a = b.
Proof.
  induction p as [|c p IH]; intros a b; [done|].
  rewrite !append_cons. intros [= Heq]. by apply IH.
Qed.

Lemma replace_from_deleted c old s :
  deleted (String c old) s (replace_from (String c old) "" 0 s).
Proof.
  remember (String.length s) as n eqn:Hn. revert s Hn.
  induction n as [n IH] using lt_wf_ind. intros s ->.
  destruct s as [|a s]; [constructor|].
  destruct (String.prefix (String c old) (String a s)) eqn:Hp.
  - destruct (prefix_split _ _ Hp) as [r Hr]. rewrite Hr.
    rewrite replace_from_head. constructor.
    apply (IH (String.length r)); [|done].
    rewrite Hr, append_length. cbn. lia.
  - cbn [replace_from]. rewrite Hp. constructor; [done|].
    apply (IH (String.length s)); [cbn; lia | done].
Qed.

Lemma replace_deleted pat s :
  pat ≠ "" -> deleted pat s (replace pat "" s).
Proof.
  destruct pat as [|c old]; [done|]. intros _. apply replace_from_deleted.
Qed.

(** The rule leaves no choice: the text decides what is left of it. *)
Lemma deleted_functional pat s r1 :
  pat ≠ "" -> deleted pat s r1 -> ∀ r2, deleted pat s r2 -> r1 = r2.
Proof.
  intros Hpat. induction 1 as [|s r1 Hd IH|c s r1 Hp Hd IH]; intros r2 Hr2.
  - inversion Hr2 as [|s' r' Hd' Heq|]; [done|].
    destruct pat; [done | discriminate].
  - inversion Hr2 as [Heq|s' r' Hd' Heq|c' s' r' Hp' Hd' Heq].
    + destruct pat; [done | discriminate].
    + apply append_inv_head in Heq as ->. by apply IH.
    + rewrite Heq, string_prefix_app in Hp'. discriminate.
  - inversion Hr2 as [|s' r' Hd' Heq|c' s' r' Hp' Hd' Heq].
    + rewrite <- Heq, string_prefix_app in Hp. discriminate.
    + f_equal. by apply IH.
Qed.

End CleanupFacts.

(** ** The normaliser, field by field *)
Section NormalizerFacts.

Variable repr : json -> string.

Lemma normalize_authors_lookup (m : gmap string json) :
  normalize_metadata repr m !! "authors" = normalize_authors repr <$> m !! "authors".
Proof.
  unfold normalize_metadata.
  destruct (m !! "authors") as [a|] eqn:Ha; cbn [fmap option_fmap option_map].
  - rewrite lookup_insert_ne by done.
    destruct (m !! "keywords"); [rewrite lookup_insert_ne by done|];
      by rewrite lookup_insert_eq.
  - by destruct (m !! "keywords"); [rewrite lookup_insert_ne by done|].
Qed.

Lemma normalize_keywords_lookup (m : gmap string json) :
  normalize_metadata repr m !! "keywords" = normalize_keywords repr <$> m !! "keywords".
Proof.
  unfold normalize_metadata.
  destruct (m !! "authors") as [a|] eqn:Ha.
  - rewrite lookup_insert_ne by done.
    destruct (m !! "keywords") as [k|] eqn:Hk; cbn [fmap option_fmap option_map].
    + by rewrite lookup_insert_eq.
    + by rewrite lookup_insert_ne.
  - by destruct (m !! "keywords") as [k|] eqn:Hk; [rewrite lookup_insert_eq|].
Qed.

Lemma normalize_other_lookup (m : gmap string json) (k : string) :
  k ≠ "authors" -> k ≠ "keywords" ->
  normalize_metadata repr m !! k = m !! k.
Proof.
  intros Ha Hk. unfold normalize_metadata.
  destruct (m !! "authors").
  - rewrite lookup_insert_ne by done.
    destruct (m !! "keywords"); by rewrite ?lookup_insert_ne by done.
  - destruct (m !! "keywords"); by rewrite ?lookup_insert_ne by done.
Qed.

Lemma normalize_keywords_idempotent (v : json) :
  normalize_keywords repr (normalize_keywords repr v) = normalize_keywords repr v.
Proof.
  assert (Hs : ∀ l : list string,
    (λ k, JStr (py_str repr k)) <$> (JStr <$> l) = JStr <$> l).
  { intros l. rewrite <- list_fmap_compose. reflexivity. }
  destruct v as [| | | |s|l|]; try reflexivity.
  - cbn [normalize_keywords].
    destruct (has_separator s); [cbn; by rewrite Hs|].
    destruct (PyStr.is_empty s); reflexivity.
  - cbn [normalize_keywords]. f_equal.
    rewrite <- list_fmap_compose. reflexivity.
Qed.

End NormalizerFacts.

(** ** Running computations *)
Section MonadFacts.

Context {A B : Type}.

Lemma run_bind (m : M A) (f : A -> M B) (w : world) :
  (m ≫= f) w =
  match m w with
  | (Ok a, w1, t1) => let '(r, w2, t2) := f a w1 in (r, w2, t1 ++ t2)
  | (Raise e, w1, t1) => (Raise e, w1, t1)
  end.
Proof. reflexivity. Qed.

End MonadFacts.

(** ** The extraction client *)
Section ClientFacts.

Variable H : Host.

Lemma attempt_outcome_unfold text n :
  attempt_outcome H text n =
  match generate_content H n (make_prompt text) with
  | Some answer =>
      metadata ← parse_response H (clean_response answer);
      ensure_fields target_fields metadata
  | None => Raise ApiError
  end.
Proof.
  unfold attempt_outcome, attempt_once. rewrite run_bind.
  unfold call_generate, lift. cbn [calls].
  destruct (generate_content H n (make_prompt text)); [|reflexivity].
  rewrite run_bind.
  destruct (parse_response H _) as [v|e]; [|reflexivity].
  cbn [mbind outcome_bind]. by destruct (ensure_fields target_fields v).
Qed.

Lemma attempt_once_run text w :
  attempt_once H text w =
  (attempt_outcome H text (calls w),
   World (files w) (results w) (S (calls w)) (writes w),
   [EvCall (make_prompt text)]).
Proof.
  rewrite attempt_outcome_unfold. unfold attempt_once. rewrite run_bind.
  unfold call_generate, lift.
  destruct (generate_content H (calls w) (make_prompt text)); [|reflexivity].
  rewrite run_bind.
  destruct (parse_response H _) as [v|e]; [|reflexivity].
  cbn [mbind outcome_bind]. by destruct (ensure_fields target_fields v).
Qed.

Lemma ensure_fields_default :
  ensure_fields target_fields (JDict get_default_metadata)
  = Ok (JDict get_default_metadata).
Proof. vm_compute. reflexivity. Qed.

(** On an object the loop fills exactly the missing ones among [keys]. *)
Lemma ensure_fields_dict keys : ∀ d : gmap string json,
  ∃ d' : gmap string json,
    ensure_fields keys (JDict d) = Ok (JDict d') ∧
    ∀ k, d' !! k =
         match d !! k with
         | Some v => Some v
         | None => if bool_decide (k ∈ keys)
                   then Some (dict_get get_default_metadata k JNull)
                   else None
         end.
Proof.
  induction keys as [|key keys IH]; intros d.
  - exists d. split; [reflexivity|]. intros k. by destruct (d !! k).
  - cbn [ensure_fields has_key set_item].
    destruct (d !! key) as [v|] eqn:Hkey.
    + rewrite bool_decide_eq_true_2 by eauto.
      destruct (IH d) as (d' & Hrun & Hd'). exists d'. split; [exact Hrun|].
      intros k. rewrite Hd'. destruct (d !! k) eqn:Hk; [done|].
      assert (k ≠ key) by congruence.
      destruct (bool_decide_reflect (k ∈ keys)) as [Hin|Hin].
      * rewrite bool_decide_eq_true_2; [done | by right].
      * rewrite bool_decide_eq_false_2; [done|].
        intros Hc. apply elem_of_cons in Hc as [?|?]; done.
    + rewrite bool_decide_eq_false_2 by (intros [? ?]; congruence).
      destruct (IH (<[key := dict_get get_default_metadata key JNull]> d))
        as (d' & Hrun & Hd').
      exists d'. split; [exact Hrun|].
      intros k. rewrite Hd'. destruct (decide (k = key)) as [->|Hne].
      * rewrite lookup_insert_eq, Hkey.
        rewrite bool_decide_eq_true_2; [done | by left].
      * rewrite lookup_insert_ne by done. destruct (d !! k); [done|].
        destruct (bool_decide_reflect (k ∈ keys)) as [Hin|Hin].
        -- rewrite bool_decide_eq_true_2; [done | by right].
        -- rewrite bool_decide_eq_false_2; [done|].
           intros Hc. apply elem_of_cons in Hc as [?|?]; done.
Qed.

Lemma default_lookup k :
  (if bool_decide (k ∈ target_fields)
   then Some (dict_get get_default_metadata k JNull)
   else None) = get_default_metadata !! k.
Proof.
  destruct (bool_decide_reflect (k ∈ target_fields)) as [Hin|Hout].
  - unfold target_fields in Hin.
    repeat (apply elem_of_cons in Hin as [->|Hin]; [by vm_compute|]).
    by apply elem_of_nil in Hin.
  - unfold get_default_metadata.
    repeat (rewrite lookup_insert_ne;
            [|intros <-; apply Hout; unfold target_fields; set_solver]).
    by rewrite lookup_empty.
Qed.

Lemma ensure_fields_union (d : gmap string json) :
  ensure_fields target_fields (JDict d) = Ok (JDict (d ∪ get_default_metadata)).
Proof.
  destruct (ensure_fields_dict target_fields d) as (d' & -> & Hd').
  do 2 f_equal. apply map_eq. intros k.
  rewrite Hd', default_lookup, lookup_union.
  destruct (d !! k), (get_default_metadata !! k); reflexivity.
Qed.

(** One failed attempt: sleep and go on, or give up on the last one. *)
Lemma attempts_failed text attempt range delay w :
  generate_content H (calls w) (make_prompt text) = None ->
  attempts H text (attempt :: range) delay w =
  let w1 := World (files w) (results w) (S (calls w)) (writes w) in
  if (attempt <? max_retries - 1)%nat
  then let '(r, w2, t2) := attempts H text range (delay * 2) w1 in
       (r, w2, EvCall (make_prompt text) :: EvSleep delay :: t2)
  else (Ok (JDict get_default_metadata), w1, [EvCall (make_prompt text)]).
Proof.
  intros Hdown. cbn [attempts]. unfold try_except at 1.
  rewrite attempt_once_run, attempt_outcome_unfold, Hdown. cbn zeta.
  destruct (attempt <? max_retries - 1)%nat; [|reflexivity].
  rewrite run_bind. unfold sleep at 1, emit at 1.
  by destruct (attempts H text range (delay * 2) _) as [[??]?].
Qed.

(** The client never raises, leaves the directory and the result list
    alone, and only calls and sleeps. *)
Lemma attempts_quiet text range : ∀ delay w,
  ∃ v n t,
    attempts H text range delay w
    = (Ok v, World (files w) (results w) (calls w + n) (writes w), t)
    ∧ Forall quiet t.
Proof.
  induction range as [|attempt range IH]; intros delay w.
  - exists JNull, 0, []. rewrite Nat.add_0_r. by destruct w.
  - cbn [attempts]. unfold try_except. rewrite attempt_once_run.
    destruct (attempt_outcome H text (calls w)) as [v|e].
    + exists v, 1, [EvCall (make_prompt text)].
      rewrite Nat.add_1_r. split; [reflexivity|]. by repeat constructor.
    + destruct (attempt <? max_retries - 1)%nat.
      * rewrite run_bind. unfold sleep at 1, emit at 1.
        destruct (IH (delay * 2)%Z
                    (World (files w) (results w) (S (calls w)) (writes w)))
          as (v & n & t & -> & Hq).
        exists v, (S n), (EvCall (make_prompt text) :: EvSleep delay :: t).
        cbn. rewrite Nat.add_succ_r. split; [reflexivity|].
        by repeat constructor.
      * exists (JDict get_default_metadata), 1, [EvCall (make_prompt text)].
        rewrite Nat.add_1_r. split; [reflexivity|]. by repeat constructor.
Qed.

Lemma extract_quiet path w :
  ∃ v n t,
    extract_metadata_from_pdf H path w
    = (Ok v, World (files w) (results w) (calls w + n) (writes w), t)
    ∧ Forall quiet t.
Proof.
  unfold extract_metadata_from_pdf.
  destruct (PyStr.is_empty _); [|apply attempts_quiet].
  exists (JDict get_default_metadata), 0, []. rewrite Nat.add_0_r.
  by destruct w.
Qed.

Lemma attempts_step text attempt range delay w :
  attempts H text (attempt :: range) delay w =
  let w1 := World (files w) (results w) (S (calls w)) (writes w) in
  match attempt_outcome H text (calls w) with
  | Ok v => (Ok v, w1, [EvCall (make_prompt text)])
  | Raise _ =>
      if (attempt <? max_retries - 1)%nat
      then let '(r, w2, t2) := attempts H text range (delay * 2) w1 in
           (r, w2, EvCall (make_prompt text) :: EvSleep delay :: t2)
      else (Ok (JDict get_default_metadata), w1, [EvCall (make_prompt text)])
  end.
Proof.
  cbn [attempts]. unfold try_except at 1.
  rewrite attempt_once_run. cbv zeta.
  destruct (attempt_outcome H text (calls w)); [reflexivity|].
  destruct (attempt <? max_retries - 1)%nat; [|reflexivity].
  rewrite run_bind. unfold sleep at 1, emit at 1.
  by destruct (attempts H text range (delay * 2) _) as [[??]?].
Qed.

(** The retry loop unrolled: what the client does is decided by the
    outcomes of at most three calls. *)
Lemma client_ladder pdf_path w :
  let text := extract_text_from_pdf H pdf_path 3 in
  let p := make_prompt text in
  let after n := World (files w) (results w) (calls w + n) (writes w) in
  PyStr.is_empty text = false ->
  extract_metadata_from_pdf H pdf_path w =
  match attempt_outcome H text (calls w) with
  | Ok v => (Ok v, after 1, [EvCall p])
  | Raise _ =>
      match attempt_outcome H text (calls w + 1) with
      | Ok v => (Ok v, after 2, [EvCall p; EvSleep 2; EvCall p])
      | Raise _ =>
          match attempt_outcome H text (calls w + 2) with
          | Ok v =>
              (Ok v, after 3,
               [EvCall p; EvSleep 2; EvCall p; EvSleep 4; EvCall p])
          | Raise _ =>
              (Ok (JDict get_default_metadata), after 3,
               [EvCall p; EvSleep 2; EvCall p; EvSleep 4; EvCall p])
          end
      end
  end.
Proof.
  intros text p after Htext. unfold extract_metadata_from_pdf.
  fold text. rewrite Htext. cbn [seq max_retries].
  assert (H1 : S (calls w) = calls w + 1) by lia.
  assert (H2 : S (S (calls w)) = calls w + 2) by lia.
  assert (H3 : S (S (S (calls w))) = calls w + 3) by lia.
  rewrite attempts_step. cbv zeta.
  destruct (attempt_outcome H text (calls w)); [by rewrite H1|].
  change (0 <? 3 - 1)%nat with true. cbv iota.
  rewrite attempts_step. cbv zeta. cbn [calls files results writes].
  rewrite H1.
  destruct (attempt_outcome H text (calls w + 1));
    [by rewrite <- H1, H2|].
  change (1 <? 3 - 1)%nat with true. cbv iota.
  rewrite attempts_step. cbv zeta. cbn [calls files results writes].
  rewrite <- H1, H2.
  destruct (attempt_outcome H text (calls w + 2)); [by rewrite <- H2, H3|].
  change (2 <? 3 - 1)%nat with false. cbv iota. by rewrite <- H2, H3.
Qed.

(** The attempt that returns decides the run: with the earlier attempts
    failed, what attempt [i] returns is what the client returns, after
    the calls and sleeps up to that attempt and nothing more. *)
Lemma client_on_attempt pdf_path w i v :
  let text := extract_text_from_pdf H pdf_path 3 in
  PyStr.is_empty text = false ->
  (i < 3)%nat ->
  (∀ j, (j < i)%nat -> ∃ e, attempt_outcome H text (calls w + j) = Raise e) ->
  attempt_outcome H text (calls w + i) = Ok v ->
  extract_metadata_from_pdf H pdf_path w =
    (Ok v, World (files w) (results w) (calls w + S i) (writes w),
     backoff_trace (make_prompt text) 2 i).
Proof.
  intros text Htext Hi Hearlier Hv. rewrite client_ladder by done.
  cbv zeta. fold text.
  destruct i as [|[|[|i]]]; [| | |lia].
  - rewrite Nat.add_0_r in Hv. by rewrite Hv.
  - destruct (Hearlier 0) as [e0 H0]; [lia|]. rewrite Nat.add_0_r in H0.
    by rewrite H0, Hv.
  - destruct (Hearlier 0) as [e0 H0]; [lia|]. rewrite Nat.add_0_r in H0.
    destruct (Hearlier 1) as [e1 H1]; [lia|].
    by rewrite H0, H1, Hv.
Qed.

(** An attempt that fails before the last is followed by a sleep and a
    further call. *)
Lemma client_goes_on pdf_path w i :
  let text := extract_text_from_pdf H pdf_path 3 in
  PyStr.is_empty text = false ->
  (i < 2)%nat ->
  (∀ j, (j ≤ i)%nat -> ∃ e, attempt_outcome H text (calls w + j) = Raise e) ->
  ∃ v w' t,
    extract_metadata_from_pdf H pdf_path w =
      (Ok v, w', backoff_trace (make_prompt text) 2 (S i) ++ t).
Proof.
  intros text Htext Hi Hfail. rewrite client_ladder by done.
  cbv zeta. fold text.
  destruct (Hfail 0) as [e0 H0]; [lia|]. rewrite Nat.add_0_r in H0.
  rewrite H0. destruct i as [|[|i]]; [| |lia].
  - destruct (attempt_outcome H text (calls w + 1)).
    + by eexists _, _, [].
    + destruct (attempt_outcome H text (calls w + 2));
        by eexists _, _, [EvSleep 4; EvCall _].
  - destruct (Hfail 1) as [e1 H1]; [lia|]. rewrite H1.
    destruct (attempt_outcome H text (calls w + 2)); by eexists _, _, [].
Qed.

(** Three failed attempts: two sleeps, and the default record. *)
Lemma client_all_fail pdf_path w :
  let text := extract_text_from_pdf H pdf_path 3 in
  PyStr.is_empty text = false ->
  (∀ j, (j < 3)%nat -> ∃ e, attempt_outcome H text (calls w + j) = Raise e) ->
  extract_metadata_from_pdf H pdf_path w =
    (Ok (JDict get_default_metadata),
     World (files w) (results w) (calls w + 3) (writes w),
     backoff_trace (make_prompt text) 2 2).
Proof.
  intros text Htext Hfail. rewrite client_ladder by done. cbv zeta. fold text.
  destruct (Hfail 0) as [e0 H0]; [lia|]. rewrite Nat.add_0_r in H0.
  destruct (Hfail 1) as [e1 H1]; [lia|].
  destruct (Hfail 2) as [e2 H2]; [lia|].
  by rewrite H0, H1, H2.
Qed.

(** What one attempt makes of the three ways [json.loads] can end. *)
Lemma attempt_outcome_parse_error text n answer :
  generate_content H n (make_prompt text) = Some answer ->
  json_loads H (clean_response answer) = Raise JSONDecodeError ->
  attempt_outcome H text n = Ok (JDict get_default_metadata).
Proof.
  intros Ha Hp. rewrite attempt_outcome_unfold. unfold parse_response. rewrite Ha, Hp.
  apply ensure_fields_default.
Qed.

Lemma attempt_outcome_object text n answer d :
  generate_content H n (make_prompt text) = Some answer ->
  json_loads H (clean_response answer) = Ok (JDict d) ->
  attempt_outcome H text n = Ok (JDict (d ∪ get_default_metadata)).
Proof.
  intros Ha Hp. rewrite attempt_outcome_unfold. unfold parse_response. rewrite Ha, Hp.
  apply ensure_fields_union.
Qed.

Lemma attempt_outcome_parse_raises text n answer e :
  generate_content H n (make_prompt text) = Some answer ->
  json_loads H (clean_response answer) = Raise e ->
  e ≠ JSONDecodeError ->
  attempt_outcome H text n = Raise e.
Proof.
  intros Ha Hp He. rewrite attempt_outcome_unfold. unfold parse_response. rewrite Ha, Hp.
  by destruct e.
Qed.

End ClientFacts.

(** ** The extraction client: retries, parse errors, missing fields *)

(** C3. A non-empty extracted text and a completion call that raises on
    every attempt: exactly three calls are made, with a sleep of 2 after
    the first failure and of 4 after the second, and the default record is
    returned. *)
Theorem retry_bound (H : Host) (pdf_path : string) (w : world) :
  let text := extract_text_from_pdf H pdf_path 3 in
  PyStr.is_empty text = false ->
  (∀ n, generate_content H n (make_prompt text) = None) ->
  extract_metadata_from_pdf H pdf_path w =
    (Ok (JDict get_default_metadata),
     World (files w) (results w) (calls w + 3) (writes w),
     [EvCall (make_prompt text); EvSleep 2;
      EvCall (make_prompt text); EvSleep 4;
      EvCall (make_prompt text)]).
Proof.
  intros text Htext Hdown. unfold extract_metadata_from_pdf.
  fold text. rewrite Htext. cbn [seq max_retries].
  rewrite attempts_failed by apply Hdown. cbv zeta.
  change (0 <? 3 - 1)%nat with true. cbv iota.
  rewrite attempts_failed by apply Hdown. cbv zeta.
  change (1 <? 3 - 1)%nat with true. cbv iota.
  rewrite attempts_failed by apply Hdown. cbv zeta.
  change (2 <? 3 - 1)%nat with false. cbv iota.
  cbn [calls files results writes]. do 3 f_equal. lia.
Qed.

Lemma retry_bound_witness :
  extract_metadata_from_pdf host_down "papers/a.pdf" empty_world =
    (Ok (JDict get_default_metadata),
     World ∅ JNull 3 0,
     [EvCall (make_prompt (extract_text_from_pdf host_down "papers/a.pdf" 3));
      EvSleep 2;
      EvCall (make_prompt (extract_text_from_pdf host_down "papers/a.pdf" 3));
      EvSleep 4;
      EvCall (make_prompt (extract_text_from_pdf host_down "papers/a.pdf" 3))]).
Proof.
  apply (retry_bound host_down "papers/a.pdf" empty_world).
  - reflexivity.
  - intros n. reflexivity.
Defined.

(** C5, amended.  Only [JSONDecodeError] ends the attempt with the
    default record.
    When the earlier attempts have failed and the answer of attempt [i]
    is one on which [json.loads] raises [JSONDecodeError], the default
    record is returned on that very attempt: no call and no sleep follow
    the call of attempt [i].  When [json.loads] raises another exception
    on it, the attempt fails like a failed call: on the first two
    attempts a sleep and a further call follow, on the third the default
    record is returned. *)
Theorem parse_error_no_retry (H : Host) (pdf_path : string) (w : world)
    (i : nat) (answer : string) :
  let text := extract_text_from_pdf H pdf_path 3 in
  let prompt := make_prompt text in
  PyStr.is_empty text = false ->
  (i < 3)%nat ->
  (∀ j, (j < i)%nat -> ∃ e, attempt_outcome H text (calls w + j) = Raise e) ->
  generate_content H (calls w + i) prompt = Some answer ->
  (json_loads H (clean_response answer) = Raise JSONDecodeError ->
   extract_metadata_from_pdf H pdf_path w =
     (Ok (JDict get_default_metadata),
      World (files w) (results w) (calls w + S i) (writes w),
      backoff_trace prompt 2 i))
  ∧ (∀ e, e ≠ JSONDecodeError ->
          json_loads H (clean_response answer) = Raise e ->
          attempt_outcome H text (calls w + i) = Raise e
          ∧ match i with
            | 2 =>
                extract_metadata_from_pdf H pdf_path w =
                  (Ok (JDict get_default_metadata),
                   World (files w) (results w) (calls w + 3) (writes w),
                   backoff_trace prompt 2 2)
            | _ =>
                ∃ v w' t,
                  extract_metadata_from_pdf H pdf_path w =
                    (Ok v, w', backoff_trace prompt 2 (S i) ++ t)
            end).
Proof.
  intros text prompt Htext Hi Hearlier Hanswer. split.
  - intros Hparse. apply client_on_attempt; [done..|].
    by apply attempt_outcome_parse_error with answer.
  - intros e He Hparse.
    assert (Hfail : attempt_outcome H text (calls w + i) = Raise e)
      by by apply attempt_outcome_parse_raises with answer.
    split; [done|].
    assert (Hupto : ∀ j, (j ≤ i)%nat ->
              ∃ e', attempt_outcome H text (calls w + j) = Raise e').
    { intros j Hj. destruct (decide (j = i)) as [->|]; [eauto|].
      apply Hearlier. lia. }
    destruct i as [|[|[|i]]]; [| | |lia].
    + apply client_goes_on; [done | lia | exact Hupto].
    + apply client_goes_on; [done | lia | exact Hupto].
    + apply client_all_fail; [done|]. intros j Hj. apply Hupto. lia.
Qed.

Lemma parse_error_no_retry_witness :
  extract_metadata_from_pdf host_late_garbled "papers/a.pdf" empty_world =
    (Ok (JDict get_default_metadata),
     World ∅ JNull 2 0,
     [EvCall (make_prompt (extract_text_from_pdf host_late_garbled "papers/a.pdf" 3));
      EvSleep 2;
      EvCall (make_prompt (extract_text_from_pdf host_late_garbled "papers/a.pdf" 3))]).
Proof.
  destruct (parse_error_no_retry host_late_garbled "papers/a.pdf"
              empty_world 1 "Sorry, no JSON today") as [Hdefault _].
  - reflexivity.
  - lia.
  - intros j Hj. exists ApiError. assert (j = 0) as -> by lia. reflexivity.
  - reflexivity.
  - apply Hdefault. reflexivity.
Defined.

(** C5, as the specification puts it, fails on an answer that is not
    JSON but on which [json.loads] raises [RecursionError]: the parse
    failure is retried, with both sleeps and three calls. *)
Lemma parse_error_no_retry_counterexample :
  json_loads host_deep (clean_response deep_text) = Raise RecursionError
  ∧ extract_metadata_from_pdf host_deep "papers/a.pdf" empty_world =
      (Ok (JDict get_default_metadata),
       World ∅ JNull 3 0,
       [EvCall (make_prompt (extract_text_from_pdf host_deep "papers/a.pdf" 3));
        EvSleep 2;
        EvCall (make_prompt (extract_text_from_pdf host_deep "papers/a.pdf" 3));
        EvSleep 4;
        EvCall (make_prompt (extract_text_from_pdf host_deep "papers/a.pdf" 3))]).
Proof.
  split; [reflexivity|].
  apply (client_all_fail host_deep "papers/a.pdf" empty_world); [reflexivity|].
  intros j _. exists RecursionError.
  by apply attempt_outcome_parse_raises with deep_text.
Qed.

(** C8. An answer that parses to a JSON object, on whichever attempt it
    comes (the earlier ones having failed): the returned object has every
    field of the parsed one unchanged, whatever its type, each of the
    seven target fields that was absent set to its default, and no other
    key; no call and no sleep follow the call of that attempt. *)
Theorem missing_fields_filled (H : Host) (pdf_path : string) (w : world)
    (i : nat) (answer : string) (d : gmap string json) :
  let text := extract_text_from_pdf H pdf_path 3 in
  let prompt := make_prompt text in
  PyStr.is_empty text = false ->
  (i < 3)%nat ->
  (∀ j, (j < i)%nat -> ∃ e, attempt_outcome H text (calls w + j) = Raise e) ->
  generate_content H (calls w + i) prompt = Some answer ->
  json_loads H (clean_response answer) = Ok (JDict d) ->
  ∃ d' : gmap string json,
    extract_metadata_from_pdf H pdf_path w =
      (Ok (JDict d'),
       World (files w) (results w) (calls w + S i) (writes w),
       backoff_trace prompt 2 i)
    ∧ (∀ k v, d !! k = Some v -> d' !! k = Some v)
    ∧ (∀ k, k ∈ target_fields -> d !! k = None ->
            d' !! k = get_default_metadata !! k ∧ is_Some (d' !! k))
    ∧ (∀ k, k ∉ target_fields -> d !! k = None -> d' !! k = None).
Proof.
  intros text prompt Htext Hi Hearlier Hanswer Hparse.
  exists (d ∪ get_default_metadata).
  split; [|split; [|split]].
  - apply client_on_attempt; [done..|].
    by apply attempt_outcome_object with answer.
  - intros k v Hk. by apply lookup_union_Some_l.
  - intros k Hin Hk. rewrite lookup_union_r by done. split; [done|].
    rewrite <- default_lookup, bool_decide_eq_true_2 by done. by eexists.
  - intros k Hout Hk. rewrite lookup_union_r by done.
    by rewrite <- default_lookup, bool_decide_eq_false_2.
Qed.

Lemma missing_fields_filled_witness :
  ∃ d' : gmap string json,
    extract_metadata_from_pdf host_recovering "papers/a.pdf" empty_world =
      (Ok (JDict d'),
       World ∅ JNull 2 0,
       [EvCall (make_prompt (extract_text_from_pdf host_recovering "papers/a.pdf" 3));
        EvSleep 2;
        EvCall (make_prompt (extract_text_from_pdf host_recovering "papers/a.pdf" 3))])
    ∧ (∀ k v, ({["title" := JInt 7]} : gmap string json) !! k = Some v ->
              d' !! k = Some v)
    ∧ (∀ k, k ∈ target_fields ->
            ({["title" := JInt 7]} : gmap string json) !! k = None ->
            d' !! k = get_default_metadata !! k ∧ is_Some (d' !! k))
    ∧ (∀ k, k ∉ target_fields ->
            ({["title" := JInt 7]} : gmap string json) !! k = None ->
            d' !! k = None).
Proof.
  apply (missing_fields_filled host_recovering "papers/a.pdf" empty_world
           1 sample_response {["title" := JInt 7]}).
  - reflexivity.
  - lia.
  - intros j Hj. exists ApiError. assert (j = 0) as -> by lia. reflexivity.
  - reflexivity.
  - reflexivity.
Defined.

(** ** The orchestrator, one file at a time *)
Section OrchestratorFacts.

Variable H : Host.

Lemma paths_differ : metadata_path ≠ processed_files_path.
Proof. done. Qed.

Lemma read_ledger_store_write fs c :
  read_ledger (<[metadata_path := c]> fs) = read_ledger fs.
Proof. unfold read_ledger. by rewrite lookup_insert_ne by apply paths_differ. Qed.

Lemma ledger_paths_store_write fs c :
  ledger_paths (<[metadata_path := c]> fs) = ledger_paths fs.
Proof. unfold ledger_paths. by rewrite lookup_insert_ne by apply paths_differ. Qed.

(** Whatever the iteration order, the list laid out holds the elements
    of the set, each once. *)
Lemma insert_by_perm before x l : insert_by before x l ≡ₚ x :: l.
Proof.
  induction l as [|y l IH]; [done|]. cbn [insert_by].
  destruct (before x y); [done|]. rewrite IH. apply Permutation_swap.
Qed.

Lemma iteration_order_perm before (s : gset string) :
  iteration_order before s ≡ₚ elements s.
Proof.
  unfold iteration_order. induction (elements s) as [|x l IH]; [done|].
  cbn [foldr]. by rewrite insert_by_perm, IH.
Qed.

Lemma py_set_strings (l : list string) :
  py_set (JList (JStr <$> l)) = Some (list_to_set l).
Proof.
  unfold py_set.
  assert (Hh : forallb hashable (JStr <$> l) = true).
  { induction l; [reflexivity | assumption]. }
  rewrite Hh. f_equal.
  assert (Ho : omap as_str (JStr <$> l) = l).
  { induction l as [|x l IH]; [reflexivity|]. cbn. by rewrite IH. }
  by rewrite Ho.
Qed.

Lemma py_set_ledger_doc before (s : gset string) :
  py_set (ledger_doc before s) = Some s.
Proof.
  unfold ledger_doc. rewrite py_set_strings. f_equal.
  rewrite (list_to_set_perm_L _ _ (iteration_order_perm before s)).
  apply list_to_set_elements_L.
Qed.

Lemma read_ledger_paths fs s : read_ledger fs = Ok s -> ledger_paths fs = s.
Proof.
  unfold read_ledger, ledger_paths, paths_of.
  destruct (fs !! processed_files_path) as [[v| |e]|]; try congruence.
  - destruct (py_set v); cbn; congruence.
  - destruct (caught_on_load e); congruence.
Qed.

Lemma save_processed_file_run filename w :
  save_processed_file H filename w =
  match read_ledger (files w) with
  | Ok s =>
      write_json H processed_files_path true
        (ledger_doc (set_before H (writes w)) (s ∪ {[filename]})) w
  | Raise e => (Raise e, w, [])
  end.
Proof.
  unfold save_processed_file. rewrite run_bind. unfold load_processed_files.
  destruct (read_ledger (files w)); [|reflexivity].
  rewrite run_bind. unfold get_writes.
  by destruct (write_json _ _ _ _ _) as [[??]?].
Qed.

(** Lines 288-294: the Store is written in full, then the path marked. *)
Lemma commit_run f w r w' t :
  has_record (relative_path f) (results w) ->
  (rs ← get_results;
   write_json H metadata_path false rs;;
   save_processed_file H (relative_path f);;
   emit (EvSaved (relative_path f))) w = (r, w', t) ->
  file_run f (files w) r (files w') t.
Proof.
  intros Hrec. rewrite run_bind. unfold get_results. rewrite run_bind.
  unfold write_json at 1.
  destruct (write_fault H (writes w)).
  - rewrite run_bind, save_processed_file_run. cbn [files].
    rewrite read_ledger_store_write.
    destruct (read_ledger (files w)) as [s|e] eqn:Hs.
    + unfold write_json. cbn [writes files results calls].
      destruct (write_fault H (S (writes w))); cbn;
        intros [= <- <- <-]; cbn; by constructor.
    + cbn. intros [= <- <- <-]. cbn. by constructor.
  - cbn. intros [= <- <- <-]. cbn. constructor.
  - cbn. intros [= <- <- <-]. cbn. by constructor.
  - cbn. intros [= <- <- <-]. cbn. by constructor.
Qed.

Lemma record_has_path f (d : gmap string json) l :
  has_record (relative_path f)
    (JList (l ++ [JDict (normalize_metadata (py_repr H) (with_provenance f d))])).
Proof.
  eexists _, _. split; [reflexivity|]. split.
  - apply elem_of_app. right. apply list_elem_of_singleton. reflexivity.
  - rewrite normalize_other_lookup by done. unfold with_provenance.
    rewrite lookup_insert_ne by done. apply lookup_insert_eq.
Qed.

(** The per-file body: the client's calls and sleeps, then one of the
    five endings of [file_run]. *)
Lemma process_file_run f w r w' t :
  process_file H f w = (r, w', t) ->
  ∃ tq tw, t = tq ++ tw ∧ Forall quiet tq ∧ file_run f (files w) r (files w') tw.
Proof.
  unfold process_file. rewrite run_bind.
  destruct (extract_quiet H (full_path f) w) as (v & n & tq & -> & Hq).
  assert (Hearly : ∀ (e : exn) (w1 : world),
    files w1 = files w ->
    (Raise e, w1, tq ++ []) = (r, w', t) ->
    ∃ tq tw, t = tq ++ tw ∧ Forall quiet tq ∧ file_run f (files w) r (files w') tw).
  { intros e w1 Hw1 [= <- <- <-]. exists tq, []. rewrite Hw1.
    split; [done|]. split; [done|]. constructor. }
  destruct v as [| | | | | |d]; try (by apply Hearly).
  set (m := normalize_metadata (py_repr H) (with_provenance f d)).
  rewrite run_bind. unfold lift at 1.
  destruct (report m) as [[]|e]; [|by apply Hearly].
  rewrite run_bind. unfold append_result. rewrite run_bind.
  unfold get_results at 1. cbn [results].
  destruct (results w) as [| | | | |l|] eqn:Hres; try (by apply Hearly).
  unfold set_results at 1. cbn [files results calls writes].
  match goal with
  | |- context [(get_results ≫= ?k) ?w2] =>
      destruct ((get_results ≫= k) w2) as [[r2 w2'] t2] eqn:Hcommit
  end.
  apply commit_run in Hcommit; [|apply record_has_path].
  cbn [files] in Hcommit. cbn. intros [= <- <- <-].
  by exists tq, t2.
Qed.

End OrchestratorFacts.

(** ** Traces *)
Section TraceFacts.

Lemma recorded_app t1 t2 p : recorded (t1 ++ t2) p ↔ recorded t1 p ∨ recorded t2 p.
Proof.
  unfold recorded. split.
  - intros (v & Hin & Hrec). apply elem_of_app in Hin as [Hin|Hin]; eauto.
  - intros [(v & Hin & Hrec)|(v & Hin & Hrec)]; exists v;
      (split; [apply elem_of_app; auto | done]).
Qed.

Lemma ordered_nil known : ordered known [].
Proof. intros [|??] ???? Heq; discriminate. Qed.

Lemma ordered_mono (known known' : string -> Prop) t :
  (∀ p, known p -> known' p) -> ordered known t -> ordered known' t.
Proof.
  intros Hk Ht t1 c t2 p Heq Hp. destruct (Ht t1 c t2 p Heq Hp); auto.
Qed.

Lemma ordered_app known t1 t2 :
  ordered known t1 ->
  ordered (λ p, known p ∨ recorded t1 p) t2 ->
  ordered known (t1 ++ t2).
Proof.
  intros H1 H2 a c b p Heq Hp.
  apply app_eq_inv in Heq as [(k & -> & Hk)|(k & -> & ->)].
  - destruct k as [|e k]; cbn in Hk.
    + subst t2.
      destruct (H2 [] c b p eq_refl Hp) as [[?|Hr]|(? & Hin & _)]; auto.
      * right. by rewrite app_nil_r in Hr.
      * by apply elem_of_nil in Hin.
    + injection Hk as <- ->. eapply H1; [reflexivity | done].
  - destruct (H2 k c b p eq_refl Hp) as [[?|?]|?]; auto;
      right; apply recorded_app; auto.
Qed.

(** A trace that does not write the Ledger has nothing to answer for. *)
Lemma ordered_no_ledger known t :
  (∀ c, EvWrite processed_files_path c ∉ t) -> ordered known t.
Proof.
  intros Hno t1 c t2 p -> _. exfalso. apply (Hno c).
  apply elem_of_app. right. left.
Qed.

Lemma ordered_ledger_write known c t :
  (∀ p, p ∈ paths_of c -> known p) ->
  ordered known t ->
  ordered known (EvWrite processed_files_path c :: t).
Proof.
  intros Hc Ht [|e t1] c' t2 p Heq Hp.
  - injection Heq as <- <-. auto.
  - injection Heq as <- ->. destruct (Ht t1 c' t2 p eq_refl Hp) as [?|Hr]; auto.
    right. apply (recorded_app [_] t1). auto.
Qed.

Lemma quiet_no_ledger tq c :
  Forall quiet tq -> EvWrite processed_files_path c ∉ tq.
Proof.
  intros Hq Hin. rewrite Forall_forall in Hq. by apply Hq in Hin.
Qed.

Lemma processing_order_app t1 t2 :
  processing_order (t1 ++ t2) = processing_order t1 ++ processing_order t2.
Proof. apply omap_app. Qed.

Lemma processing_order_quiet tq : Forall quiet tq -> processing_order tq = [].
Proof.
  induction 1 as [|e tq He _ IH]; [reflexivity|].
  unfold processing_order in *. cbn. rewrite IH. by destruct e.
Qed.

End TraceFacts.

(** ** What the five endings mean for the Ledger *)
Section FileRunFacts.

Lemma ledger_paths_marked fs before (s : gset string) :
  ledger_paths (<[processed_files_path := FJson (ledger_doc before s)]> fs) = s.
Proof.
  unfold ledger_paths. rewrite lookup_insert_eq. cbn [paths_of].
  by rewrite py_set_ledger_doc.
Qed.

Lemma read_ledger_marked fs before (s : gset string) :
  read_ledger (<[processed_files_path := FJson (ledger_doc before s)]> fs) = Ok s.
Proof.
  unfold read_ledger. rewrite lookup_insert_eq. by rewrite py_set_ledger_doc.
Qed.

Lemma ledger_paths_broken fs :
  ledger_paths (<[processed_files_path := FCorrupt]> fs) = ∅.
Proof. unfold ledger_paths. by rewrite lookup_insert_eq. Qed.

Lemma store_write_no_ledger c c' :
  EvWrite processed_files_path c ∉ [EvWrite metadata_path c'].
Proof. intros Hin. apply list_elem_of_singleton in Hin. discriminate. Qed.

Lemma file_run_facts f fs r fs' tw :
  file_run f fs r fs' tw ->
  processing_order tw = []
  ∧ (∀ rel, EvSkipped rel ∉ tw)
  ∧ (∀ known : string -> Prop,
       (∀ p, p ∈ ledger_paths fs -> known p) ->
       ordered known tw ∧ ∀ p, p ∈ ledger_paths fs' -> known p ∨ recorded tw p)
  ∧ (∀ p, p ∈ ledger_paths fs' ->
          p ∈ ledger_paths fs ∨ (r = Ok tt ∧ p = relative_path f))
  ∧ (r = Ok tt ->
       EvSaved (relative_path f) ∈ tw
       ∧ ∀ s, read_ledger fs = Ok s ->
              read_ledger fs' = Ok (s ∪ {[relative_path f]})).
Proof.
  destruct 1 as [e|c0 Hc0|e v Hrec|v Hrec|v s before Hrec Hs].
  - (* nothing written *)
    split; [done|]. split; [intros rel Hin; by apply elem_of_nil in Hin|].
    split; [|split; [auto | done]].
    intros known Hk. split; [apply ordered_nil | auto].
  - (* Store left broken *)
    split; [done|]. split; [intros rel Hin; by apply list_elem_of_singleton in Hin|].
    rewrite ledger_paths_store_write.
    split; [|split; [auto | done]].
    intros known Hk. split; [|auto].
    apply ordered_no_ledger. intros c. apply store_write_no_ledger.
  - (* Store written, path not marked *)
    split; [done|]. split; [intros rel Hin; by apply list_elem_of_singleton in Hin|].
    rewrite ledger_paths_store_write.
    split; [|split; [auto | done]].
    intros known Hk. split; [|auto].
    apply ordered_no_ledger. intros c. apply store_write_no_ledger.
  - (* Ledger left broken *)
    split; [done|].
    split; [intros rel Hin; repeat (apply elem_of_cons in Hin as [?|Hin]; [done|]);
            by apply elem_of_nil in Hin|].
    rewrite ledger_paths_broken.
    split; [|split; [set_solver | done]].
    intros known Hk. split; [|set_solver].
    apply (ordered_app known [_] [_]).
    + apply ordered_no_ledger. intros c. apply store_write_no_ledger.
    + apply ordered_ledger_write; [cbn; set_solver | apply ordered_nil].
  - (* saved and marked *)
    split; [done|].
    split; [intros rel Hin; repeat (apply elem_of_cons in Hin as [?|Hin]; [done|]);
            by apply elem_of_nil in Hin|].
    rewrite ledger_paths_marked.
    pose proof (read_ledger_paths _ _ Hs) as Hpaths.
    assert (Hwritten : recorded [EvWrite metadata_path (FJson v)] (relative_path f)).
    { exists v. split; [left | done]. }
    split; [|split].
    + intros known Hk. split.
      * apply (ordered_app known [_] [_; _]).
        -- apply ordered_no_ledger. intros c. apply store_write_no_ledger.
        -- apply ordered_ledger_write.
           ++ cbn [paths_of]. rewrite py_set_ledger_doc. cbn [default from_option id].
              intros p Hp.
              apply elem_of_union in Hp as [Hp|Hp].
              ** left. apply Hk. by rewrite Hpaths.
              ** apply elem_of_singleton in Hp as ->. by right.
           ++ apply ordered_no_ledger. intros c Hin.
              by apply list_elem_of_singleton in Hin.
      * intros p Hp. apply elem_of_union in Hp as [Hp|Hp].
        -- left. apply Hk. by rewrite Hpaths.
        -- apply elem_of_singleton in Hp as ->. right.
           apply (recorded_app [_] [_; _]). by left.
    + intros p Hp. rewrite Hpaths. apply elem_of_union in Hp as [Hp|Hp]; [by left|].
      apply elem_of_singleton in Hp. by right.
    + intros _. split; [set_solver|].
      intros s' Hs'. rewrite Hs in Hs'. injection Hs' as <-. apply read_ledger_marked.
Qed.

End FileRunFacts.

(** ** The per-file [try] and the loop over the candidates *)
Section LoopFacts.

Variable H : Host.

Lemma step_facts f w r w' t :
  try_except (process_file H f) (λ _, emit (EvSkipped (relative_path f))) w
  = (r, w', t) ->
  r = Ok tt
  ∧ processing_order t = []
  ∧ (∀ known : string -> Prop,
       (∀ p, p ∈ ledger_paths (files w) -> known p) ->
       ordered known t
       ∧ ∀ p, p ∈ ledger_paths (files w') -> known p ∨ recorded t p)
  ∧ (∀ p, p ∈ ledger_paths (files w') ->
          p ∈ ledger_paths (files w) ∨ EvSaved p ∈ t)
  ∧ ((∀ rel, EvSkipped rel ∉ t) ->
     ∀ s, read_ledger (files w) = Ok s ->
          read_ledger (files w') = Ok (s ∪ {[relative_path f]})).
Proof.
  unfold try_except.
  destruct (process_file H f w) as [[r0 w0] t0] eqn:Hpf.
  apply process_file_run in Hpf as (tq & tw & -> & Hq & Hrun).
  apply file_run_facts in Hrun as (Hpo & Hns & Hord & Hmark & Hok).
  assert (Hbody : ∀ known : string -> Prop,
    (∀ p, p ∈ ledger_paths (files w) -> known p) ->
    ordered known (tq ++ tw)
    ∧ ∀ p, p ∈ ledger_paths (files w0) -> known p ∨ recorded (tq ++ tw) p).
  { intros known Hk. destruct (Hord known Hk) as [Ho Hr]. split.
    - apply ordered_app.
      + apply ordered_no_ledger. intros c. by apply quiet_no_ledger.
      + eapply ordered_mono; [|exact Ho]. auto.
    - intros p Hp. destruct (Hr p Hp); [by left|].
      right. apply recorded_app. by right. }
  destruct r0 as [[]|e].
  - intros [= <- <- <-]. split; [done|]. split; [|split; [exact Hbody|split]].
    + by rewrite processing_order_app, processing_order_quiet, Hpo.
    + intros p Hp. destruct (Hmark p Hp) as [?|[_ ->]]; [by left|].
      right. apply elem_of_app. right. by apply Hok.
    + intros _. by apply Hok.
  - unfold emit. intros [= <- <- <-].
    split; [done|]. split; [|split; [|split]].
    + by rewrite !processing_order_app, processing_order_quiet, Hpo.
    + intros known Hk. destruct (Hbody known Hk) as [Ho Hr]. split.
      * apply ordered_app; [exact Ho|].
        apply ordered_no_ledger. intros c Hin.
        by apply list_elem_of_singleton in Hin.
      * intros p Hp. destruct (Hr p Hp); [by left|].
        right. apply recorded_app. by left.
    + intros p Hp. destruct (Hmark p Hp) as [?|[? _]]; [by left | done].
    + intros Hnone. exfalso. apply (Hnone (relative_path f)).
      apply elem_of_app. right. left.
Qed.

Lemma process_files_facts fs : ∀ w r w' t,
  process_files H fs w = (r, w', t) ->
  r = Ok tt
  ∧ processing_order t = relative_path <$> fs
  ∧ (∀ known : string -> Prop,
       (∀ p, p ∈ ledger_paths (files w) -> known p) ->
       ordered known t
       ∧ ∀ p, p ∈ ledger_paths (files w') -> known p ∨ recorded t p)
  ∧ (∀ p, p ∈ ledger_paths (files w') ->
          p ∈ ledger_paths (files w) ∨ EvSaved p ∈ t)
  ∧ ((∀ rel, EvSkipped rel ∉ t) ->
     ∀ s, read_ledger (files w) = Ok s ->
          ∃ s', read_ledger (files w') = Ok s'
                ∧ s ⊆ s' ∧ ∀ f, f ∈ fs -> relative_path f ∈ s').
Proof.
  induction fs as [|f rest IH]; intros w r w' t.
  - intros [= <- <- <-]. split; [done|]. split; [done|]. split; [|split].
    + intros known Hk. split; [apply ordered_nil | auto].
    + auto.
    + intros _ s Hs. exists s. split; [done|]. split; [done|].
      intros f Hin. by apply elem_of_nil in Hin.
  - cbn [process_files]. rewrite run_bind. unfold emit at 1.
    rewrite run_bind.
    destruct (try_except _ _ w) as [[r1 w1] t1] eqn:Hstep.
    apply step_facts in Hstep as (-> & Hpo1 & Hord1 & Hmark1 & Hok1).
    destruct (process_files H rest w1) as [[r2 w2] t2] eqn:Hrest.
    apply IH in Hrest as (-> & Hpo2 & Hord2 & Hmark2 & Hok2).
    intros [= <- <- <-]. split; [done|]. split; [|split; [|split]].
    + change (EvProcessing (relative_path f) :: t1 ++ t2)
        with ([EvProcessing (relative_path f)] ++ (t1 ++ t2)).
      rewrite !processing_order_app, Hpo1, Hpo2. reflexivity.
    + change (EvProcessing (relative_path f) :: t1 ++ t2)
        with ([EvProcessing (relative_path f)] ++ (t1 ++ t2)).
      intros known Hk. destruct (Hord1 known Hk) as [Ho1 Hr1].
      destruct (Hord2 (λ p, known p ∨ recorded t1 p) Hr1) as [Ho2 Hr2].
      assert (Hstart : ∀ p, recorded ([EvProcessing (relative_path f)] ++ t1) p
                            ↔ recorded t1 p).
      { intros p. rewrite recorded_app. split; [|auto].
        intros [(v & Hin & _)|?]; [|done].
        by apply list_elem_of_singleton in Hin. }
      split.
      * apply (ordered_app known [_]).
        -- apply ordered_no_ledger. intros c Hin.
           by apply list_elem_of_singleton in Hin.
        -- apply ordered_app.
           ++ eapply ordered_mono; [|exact Ho1]. auto.
           ++ eapply ordered_mono; [|exact Ho2]. cbn. intros p [?|?]; auto.
      * intros p Hp. destruct (Hr2 p Hp) as [[?|?]|?]; [by left| |].
        -- right. apply (recorded_app [_]). right. apply recorded_app. by left.
        -- right. apply (recorded_app [_]). right. apply recorded_app. by right.
    + intros p Hp. destruct (Hmark2 p Hp) as [Hp1|Hin].
      * destruct (Hmark1 p Hp1) as [?|Hin]; [by left|].
        right. apply elem_of_cons. right. apply elem_of_app. by left.
      * right. apply elem_of_cons. right. apply elem_of_app. by right.
    + intros Hnone s Hs.
      assert (Hnone1 : ∀ rel, EvSkipped rel ∉ t1).
      { intros rel Hin. apply (Hnone rel).
        apply elem_of_cons. right. apply elem_of_app. by left. }
      assert (Hnone2 : ∀ rel, EvSkipped rel ∉ t2).
      { intros rel Hin. apply (Hnone rel).
        apply elem_of_cons. right. apply elem_of_app. by right. }
      destruct (Hok2 Hnone2 _ (Hok1 Hnone1 s Hs)) as (s' & Hs' & Hsub & Hall).
      exists s'. split; [done|]. split.
      * etrans; [apply union_subseteq_l | exact Hsub].
      * intros g Hg. apply elem_of_cons in Hg as [->|Hg]; [|auto].
        apply Hsub, elem_of_union. right. by apply elem_of_singleton.
Qed.



End LoopFacts.

(** ** The orchestrator: write-then-mark, idempotence, default records *)
Section OrchestratorClaims.

Variable H : Host.



Lemma process_directory_run directory_path w :
  process_directory H directory_path w =
  match read_ledger (files w) with
  | Raise e => (Raise e, w, [])
  | Ok s =>
      match read_store (files w) with
      | Raise e => (Raise e, w, [])
      | Ok rs =>
          let w1 := World (files w) rs (calls w) (writes w) in
          match unprocessed s (rglob_pdf H directory_path) with
          | [] => (Ok tt, w1, [EvAllProcessed])
          | fs => process_files H fs w1
          end
      end
  end.
Proof.
  unfold process_directory. rewrite run_bind. unfold load_processed_files.
  destruct (read_ledger (files w)) as [s|e]; [|reflexivity].
  rewrite run_bind. unfold load_existing_metadata.
  destruct (read_store (files w)) as [rs|e]; [|reflexivity].
  rewrite run_bind.
  unfold set_results. cbn [files results calls writes].
  destruct (unprocessed s (rglob_pdf H directory_path)) as [|f fs].
  - reflexivity.
  - by destruct (process_files H (f :: fs) _) as [[??]?].
Qed.

(** C1. Write-then-mark.  In a run of [process_directory] every write
    of the Ledger file lists only paths that were in the Ledger at the
    start or whose record is in a complete Store write earlier in the
    trace; a path that is new in the Ledger at the end had its processing
    reach the last line of the [try] body; once the Ledger and the Store
    have loaded, every candidate is begun, in enumeration order, whatever
    happened to the ones before.  And a body that raises leaves no path
    in the Ledger that was not there. *)
Theorem write_then_mark (directory_path : string) :
  (∀ w r w' t,
     process_directory H directory_path w = (r, w', t) ->
     ordered (λ p, p ∈ ledger_paths (files w)) t
     ∧ (∀ p, p ∈ ledger_paths (files w') ->
             p ∈ ledger_paths (files w) ∨ EvSaved p ∈ t)
     ∧ (∀ s rs, read_ledger (files w) = Ok s ->
                read_store (files w) = Ok rs ->
                processing_order t
                = relative_path <$> unprocessed s (rglob_pdf H directory_path)))
  ∧ (∀ f w e w' t,
       process_file H f w = (Raise e, w', t) ->
       ledger_paths (files w') ⊆ ledger_paths (files w)).
Proof.
  split.
  - intros w r w' t. rewrite process_directory_run.
    destruct (read_ledger (files w)) as [s|e] eqn:Hs.
    + destruct (read_store (files w)) as [rs|e] eqn:Hrs.
      * cbv zeta.
        destruct (unprocessed s (rglob_pdf H directory_path)) as [|f fs] eqn:Hun.
        -- intros [= <- <- <-]. cbn [files]. split; [|split; [auto|]].
           ++ apply ordered_no_ledger. intros c Hin.
              by apply list_elem_of_singleton in Hin.
           ++ intros s' rs' Hs' _. injection Hs' as <-. by rewrite Hun.
        -- intros Hrun.
           apply process_files_facts in Hrun as (_ & Hpo & Hord & Hmark & _).
           cbn [files] in Hord, Hmark. split; [|split; [exact Hmark|]].
           ++ by apply Hord.
           ++ intros s' rs' Hs' _. injection Hs' as <-. by rewrite Hun.
      * intros [= <- <- <-]. split; [apply ordered_nil|]. split; [auto|].
        intros s' rs' _ Hrs'. discriminate.
    + intros [= <- <- <-]. split; [apply ordered_nil|]. split; [auto|].
      intros s' rs' Hs'. discriminate.
  - intros f w e w' t Hrun.
    apply process_file_run in Hrun as (tq & tw & _ & _ & Hrun).
    apply file_run_facts in Hrun as (_ & _ & _ & Hmark & _).
    intros p Hp. by destruct (Hmark p Hp) as [?|[? _]].
Qed.


End OrchestratorClaims.

Lemma none_skipped_check (t : list event) :
  forallb (λ e, match e with EvSkipped _ => false | _ => true end) t = true ->
  ∀ rel, EvSkipped rel ∉ t.
Proof.
  intros Hall rel Hin. rewrite forallb_forall in Hall.
  apply list_elem_of_In, Hall in Hin. discriminate.
Qed.

Lemma write_then_mark_witness :
  ordered (λ p, p ∈ ledger_paths (files empty_world))
          (process_directory host_flaky "papers" empty_world).2
  ∧ ledger_paths (files (process_file host_flaky pdf_a fresh_run).1.2)
    ⊆ ledger_paths (files fresh_run).
Proof.
  split.
  - eapply (proj1 (write_then_mark host_flaky "papers")
               empty_world
               (process_directory host_flaky "papers" empty_world).1.1
               (process_directory host_flaky "papers" empty_world).1.2
               (process_directory host_flaky "papers" empty_world).2).
    vm_compute. reflexivity.
  - eapply (proj2 (write_then_mark host_flaky "papers")
               pdf_a fresh_run IOError
               (process_file host_flaky pdf_a fresh_run).1.2
               (process_file host_flaky pdf_a fresh_run).2).
    vm_compute. reflexivity.
Defined.


(** ** Empty extraction *)
Section DefaultRecord.

Variable H : Host.

Lemma provenance_keeps f (d : gmap string json) k :
  k ∈ target_fields -> with_provenance f d !! k = d !! k.
Proof.
  intros Hk. unfold with_provenance, target_fields in *.
  repeat (apply elem_of_cons in Hk as [->|Hk];
          [by rewrite !lookup_insert_ne by done|]).
  by apply elem_of_nil in Hk.
Qed.

Lemma normalize_default f :
  normalize_metadata (py_repr H) (with_provenance f get_default_metadata)
  = with_provenance f get_default_metadata.
Proof.
  apply map_eq. intros k.
  destruct (decide (k = "authors")) as [->|Ha].
  - rewrite normalize_authors_lookup, provenance_keeps
      by (unfold target_fields; set_solver).
    reflexivity.
  - destruct (decide (k = "keywords")) as [->|Hk].
    + rewrite normalize_keywords_lookup, provenance_keeps
        by (unfold target_fields; set_solver).
      reflexivity.
    + by apply normalize_other_lookup.
Qed.

Lemma report_default f :
  report (with_provenance f get_default_metadata) = Ok tt.
Proof.
  assert (Hsub : ∀ k v,
    with_provenance f get_default_metadata !! k = Some v ->
    subscript (with_provenance f get_default_metadata) k = Ok v).
  { intros k v Hk. unfold subscript. by rewrite Hk. }
  assert (Hfield : ∀ k v,
    k ∈ target_fields -> get_default_metadata !! k = Some v ->
    subscript (with_provenance f get_default_metadata) k = Ok v).
  { intros k v Hk Hv. apply Hsub. by rewrite provenance_keeps. }
  unfold report.
  rewrite (Hsub "filename" (JStr (name f)))
    by (unfold with_provenance; rewrite !lookup_insert_ne by done;
        apply lookup_insert_eq).
  rewrite (Hsub "relative_path" (JStr (relative_path f)))
    by (unfold with_provenance; rewrite lookup_insert_ne by done;
        apply lookup_insert_eq).
  rewrite (Hfield "title" (JStr "unknown")),
          (Hfield "authors" (JList [JStr "unknown"])),
          (Hfield "year" (JStr "unknown")),
          (Hfield "journal" (JStr "unknown")),
          (Hfield "doi" (JStr "unknown")),
          (Hfield "keywords" (JList [])),
          (Hfield "abstract" (JStr "unknown"))
    by (reflexivity || (unfold target_fields; set_solver)).
  reflexivity.
Qed.

(** C6. A PDF whose extracted text is empty: the client returns the
    default record at once, without any completion call, and the record
    the orchestrator appends to its result list, and writes with the
    Store when the write goes through, is the default record with the
    three provenance fields set and nothing else changed. *)
Theorem default_on_empty_text (f : pdf_file) (w : world) :
  PyStr.is_empty (extract_text_from_pdf H (full_path f) 3) = true ->
  extract_metadata_from_pdf H (full_path f) w
  = (Ok (JDict get_default_metadata), w, [])
  ∧ (∀ k, k ∈ target_fields ->
          with_provenance f get_default_metadata !! k = get_default_metadata !! k)
  ∧ ∀ l, results w = JList l ->
      let record := JDict (with_provenance f get_default_metadata) in
      let '(r, w', t) := process_file H f w in
      results w' = JList (l ++ [record])
      ∧ calls w' = calls w
      ∧ (∀ prompt, EvCall prompt ∉ t)
      ∧ (write_fault H (writes w) = WOk ->
         files w' !! metadata_path = Some (FJson (JList (l ++ [record])))).
Proof.
  intros Hempty.
  assert (Hclient : extract_metadata_from_pdf H (full_path f) w
                    = (Ok (JDict get_default_metadata), w, [])).
  { unfold extract_metadata_from_pdf. by rewrite Hempty. }
  split; [exact Hclient|]. split.
  - intros k Hk. unfold with_provenance, target_fields in *.
    repeat (apply elem_of_cons in Hk as [->|Hk]; [by vm_compute|]).
    by apply elem_of_nil in Hk.
  - intros l Hl record. unfold process_file.
    rewrite run_bind, Hclient, normalize_default.
    rewrite run_bind. unfold lift at 1. rewrite report_default.
    rewrite run_bind. unfold append_result. rewrite run_bind.
    unfold get_results at 1. rewrite Hl. unfold set_results at 1.
    rewrite run_bind. unfold get_results. cbn [results].
    rewrite run_bind. unfold write_json at 1. cbn [files results calls writes].
    destruct (write_fault H (writes w)) eqn:Hfault.
    + rewrite run_bind, save_processed_file_run. cbn [files].
      destruct (read_ledger _) as [s|e].
      * unfold write_json. cbn [files results calls writes].
        destruct (write_fault H (S (writes w))); cbn;
          (split; [done|]); (split; [done|]);
          (split; [|intros _; rewrite ?lookup_insert_ne by done;
                    apply lookup_insert_eq]);
          intros prompt Hin;
          repeat (apply elem_of_cons in Hin as [Hin|Hin]; [discriminate|]);
          by apply elem_of_nil in Hin.
      * cbn. split; [done|]. split; [done|].
        split; [|intros _; apply lookup_insert_eq].
        intros prompt Hin.
        repeat (apply elem_of_cons in Hin as [Hin|Hin]; [discriminate|]).
        by apply elem_of_nil in Hin.
    + cbn. split; [done|]. split; [done|]. split; [|done].
      intros prompt Hin. by apply elem_of_nil in Hin.
    + cbn. split; [done|]. split; [done|]. split; [|done].
      intros prompt Hin.
      repeat (apply elem_of_cons in Hin as [Hin|Hin]; [discriminate|]).
      by apply elem_of_nil in Hin.
    + cbn. split; [done|]. split; [done|]. split; [|done].
      intros prompt Hin.
      repeat (apply elem_of_cons in Hin as [Hin|Hin]; [discriminate|]).
      by apply elem_of_nil in Hin.
Qed.

(** ** Reset *)

Lemma backup_not_ledger : backup_name H ≠ processed_files_path.
Proof. unfold backup_name. rewrite append_cons. discriminate. Qed.

Lemma backup_not_store : backup_name H ≠ metadata_path.
Proof. unfold backup_name. rewrite !append_cons. discriminate. Qed.


End DefaultRecord.

Lemma default_on_empty_text_witness :
  extract_metadata_from_pdf host_up "papers/scan.pdf" fresh_run
  = (Ok (JDict get_default_metadata), fresh_run, [])
  ∧ files (process_file host_up pdf_scan fresh_run).1.2 !! metadata_path
    = Some (FJson (JList [JDict (with_provenance pdf_scan get_default_metadata)])).
Proof.
  assert (Hempty : PyStr.is_empty
                     (extract_text_from_pdf host_up (full_path pdf_scan) 3) = true)
    by reflexivity.
  destruct (default_on_empty_text host_up pdf_scan fresh_run Hempty)
    as (Hclient & _ & Hrecord).
  split; [exact Hclient|].
  specialize (Hrecord [] eq_refl). cbv zeta in Hrecord.
  destruct (process_file host_up pdf_scan fresh_run) as [[r w'] t].
  destruct Hrecord as (_ & _ & _ & Hstore). by apply Hstore.
Defined.


(** ** Response cleanup *)

Lemma replace_fence s :
  PyStr.replace fence "" s = PyStr.replace_from fence "" 0 s.
Proof. reflexivity. Qed.

Lemma replace_fence_json s :
  PyStr.replace fence_json "" s = PyStr.replace_from fence_json "" 0 s.
Proof. reflexivity. Qed.

Lemma remove_opening_fence_json s :
  PyStr.replace_from fence_json "" 0 (fence_json +:+ s)
  = PyStr.replace_from fence_json "" 0 s.
Proof. apply (replace_from_head "`" "``json"). Qed.

Lemma remove_opening_fence s :
  PyStr.replace_from fence "" 0 (fence +:+ s) = PyStr.replace_from fence "" 0 s.
Proof. apply (replace_from_head "`" "``"). Qed.

(** C9, as the specification puts it, fails: the backticks inside the
    fenced JSON text are removed along with the fence. *)
Lemma fence_stripping_counterexample :
  ticks_response
  = fence_json +:+ (PyStr.nl +:+ ticks_object +:+ PyStr.nl) +:+ fence
  ∧ clean_response ticks_response
    <> PyStr.strip (PyStr.nl +:+ ticks_object +:+ PyStr.nl).
Proof. split; [reflexivity|]. vm_compute. discriminate. Qed.

(** C9, amended.  Text that does not start with a fence once trimmed is
    only trimmed.  Trimmed text that starts with the json fence loses
    every occurrence of the json fence and then every occurrence of the
    plain fence, wherever they stand, and is trimmed again; trimmed text
    that starts with the plain fence only loses every occurrence of the
    plain fence and is trimmed again; the deletion rule leaves one
    result.  So when the text between an opening and a closing fence has
    no triple backtick of its own, what is parsed is that text,
    trimmed. *)
Theorem fence_stripping :
  (∀ text,
     PyStr.startswith fence (PyStr.strip text) = false ->
     clean_response text = PyStr.strip text)
  ∧ (∀ text,
       PyStr.startswith fence_json (PyStr.strip text) = true ->
       ∃ rest out,
         deleted fence_json (PyStr.strip text) rest
         ∧ deleted fence rest out
         ∧ clean_response text = PyStr.strip out)
  ∧ (∀ text,
       PyStr.startswith fence_json (PyStr.strip text) = false ->
       PyStr.startswith fence (PyStr.strip text) = true ->
       ∃ out,
         deleted fence (PyStr.strip text) out
         ∧ clean_response text = PyStr.strip out)
  ∧ (∀ pat s r1 r2,
       pat ≠ "" -> deleted pat s r1 -> deleted pat s r2 -> r1 = r2)
  ∧ (∀ text body,
       PyStr.strip text = fence_json +:+ body +:+ fence ->
       PyStr.contains fence body = false ->
       clean_response text = PyStr.strip body)
  ∧ (∀ text body,
       PyStr.strip text = fence +:+ body +:+ fence ->
       PyStr.startswith "json" body = false ->
       PyStr.contains fence body = false ->
       clean_response text = PyStr.strip body).
Proof.
  split; [|split; [|split; [|split; [|split]]]].
  - intros text Hplain. unfold clean_response, PyStr.startswith in *.
    rewrite Hplain.
    destruct (String.prefix fence_json (PyStr.strip text)) eqn:Hj; [|done].
    apply prefix_fence_json in Hj. congruence.
  - intros text Hjson. unfold clean_response. rewrite Hjson.
    eexists _, _. split; [|split; [|reflexivity]]; by apply replace_deleted.
  - intros text Hjson Hfence. unfold clean_response. rewrite Hjson, Hfence.
    eexists. split; [|reflexivity]. by apply replace_deleted.
  - intros pat s r1 r2 Hpat H1 H2. by apply (deleted_functional pat s).
  - intros text body Htext Hbody. unfold clean_response, PyStr.startswith.
    rewrite Htext, string_prefix_app.
    rewrite replace_fence, replace_fence_json.
    by rewrite remove_opening_fence_json, keep_closing_fence,
               remove_closing_fence.
  - intros text body Htext Hjson Hbody. unfold clean_response.
    rewrite Htext, no_json_after_fence by done.
    unfold PyStr.startswith. rewrite string_prefix_app.
    rewrite replace_fence.
    by rewrite remove_opening_fence, remove_closing_fence.
Qed.

Lemma fence_stripping_witness :
  clean_response "  {}  " = "{}"
  ∧ (∃ rest out,
       deleted fence_json (PyStr.strip ticks_response) rest
       ∧ deleted fence rest out
       ∧ clean_response ticks_response = PyStr.strip out)
  ∧ clean_response sample_response = sample_object
  ∧ clean_response ("```" +:+ PyStr.nl +:+ "{}" +:+ PyStr.nl +:+ "```") = "{}".
Proof.
  destruct fence_stripping as (Hplain & Hdeleted & _ & _ & Hjson & Hfence).
  split; [|split; [|split]].
  - apply (Hplain "  {}  "). reflexivity.
  - apply (Hdeleted ticks_response). reflexivity.
  - apply (Hjson sample_response (PyStr.nl +:+ sample_object +:+ PyStr.nl));
      reflexivity.
  - apply (Hfence ("```" +:+ PyStr.nl +:+ "{}" +:+ PyStr.nl +:+ "```")
                  (PyStr.nl +:+ "{}" +:+ PyStr.nl));
      reflexivity.
Defined.

(** ** The normaliser on author strings *)

(** C4, as the specification puts it, fails: the commas inside the two
    names are separators as well, so four pieces come out, not two. *)
Lemma authors_string_split_counterexample :
  normalize_metadata demo_repr {["authors" := JStr "Doe, J.; Smith, A."]}
    !! "authors"
  <> Some (JList [JStr "Doe, J."; JStr "Smith, A."]).
Proof. rewrite normalize_authors_lookup. vm_compute. discriminate. Qed.

(** C4, amended.  The authors string "Doe, J.; Smith, A." becomes the
    four names Doe, J., Smith and A.  In general an authors string with a
    comma or a semicolon in it is cut at every comma and every semicolon,
    each piece trimmed and the empty pieces dropped; a string without a
    separator becomes the one-element list of itself, and the empty
    string the list of "unknown". *)
Theorem authors_string_split (repr : json -> string) :
  normalize_metadata repr {["authors" := JStr "Doe, J.; Smith, A."]} !! "authors"
  = Some (JList [JStr "Doe"; JStr "J."; JStr "Smith"; JStr "A."])
  ∧ ∀ (m : gmap string json) (s : string),
      m !! "authors" = Some (JStr s) ->
      normalize_metadata repr m !! "authors"
      = Some (JList (JStr <$>
                (if has_separator s then spec_split_names s
                 else if PyStr.is_empty s then ["unknown"]
                 else [s]))).
Proof.
  split.
  - rewrite normalize_authors_lookup. reflexivity.
  - intros m s Hs. rewrite normalize_authors_lookup, Hs.
    cbn [fmap option_fmap option_map normalize_authors].
    rewrite split_names_spec.
    destruct (has_separator s); [reflexivity|].
    destruct (PyStr.is_empty s); reflexivity.
Qed.

Lemma authors_string_split_witness :
  normalize_metadata demo_repr
    (<["authors" := JStr " Knuth ;; Lamport,"]> get_default_metadata) !! "authors"
  = Some (JList [JStr "Knuth"; JStr "Lamport"]).
Proof.
  rewrite (proj2 (authors_string_split demo_repr)
             (<["authors" := JStr " Knuth ;; Lamport,"]> get_default_metadata)
             " Knuth ;; Lamport,")
    by apply lookup_insert_eq.
  reflexivity.
Defined.

(** C10 does not hold of the code.  An authors string made of separators
    only is normalised to the empty list, where the sibling branches put
    ["unknown"]; a second pass then puts it, so the two passes differ.
    And an author object whose name is not a string is appended as it
    is, giving a list that is not a list of strings. *)
Theorem normalize_not_idempotent (repr : json -> string) :
  let r : gmap string json := {["authors" := JStr ","]} in
  normalize_metadata repr r !! "authors" = Some (JList [])
  ∧ normalize_metadata repr (normalize_metadata repr r) !! "authors"
    = Some (JList [JStr "unknown"])
  ∧ normalize_metadata repr (normalize_metadata repr r)
    <> normalize_metadata repr r
  ∧ normalize_metadata repr {["authors" := JList [JDict {["name" := JInt 5]}]]}
      !! "authors"
    = Some (JList [JInt 5]).
Proof.
  intros r.
  assert (H1 : normalize_metadata repr r !! "authors" = Some (JList [])).
  { rewrite normalize_authors_lookup. reflexivity. }
  assert (H2 : normalize_metadata repr (normalize_metadata repr r) !! "authors"
               = Some (JList [JStr "unknown"])).
  { rewrite normalize_authors_lookup, H1. reflexivity. }
  split; [exact H1|]. split; [exact H2|]. split.
  - intros Heq. rewrite Heq, H1 in H2. discriminate.
  - rewrite normalize_authors_lookup. reflexivity.
Qed.

(** * Further properties of the code *)

(** ** Trimming and splitting (lines 96, 146, 207-208, 220-221) *)
Section TrimFacts.

Import PyStr.

Lemma rstrip_idempotent s : rstrip (rstrip s) = rstrip s.
Proof.
  induction s as [|c s IH]; [reflexivity|].
  cbn [rstrip].
  destruct (isspace c && is_empty (rstrip s)) eqn:Hc; [reflexivity|].
  cbn [rstrip]. by rewrite IH, Hc.
Qed.

Lemma lstrip_head s :
  lstrip s = "" ∨ ∃ c r, lstrip s = String c r ∧ isspace c = false.
Proof.
  induction s as [|c s IH]; [by left|].
  cbn [lstrip]. destruct (isspace c) eqn:Hc; [exact IH|].
  right. by exists c, s.
Qed.

Lemma lstrip_rstrip_head c r :
  isspace c = false -> lstrip (rstrip (String c r)) = rstrip (String c r).
Proof. intros Hc. cbn [rstrip]. rewrite Hc. cbn [andb lstrip]. by rewrite Hc. Qed.

(** [strip] leaves nothing more to strip. *)
Lemma strip_idempotent s : strip (strip s) = strip s.
Proof.
  unfold strip.
  destruct (lstrip_head s) as [->|(c & r & -> & Hc)]; [reflexivity|].
  by rewrite lstrip_rstrip_head, rstrip_idempotent.
Qed.

Lemma strip_empty s :
  strip s = "" ↔ string_forall isspace s = true.
Proof.
  unfold strip. induction s as [|c s IH]; [done|].
  cbn [lstrip string_forall].
  destruct (isspace c) eqn:Hc; [exact IH|].
  cbn [rstrip]. rewrite Hc. done.
Qed.

Lemma string_forall_app p s1 s2 :
  string_forall p (s1 +:+ s2) = string_forall p s1 && string_forall p s2.
Proof.
  induction s1 as [|c s1 IH]; [reflexivity|].
  rewrite append_cons. cbn [string_forall]. by rewrite IH, andb_assoc.
Qed.

Lemma string_forall_lstrip p s :
  string_forall p s = true -> string_forall p (lstrip s) = true.
Proof.
  induction s as [|c s IH]; [done|].
  cbn [lstrip string_forall]. intros Hs.
  destruct (isspace c); [|exact Hs].
  apply andb_true_iff in Hs as [_ Hs]. auto.
Qed.

Lemma string_forall_rstrip p s :
  string_forall p s = true -> string_forall p (rstrip s) = true.
Proof.
  induction s as [|c s IH]; [done|].
  cbn [rstrip string_forall]. intros Hs.
  apply andb_true_iff in Hs as [Hc Hs].
  destruct (isspace c && is_empty (rstrip s)); [done|].
  cbn [string_forall]. by rewrite Hc, IH.
Qed.

Lemma string_forall_strip p s :
  string_forall p s = true -> string_forall p (strip s) = true.
Proof. intros Hs. by apply string_forall_rstrip, string_forall_lstrip. Qed.

Lemma spec_cut_nonempty s : spec_cut s ≠ [].
Proof.
  induction s as [|c s IH]; [done|]. cbn [spec_cut].
  destruct (is_separator c); [done|].
  by destruct (spec_cut s).
Qed.

Lemma spec_cut_clean s :
  Forall (λ p, string_forall (λ c, negb (is_separator c)) p = true) (spec_cut s).
Proof.
  induction s as [|c s IH]; [by repeat constructor|].
  cbn [spec_cut]. destruct (is_separator c) eqn:Hc.
  - by constructor.
  - destruct (spec_cut s) as [|p ps]; cbn [cons_head].
    + repeat constructor. cbn. by rewrite Hc.
    + inversion IH as [|?? Hp Hps]; subst. constructor; [|done].
      cbn [string_forall]. by rewrite Hc, Hp.
Qed.

Lemma no_separator_contains p :
  string_forall (λ c, negb (is_separator c)) p = true ->
  has_separator p = false.
Proof.
  unfold has_separator. induction p as [|c p IH]; [reflexivity|].
  cbn [string_forall]. intros Hp. apply andb_true_iff in Hp as [Hc Hp].
  specialize (IH Hp). apply orb_false_elim in IH as [Hcomma Hsemi].
  unfold is_separator in Hc. apply negb_true_iff, orb_false_elim in Hc as [Hc1 Hc2].
  apply Ascii.eqb_neq in Hc1, Hc2.
  cbn [contains String.prefix]. rewrite Hcomma, Hsemi.
  destruct (ascii_dec "," c); [congruence|].
  destruct (ascii_dec ";" c); [congruence|]. reflexivity.
Qed.

(** The names and keywords cut out of a string are non-empty, trimmed,
    and free of commas and semicolons. *)
Theorem split_names_clean (s p : string) :
  p ∈ split_names s ->
  is_empty p = false ∧ strip p = p ∧ has_separator p = false.
Proof.
  rewrite split_names_spec. unfold spec_split_names.
  intros Hp. apply list_elem_of_filter in Hp as [Hne Hp].
  apply list_elem_of_fmap in Hp as (q & -> & Hq).
  split; [exact Hne|]. split; [apply strip_idempotent|].
  apply no_separator_contains, string_forall_strip.
  pose proof (spec_cut_clean s) as Hall. rewrite Forall_forall in Hall.
  by apply Hall.
Qed.

End TrimFacts.

Lemma split_names_clean_witness :
  PyStr.is_empty "Lamport" = false
  ∧ PyStr.strip "Lamport" = "Lamport"
  ∧ has_separator "Lamport" = false.
Proof.
  apply (split_names_clean " Knuth ;; Lamport," "Lamport").
  vm_compute. set_solver.
Defined.

(** ** The normaliser beyond the author strings (lines 183-227) *)
Section NormalizerMore.

Variable repr : json -> string.

Lemma spec_cut_blank s :
  Forall (λ p, string_forall PyStr.isspace p = true) (spec_cut s)
  ↔ string_forall (λ c, is_separator c || PyStr.isspace c) s = true.
Proof.
  induction s as [|c s IH]; [by split; repeat constructor|].
  cbn [spec_cut string_forall].
  destruct (is_separator c) eqn:Hc; cbn [orb andb].
  - rewrite Forall_cons. rewrite IH. by intuition.
  - pose proof (spec_cut_nonempty s) as Hne.
    destruct (spec_cut s) as [|p ps]; [done|]. cbn [PyStr.cons_head].
    rewrite Forall_cons in IH. rewrite Forall_cons. cbn [string_forall].
    rewrite !andb_true_iff, <- IH. by intuition.
Qed.

Lemma spec_split_names_nil s :
  spec_split_names s = []
  ↔ string_forall (λ c, is_separator c || PyStr.isspace c) s = true.
Proof.
  rewrite <- spec_cut_blank. unfold spec_split_names.
  induction (spec_cut s) as [|p ps IH]; [by split; constructor|].
  rewrite fmap_cons, filter_cons, Forall_cons, <- IH, <- strip_empty.
  destruct (decide (PyStr.is_empty (PyStr.strip p) = false)) as [Hne|He].
  - split; [done|]. intros [Hp _]. by rewrite Hp in Hne.
  - split; [|by intros [_ ?]]. intros Hnil. split; [|done].
    by destruct (PyStr.strip p).
Qed.

Lemma author_strings_of_strings (l : list string) :
  author_strings repr (JStr <$> l) = JStr <$> l.
Proof. induction l as [|x l IH]; [reflexivity|]. cbn. by rewrite IH. Qed.

Lemma normalize_authors_list (l : list json) :
  ∃ names, normalize_authors repr (JList l) = JList names ∧ names ≠ [].
Proof.
  cbn [normalize_authors]. destruct (author_strings repr l) eqn:Hl.
  - by eexists.
  - by eexists.
Qed.

(** The normaliser changes the authors and the keywords and nothing
    else: no field is added or removed, every other field keeps its
    value, and a record without authors or keywords stays without. *)
Theorem normalize_frame (m : gmap string json) :
  dom (normalize_metadata repr m) = dom m
  ∧ ∀ k, k ≠ "authors" -> k ≠ "keywords" ->
         normalize_metadata repr m !! k = m !! k.
Proof.
  split; [|intros k; apply normalize_other_lookup].
  apply set_eq. intros k. rewrite !elem_of_dom.
  destruct (decide (k = "authors")) as [->|Ha].
  - rewrite normalize_authors_lookup. by rewrite fmap_is_Some.
  - destruct (decide (k = "keywords")) as [->|Hk].
    + rewrite normalize_keywords_lookup. by rewrite fmap_is_Some.
    + by rewrite normalize_other_lookup.
Qed.

Lemma normalize_keywords_strings (v : json) :
  ∃ l : list string, normalize_keywords repr v = JList (JStr <$> l).
Proof.
  destruct v as [| | | |s|l|]; cbn [normalize_keywords];
    try (by exists []).
  - destruct (has_separator s); [by eexists|].
    destruct (PyStr.is_empty s); [by exists [] | by exists [s]].
  - exists (py_str repr <$> l). by rewrite <- list_fmap_compose.
Qed.

Lemma normalize_authors_is_list (v : json) :
  ∃ l : list json, normalize_authors repr v = JList l.
Proof.
  destruct v as [| | | |s|l|]; cbn [normalize_authors]; try by eexists.
  - destruct (has_separator s); [by eexists|].
    destruct (PyStr.is_empty s); by eexists.
  - destruct (author_strings repr l); by eexists.
Qed.

(** After one pass the keywords, when there are any, are a list of
    strings, and a second pass leaves them as they are. *)
Theorem keywords_normal_form (m : gmap string json) :
  match normalize_metadata repr m !! "keywords" with
  | Some v =>
      (∃ l : list string, v = JList (JStr <$> l))
      ∧ normalize_metadata repr (normalize_metadata repr m) !! "keywords" = Some v
  | None => m !! "keywords" = None
  end.
Proof.
  rewrite !normalize_keywords_lookup.
  destruct (m !! "keywords") as [v|]; [|done].
  cbn [fmap option_fmap option_map]. split.
  - apply normalize_keywords_strings.
  - by rewrite normalize_keywords_idempotent.
Qed.

(** The authors come out as a list, and as the empty list in one case
    only: an authors string that holds a comma or a semicolon and
    otherwise nothing but separators and white space. *)
Theorem authors_empty_iff (m : gmap string json) :
  (∀ v, normalize_metadata repr m !! "authors" = Some v -> ∃ l, v = JList l)
  ∧ (normalize_metadata repr m !! "authors" = Some (JList [])
     ↔ ∃ s, m !! "authors" = Some (JStr s)
            ∧ has_separator s = true
            ∧ string_forall (λ c, is_separator c || PyStr.isspace c) s = true).
Proof.
  rewrite normalize_authors_lookup.
  destruct (m !! "authors") as [v|]; cbn [fmap option_fmap option_map].
  - split.
    + intros v' [= <-]. apply normalize_authors_is_list.
    + split.
      * intros [= Hv]. destruct v as [| | | |s|l|]; try discriminate.
        -- cbn [normalize_authors] in Hv. exists s. split; [done|].
           destruct (has_separator s).
           ++ split; [done|]. apply spec_split_names_nil.
              rewrite <- split_names_spec.
              injection Hv as Hv. by apply fmap_nil_inv in Hv.
           ++ destruct (PyStr.is_empty s); discriminate.
        -- destruct (normalize_authors_list l) as (names & Hn & Hne).
           rewrite Hn in Hv. by injection Hv as ->.
      * intros (s & [= ->] & Hsep & Hblank). cbn [normalize_authors].
        rewrite Hsep. apply spec_split_names_nil in Hblank.
        by rewrite split_names_spec, Hblank.
  - split; [done|]. split; [done|]. by intros (s & ? & _).
Qed.

(** Two passes of the normaliser are one pass on every record whose
    authors, after the first pass, are a non-empty list of strings (or
    are absent). *)
Theorem normalize_idempotent_on_string_authors (m : gmap string json) :
  match normalize_metadata repr m !! "authors" with
  | Some a => ∃ l : list string, a = JList (JStr <$> l) ∧ l ≠ []
  | None => True
  end ->
  normalize_metadata repr (normalize_metadata repr m) = normalize_metadata repr m.
Proof.
  intros Hauthors. apply map_eq. intros k.
  destruct (decide (k = "authors")) as [->|Ha].
  - rewrite normalize_authors_lookup.
    destruct (normalize_metadata repr m !! "authors") as [a|]; [|done].
    destruct Hauthors as (l & -> & Hl). cbn [fmap option_fmap option_map].
    f_equal. cbn [normalize_authors]. rewrite author_strings_of_strings.
    by destruct l.
  - destruct (decide (k = "keywords")) as [->|Hk].
    + rewrite normalize_keywords_lookup.
      rewrite normalize_keywords_lookup.
      destruct (m !! "keywords"); [|done]. cbn [fmap option_fmap option_map].
      by rewrite normalize_keywords_idempotent.
    + by rewrite normalize_other_lookup.
Qed.

End NormalizerMore.

Lemma normalize_frame_witness :
  normalize_metadata demo_repr
    (<["doi" := JInt 7]> (<["authors" := JStr "A;B"]> ∅)) !! "doi"
  = Some (JInt 7).
Proof.
  rewrite (proj2 (normalize_frame demo_repr
                    (<["doi" := JInt 7]> (<["authors" := JStr "A;B"]> ∅))))
    by done.
  reflexivity.
Defined.

Lemma authors_empty_iff_witness :
  normalize_metadata demo_repr {["authors" := JStr " ;, "]} !! "authors"
  = Some (JList [])
  ∧ ∃ l, JList [JStr "unknown"] = JList l.
Proof.
  destruct (authors_empty_iff demo_repr {["authors" := JStr " ;, "]})
    as [_ Hempty].
  split.
  - apply Hempty. exists " ;, ". by vm_compute.
  - apply (proj1 (authors_empty_iff demo_repr {["authors" := JNull]})).
    reflexivity.
Defined.

Lemma normalize_idempotent_on_string_authors_witness :
  normalize_metadata demo_repr
    (normalize_metadata demo_repr
       {["authors" := JStr "Doe, J.; Smith, A."]})
  = normalize_metadata demo_repr {["authors" := JStr "Doe, J.; Smith, A."]}.
Proof.
  apply normalize_idempotent_on_string_authors.
  rewrite normalize_authors_lookup.
  exists ["Doe"; "J."; "Smith"; "A."]. by vm_compute.
Defined.

(** ** The extraction client: bounds, recovery, completeness (lines 117-181) *)
Section ClientMore.

Variable H : Host.

Lemma client_bounds (pdf_path : string) (w : world) :
  ∃ v n t,
    extract_metadata_from_pdf H pdf_path w
    = (Ok v, World (files w) (results w) (calls w + n) (writes w), t)
    ∧ (n ≤ 3)%nat ∧ calls_made t = n ∧ (time_slept t ≤ 6)%Z.
Proof.
  destruct (PyStr.is_empty (extract_text_from_pdf H pdf_path 3)) eqn:Htext.
  - exists (JDict get_default_metadata), 0, [].
    unfold extract_metadata_from_pdf. rewrite Htext, Nat.add_0_r.
    split; [by destruct w|]. split; [lia|]. split; [done|]. cbn. lia.
  - rewrite client_ladder by done. cbv zeta.
    destruct (attempt_outcome H _ (calls w)) as [v|].
    { exists v, 1, [EvCall (make_prompt (extract_text_from_pdf H pdf_path 3))].
      split; [done|]. split; [lia|]. split; [done|]. cbn. lia. }
    destruct (attempt_outcome H _ (calls w + 1)) as [v|].
    { eexists v, 2, _. split; [done|]. split; [lia|]. split; [done|]. cbn. lia. }
    destruct (attempt_outcome H _ (calls w + 2)) as [v|].
    { eexists v, 3, _. split; [done|]. split; [lia|]. split; [done|]. cbn. lia. }
    eexists _, 3, _. split; [done|]. split; [lia|]. split; [done|]. cbn. lia.
Qed.

(** The client always returns: no exception leaves it, it touches
    neither the directory nor the result list, it makes at most three
    completion calls and sleeps at most six time units. *)
Theorem client_total_and_bounded (pdf_path : string) (w : world) :
  ∃ v n t,
    extract_metadata_from_pdf H pdf_path w
    = (Ok v, World (files w) (results w) (calls w + n) (writes w), t)
    ∧ (n ≤ 3)%nat ∧ calls_made t = n ∧ (time_slept t ≤ 6)%Z.
Proof. exact (client_bounds pdf_path w). Qed.

Lemma client_run pdf_path w :
  ∃ v n t,
    extract_metadata_from_pdf H pdf_path w
    = (Ok v, World (files w) (results w) (calls w + n) (writes w), t)
    ∧ (n ≤ 3)%nat ∧ Forall quiet t.
Proof.
  destruct (client_bounds pdf_path w) as (v & n & t & Hrun & Hn & _).
  destruct (extract_quiet H pdf_path w) as (v' & n' & t' & Hrun' & Hq).
  rewrite Hrun in Hrun'. injection Hrun' as -> _ ->.
  by exists v', n, t'.
Qed.

(** A failed first call followed by an answer: one sleep of 2, no third
    call, and the value of the second attempt is returned. *)
Theorem client_recovers (pdf_path : string) (w : world) (e : exn) (v : json) :
  let text := extract_text_from_pdf H pdf_path 3 in
  PyStr.is_empty text = false ->
  attempt_outcome H text (calls w) = Raise e ->
  attempt_outcome H text (calls w + 1) = Ok v ->
  extract_metadata_from_pdf H pdf_path w =
    (Ok v,
     World (files w) (results w) (calls w + 2) (writes w),
     [EvCall (make_prompt text); EvSleep 2; EvCall (make_prompt text)]).
Proof.
  intros text Htext Hfirst Hsecond. rewrite client_ladder by done.
  cbv zeta. fold text. by rewrite Hfirst, Hsecond.
Qed.

(** An answer that is valid JSON but a bare number, boolean or null
    ends its attempt with a [TypeError], and is retried like a failed
    call: three such answers give three calls, sleeps of 2 and 4, and
    the default record. *)
Theorem scalar_answers_retried (pdf_path : string) (w : world) :
  let text := extract_text_from_pdf H pdf_path 3 in
  PyStr.is_empty text = false ->
  (∀ n, ∃ answer v,
      generate_content H n (make_prompt text) = Some answer
      ∧ json_loads H (clean_response answer) = Ok v
      ∧ py_len v = None) ->
  (∀ n, attempt_outcome H text n = Raise TypeError)
  ∧ extract_metadata_from_pdf H pdf_path w =
      (Ok (JDict get_default_metadata),
       World (files w) (results w) (calls w + 3) (writes w),
       [EvCall (make_prompt text); EvSleep 2;
        EvCall (make_prompt text); EvSleep 4;
        EvCall (make_prompt text)]).
Proof.
  intros text Htext Hscalar.
  assert (Hraise : ∀ n, attempt_outcome H text n = Raise TypeError).
  { intros n. destruct (Hscalar n) as (answer & v & Ha & Hv & Hlen).
    rewrite attempt_outcome_unfold. unfold parse_response. rewrite Ha, Hv.
    by destruct v. }
  split; [exact Hraise|].
  rewrite client_ladder by done. cbv zeta. fold text.
  by rewrite !Hraise.
Qed.

Lemma ensure_fields_other keys (m v : json) :
  (∀ d, m ≠ JDict d) ->
  ensure_fields keys m = Ok v ->
  v = m ∧ ∀ k, k ∈ keys -> has_key m k = Some true.
Proof.
  intros Hm. induction keys as [|key keys IH].
  - intros [= <-]. split; [done|]. intros k Hk. by apply elem_of_nil in Hk.
  - cbn [ensure_fields].
    destruct (has_key m key) as [[|]|] eqn:Hkey; [| |done].
    + intros Hrun. destruct (IH Hrun) as [-> Hall]. split; [done|].
      intros k Hk. apply elem_of_cons in Hk as [->|Hk]; auto.
    + destruct m; try done. by destruct (Hm d).
Qed.

Lemma ensure_fields_complete (m v : json) :
  ensure_fields target_fields m = Ok v -> complete_record v.
Proof.
  destruct m as [| | | |s|l|d].
  1-4: done.
  - intros Hrun. apply ensure_fields_other in Hrun as [-> Hall]; [|done].
    intros k Hk. specialize (Hall k Hk). by injection Hall.
  - intros Hrun. apply ensure_fields_other in Hrun as [-> Hall]; [|done].
    intros k Hk. specialize (Hall k Hk). injection Hall as Hall.
    apply existsb_exists in Hall as (x & Hx & Hstr).
    destruct x; try done. cbn in Hstr. apply String.eqb_eq in Hstr as ->.
    by apply list_elem_of_In.
  - rewrite ensure_fields_union. intros [= <-]. intros k Hk.
    rewrite lookup_union. rewrite <- (default_lookup k).
    rewrite bool_decide_eq_true_2 by done.
    destruct (d !! k); by eexists.
Qed.

Lemma client_record_complete (pdf_path : string) (w w' : world)
    (v : json) (t : list event) :
  extract_metadata_from_pdf H pdf_path w = (Ok v, w', t) ->
  complete_record v.
Proof.
  assert (Hdefault : complete_record (JDict get_default_metadata)).
  { apply (ensure_fields_complete (JDict get_default_metadata)).
    apply ensure_fields_default. }
  assert (Hattempt : ∀ n v', attempt_outcome H
            (extract_text_from_pdf H pdf_path 3) n = Ok v' ->
            complete_record v').
  { intros n v'. rewrite attempt_outcome_unfold.
    destruct (generate_content H n _); [|done].
    destruct (parse_response H _); [|done].
    apply ensure_fields_complete. }
  destruct (PyStr.is_empty (extract_text_from_pdf H pdf_path 3)) eqn:Htext.
  - unfold extract_metadata_from_pdf. rewrite Htext. by intros [= <- _ _].
  - rewrite client_ladder by done. cbv zeta.
    destruct (attempt_outcome H _ (calls w)) as [v1|] eqn:H1.
    { intros [= <- _ _]. eauto. }
    destruct (attempt_outcome H _ (calls w + 1)) as [v2|] eqn:H2.
    { intros [= <- _ _]. eauto. }
    destruct (attempt_outcome H _ (calls w + 2)) as [v3|] eqn:H3.
    { intros [= <- _ _]. eauto. }
    by intros [= <- _ _].
Qed.

(** Whatever the service does, the value the client returns is never
    [None] and never lacks one of the seven target fields. *)
Theorem client_returns_complete_record (pdf_path : string) (w w' : world)
    (v : json) (t : list event) :
  extract_metadata_from_pdf H pdf_path w = (Ok v, w', t) ->
  complete_record v.
Proof. apply client_record_complete. Qed.

End ClientMore.

Lemma client_recovers_witness :
  extract_metadata_from_pdf host_recovering "papers/a.pdf" empty_world =
    (Ok (JDict ({["title" := JInt 7]} ∪ get_default_metadata)),
     World ∅ JNull 2 0,
     [EvCall (make_prompt (extract_text_from_pdf host_recovering "papers/a.pdf" 3));
      EvSleep 2;
      EvCall (make_prompt (extract_text_from_pdf host_recovering "papers/a.pdf" 3))]).
Proof.
  apply (client_recovers host_recovering "papers/a.pdf" empty_world ApiError).
  - reflexivity.
  - reflexivity.
  - unfold attempt_outcome. cbn [calls empty_world Nat.add].
    change (generate_content host_recovering 1 _) with (Some sample_response).
    change (json_loads host_recovering (clean_response sample_response))
      with (Some (JDict ({["title" := JInt 7]} : gmap string json))).
    apply ensure_fields_union.
Defined.

Lemma scalar_answers_retried_witness :
  extract_metadata_from_pdf host_number "papers/a.pdf" empty_world =
    (Ok (JDict get_default_metadata),
     World ∅ JNull 3 0,
     [EvCall (make_prompt (extract_text_from_pdf host_number "papers/a.pdf" 3));
      EvSleep 2;
      EvCall (make_prompt (extract_text_from_pdf host_number "papers/a.pdf" 3));
      EvSleep 4;
      EvCall (make_prompt (extract_text_from_pdf host_number "papers/a.pdf" 3))]).
Proof.
  apply (scalar_answers_retried host_number "papers/a.pdf" empty_world).
  - reflexivity.
  - intros n. by exists "42", (JInt 42).
Defined.

Lemma client_returns_complete_record_witness :
  complete_record
    (JDict ({["title" := JInt 7]} ∪ get_default_metadata : gmap string json)).
Proof.
  apply (client_returns_complete_record host_up "papers/a.pdf"
           empty_world (World ∅ JNull 1 0) _
           [EvCall (make_prompt (extract_text_from_pdf host_up "papers/a.pdf" 3))]).
  vm_compute. reflexivity.
Defined.

(** ** The text extractor (lines 79-103) *)
Section ExtractorFacts.

Variable H : Host.

Lemma pages_blank (pages : list (option string)) :
  string_forall PyStr.isspace (foldr (λ p acc, page_text p +:+ acc) "" pages) = true
  ↔ Forall (λ p, match p with
                 | Some t => string_forall PyStr.isspace t = true
                 | None => True
                 end) pages.
Proof.
  induction pages as [|p pages IH]; [by split; constructor|].
  cbn [foldr]. rewrite string_forall_app, andb_true_iff, IH, Forall_cons.
  destruct p as [t|]; cbn [page_text]; [|by intuition].
  rewrite !string_forall_app, !andb_true_iff.
  change (string_forall PyStr.isspace PyStr.nl) with true. by intuition.
Qed.

(** The extracted text has no white space at either end, and it is
    empty exactly when the file cannot be read or none of its first
    [max_pages] pages gives anything but white space; pages whose
    extraction fails and pages beyond the limit do not count. *)
Theorem extracted_text_trimmed (pdf_path : string) (max_pages : nat) :
  PyStr.strip (extract_text_from_pdf H pdf_path max_pages)
  = extract_text_from_pdf H pdf_path max_pages
  ∧ (extract_text_from_pdf H pdf_path max_pages = ""
     ↔ match pdf_pages H pdf_path with
       | None => True
       | Some pages =>
           Forall (λ p, match p with
                        | Some t => string_forall PyStr.isspace t = true
                        | None => True
                        end) (take max_pages pages)
       end).
Proof.
  unfold extract_text_from_pdf.
  destruct (pdf_pages H pdf_path) as [pages|]; [|done].
  split; [apply strip_idempotent|].
  by rewrite strip_empty, pages_blank.
Qed.

End ExtractorFacts.

Lemma extracted_text_trimmed_witness :
  extract_text_from_pdf host_up "papers/scan.pdf" 3 = ""
  ∧ extract_text_from_pdf host_up "papers/missing.pdf" 3 = "".
Proof.
  split.
  - apply (proj2 (extracted_text_trimmed host_up "papers/scan.pdf" 3)).
    change (pdf_pages host_up "papers/scan.pdf") with (Some [Some " "; Some ""]).
    by repeat constructor.
  - by apply (proj2 (extracted_text_trimmed host_up "papers/missing.pdf" 3)).
Defined.

(** ** The orchestrator: one file of the loop (lines 229-299) *)
Section OrchestratorMore.

Variable H : Host.

(** Lines 288-294 spelled out by the fate of the two writes. *)
Lemma commit_unfold f w :
  (rs ← get_results;
   write_json H metadata_path false rs;;
   save_processed_file H (relative_path f);;
   emit (EvSaved (relative_path f))) w =
  let stored := <[metadata_path := FJson (results w)]> (files w) in
  let wrote := EvWrite metadata_path (FJson (results w)) in
  match write_fault H (writes w) with
  | WOpenFails =>
      (Raise IOError, World (files w) (results w) (calls w) (S (writes w)), [])
  | WDumpFails =>
      (Raise IOError,
       World (<[metadata_path := FCorrupt]> (files w)) (results w) (calls w)
             (S (writes w)),
       [EvWrite metadata_path FCorrupt])
  | WDumpTorn =>
      (Raise IOError,
       World (<[metadata_path := FUnreadable UnicodeDecodeError]> (files w))
             (results w) (calls w) (S (writes w)),
       [EvWrite metadata_path (FUnreadable UnicodeDecodeError)])
  | WOk =>
      match read_ledger (files w) with
      | Raise e =>
          (Raise e, World stored (results w) (calls w) (S (writes w)), [wrote])
      | Ok s =>
          let doc :=
            ledger_doc (set_before H (S (writes w))) (s ∪ {[relative_path f]}) in
          match write_fault H (S (writes w)) with
          | WOk =>
              (Ok tt,
               World (<[processed_files_path := FJson doc]> stored) (results w)
                     (calls w) (S (S (writes w))),
               [wrote; EvWrite processed_files_path (FJson doc);
                EvSaved (relative_path f)])
          | WOpenFails =>
              (Raise IOError,
               World stored (results w) (calls w) (S (S (writes w))),
               [wrote])
          | WDumpFails | WDumpTorn =>
              (Raise IOError,
               World (<[processed_files_path := FCorrupt]> stored) (results w)
                     (calls w) (S (S (writes w))),
               [wrote; EvWrite processed_files_path FCorrupt])
          end
      end
  end.
Proof.
  rewrite run_bind. unfold get_results. rewrite run_bind.
  unfold write_json at 1. cbv zeta.
  destruct (write_fault H (writes w)); [|reflexivity..].
  rewrite run_bind, save_processed_file_run. cbn [files].
  rewrite read_ledger_store_write.
  destruct (read_ledger (files w)) as [s|e]; [|reflexivity].
  unfold write_json. cbn [writes files results calls].
  by destruct (write_fault H (S (writes w))).
Qed.

(** The per-file body spelled out up to the two writes. *)
Lemma process_file_unfold f w :
  process_file H f w =
  let '(ov, w1, tq) := extract_metadata_from_pdf H (full_path f) w in
  match ov with
  | Raise e => (Raise e, w1, tq)
  | Ok (JDict d) =>
      let m := normalize_metadata (py_repr H) (with_provenance f d) in
      match report m with
      | Raise e => (Raise e, w1, tq)
      | Ok _ =>
          match results w1 with
          | JList l =>
              let '(r, w3, tw) :=
                (rs ← get_results;
                 write_json H metadata_path false rs;;
                 save_processed_file H (relative_path f);;
                 emit (EvSaved (relative_path f)))
                  (World (files w1) (JList (l ++ [JDict m])) (calls w1) (writes w1)) in
              (r, w3, tq ++ tw)
          | _ => (Raise AttributeError, w1, tq)
          end
      end
  | Ok _ => (Raise TypeError, w1, tq)
  end.
Proof.
  unfold process_file. rewrite run_bind.
  destruct (extract_metadata_from_pdf H (full_path f) w) as [[[v|e] w1] tq];
    [|reflexivity].
  destruct v as [| | | | | |d]; try (unfold raise; by rewrite app_nil_r).
  cbv zeta. rewrite run_bind. unfold lift at 1.
  destruct (report _) as [[]|e]; [|by rewrite app_nil_r].
  rewrite run_bind. unfold append_result. rewrite run_bind.
  unfold get_results at 1.
  destruct (results w1) as [| | | | |l|];
    try (unfold raise; by rewrite !app_nil_r).
  unfold set_results at 1. cbn [files results calls writes].
  match goal with
  | |- context [(get_results ≫= ?k) ?w2] =>
      destruct ((get_results ≫= k) w2) as [[r2 w2'] t2]
  end.
  reflexivity.
Qed.

(** The loop over the candidates, one body at a time. *)
Lemma process_files_cons f rest w :
  process_files H (f :: rest) w =
  let '(r0, w0, t0) := process_file H f w in
  let '(r2, w2, t2) := process_files H rest w0 in
  (r2, w2,
   EvProcessing (relative_path f)
   :: (t0 ++ match r0 with
             | Ok _ => []
             | Raise _ => [EvSkipped (relative_path f)]
             end) ++ t2).
Proof.
  cbn [process_files]. rewrite run_bind. unfold emit at 1. rewrite run_bind.
  unfold try_except. destruct (process_file H f w) as [[[[]|e] w0] t0].
  - destruct (process_files H rest w0) as [[r2 w2] t2]. by rewrite app_nil_r.
  - unfold emit. by destruct (process_files H rest w0) as [[r2 w2] t2].
Qed.

Lemma process_files_rect (I : list pdf_file -> world -> world -> list event -> Prop) :
  (∀ w, I [] w w []) ->
  (∀ f rest w r0 w0 t0 w2 t2,
     process_file H f w = (r0, w0, t0) ->
     I rest w0 w2 t2 ->
     I (f :: rest) w w2
       (EvProcessing (relative_path f)
        :: (t0 ++ match r0 with
                  | Ok _ => []
                  | Raise _ => [EvSkipped (relative_path f)]
                  end) ++ t2)) ->
  ∀ fs w r w' t, process_files H fs w = (r, w', t) -> r = Ok tt ∧ I fs w w' t.
Proof.
  intros Hnil Hcons fs. induction fs as [|f rest IH]; intros w r w' t.
  - intros [= <- <- <-]. auto.
  - rewrite process_files_cons.
    destruct (process_file H f w) as [[r0 w0] t0] eqn:Hf.
    destruct (process_files H rest w0) as [[r2 w2] t2] eqn:Hrest.
    intros [= <- <- <-]. apply IH in Hrest as [-> Hrest]. eauto.
Qed.

(** Splits a run of the per-file body into its cases, and names the
    result of each. *)
Ltac process_file_cases f w :=
  rewrite (process_file_unfold f w);
  destruct (client_run H (full_path f) w) as (? & ? & ? & -> & ? & ?);
  repeat (first
    [ progress (cbv zeta; cbn [files results calls writes])
    | rewrite commit_unfold
    | match goal with
      | |- context [match ?x with _ => _ end] =>
          lazymatch x with
          | context [match _ with _ => _ end] => fail
          | _ => destruct x eqn:?
          end
      end ]);
  let Heq := fresh "Heq" in intros Heq; simplify_eq.

(** One body costs at most three completion calls and two writes, and
    leaves every file but the Ledger and the Store alone. *)
Lemma process_file_cost f w r w' t :
  process_file H f w = (r, w', t) ->
  (calls w ≤ calls w' ≤ calls w + 3)%nat
  ∧ (writes w ≤ writes w' ≤ writes w + 2)%nat
  ∧ ∀ path, path ≠ processed_files_path -> path ≠ metadata_path ->
            files w' !! path = files w !! path.
Proof.
  process_file_cases f w; cbn [files calls writes];
    (split; [lia|]); (split; [lia|]); intros path Hl Hs;
    by rewrite ?lookup_insert_ne by done.
Qed.

Lemma provenance_record f (d : gmap string json) :
  record_of f (JDict (normalize_metadata (py_repr H) (with_provenance f d))).
Proof.
  eexists. split; [reflexivity|]. rewrite !normalize_other_lookup by done.
  unfold with_provenance. split; [|split].
  - rewrite !lookup_insert_ne by done. apply lookup_insert_eq.
  - rewrite lookup_insert_ne by done. apply lookup_insert_eq.
  - apply lookup_insert_eq.
Qed.

(** A body that ends well has appended the candidate's record to the
    result list and left the whole list in the Store file. *)
Lemma process_file_saved f w w' t :
  process_file H f w = (Ok tt, w', t) ->
  ∃ l rec,
    results w = JList l ∧ record_of f rec
    ∧ results w' = JList (l ++ [rec])
    ∧ files w' !! metadata_path = Some (FJson (results w')).
Proof.
  process_file_cases f w. cbn [files results].
  eexists _, _. split; [done|]. split; [apply provenance_record|].
  split; [done|]. rewrite lookup_insert_ne by done. apply lookup_insert_eq.
Qed.

(** Whatever happens, the result list only grows at its end, and a
    complete Store write is a write of the whole list. *)
Lemma process_file_appends f w r w' t l :
  process_file H f w = (r, w', t) ->
  results w = JList l ->
  ∃ l', results w' = JList (l ++ l')
        ∧ ∀ v, EvWrite metadata_path (FJson v) ∈ t -> v = results w'.
Proof.
  intros Hrun Hl. revert Hrun.
  process_file_cases f w; cbn [results];
    match goal with
    | Hq : Forall quiet _ |- _ => rewrite Forall_forall in Hq
    end;
    (eexists;
     split; [first [by rewrite app_nil_r | reflexivity | eassumption]|]);
    intros v' Hin; rewrite ?elem_of_app, ?elem_of_cons, ?elem_of_nil in Hin;
    repeat match goal with
           | Hor : _ ∨ _ |- _ => destruct Hor as [Hor|Hor]
           end;
    try done; try (by simplify_eq);
    by match goal with
       | Hq : ∀ x, _ -> quiet x, Hin : _ ∈ _ |- _ => apply Hq in Hin
       end.
Qed.

(** With a result list that is no list (the Store file held some other
    JSON value) the body raises before any write. *)
Lemma process_file_no_list f w r w' t :
  (∀ l, results w ≠ JList l) ->
  process_file H f w = (r, w', t) ->
  (∃ e, r = Raise e) ∧ files w' = files w ∧ results w' = results w
  ∧ Forall quiet t.
Proof.
  intros Hno. process_file_cases f w; cbn [files results];
    try (by destruct (Hno _ eq_refl));
    (split; [eauto|]); (split; [done|]); (split; [done|]);
    by rewrite ?app_nil_r.
Qed.

End OrchestratorMore.

(** ** Whole runs of the orchestrator *)
Section RunFacts.

Variable H : Host.

Lemma process_files_cost fs w r w' t :
  process_files H fs w = (r, w', t) ->
  (calls w ≤ calls w' ≤ calls w + 3 * length fs)%nat
  ∧ (writes w ≤ writes w' ≤ writes w + 2 * length fs)%nat
  ∧ ∀ path, path ≠ processed_files_path -> path ≠ metadata_path ->
            files w' !! path = files w !! path.
Proof.
  intros Hrun.
  apply (process_files_rect H (λ fs w w' _,
    (calls w ≤ calls w' ≤ calls w + 3 * length fs)%nat
    ∧ (writes w ≤ writes w' ≤ writes w + 2 * length fs)%nat
    ∧ ∀ path, path ≠ processed_files_path -> path ≠ metadata_path ->
              files w' !! path = files w !! path)) in Hrun.
  - by destruct Hrun.
  - intros w0. cbn [length]. split; [lia|]. split; [lia|]. done.
  - intros f rest w0 r0 w1 t0 w2 t2 Hf (Hc & Hw & Hframe).
    apply process_file_cost in Hf as (Hc1 & Hw1 & Hframe1).
    cbn [length]. split; [lia|]. split; [lia|].
    intros path Hl Hs. by rewrite Hframe, Hframe1.
Qed.

Lemma run_frame (directory_path : string) (w w' : world) r t :
  process_directory H directory_path w = (r, w', t) ->
  ∀ path, path ≠ processed_files_path -> path ≠ metadata_path ->
          files w' !! path = files w !! path.
Proof.
  rewrite process_directory_run.
  destruct (read_ledger (files w)) as [s|e]; [|by intros [= <- <- <-]].
  destruct (read_store (files w)) as [rs|e]; [|by intros [= <- <- <-]].
  cbv zeta.
  destruct (unprocessed s (rglob_pdf H directory_path)) as [|f fs].
  - by intros [= <- <- <-].
  - intros Hrun. by apply process_files_cost in Hrun as (_ & _ & Hframe).
Qed.

(** A run touches no file but the Ledger and the Store. *)
Theorem process_directory_frame (directory_path : string) (w w' : world) r t :
  process_directory H directory_path w = (r, w', t) ->
  ∀ path, path ≠ processed_files_path -> path ≠ metadata_path ->
          files w' !! path = files w !! path.
Proof. apply run_frame. Qed.

(** A run makes at most three completion calls and two writes for each
    PDF of the directory. *)
Theorem process_directory_cost (directory_path : string) (w w' : world) r t :
  process_directory H directory_path w = (r, w', t) ->
  (calls w' ≤ calls w + 3 * length (rglob_pdf H directory_path))%nat
  ∧ (writes w' ≤ writes w + 2 * length (rglob_pdf H directory_path))%nat.
Proof.
  rewrite process_directory_run.
  destruct (read_ledger (files w)) as [s|e];
    [|intros [= <- <- <-]; split; lia].
  destruct (read_store (files w)) as [rs|e];
    [|intros [= <- <- <-]; split; lia].
  cbv zeta.
  pose proof (length_filter (λ f, relative_path f ∉ s)
                (rglob_pdf H directory_path)) as Hlen.
  fold (unprocessed s (rglob_pdf H directory_path)) in Hlen.
  destruct (unprocessed s (rglob_pdf H directory_path)) as [|f fs].
  - intros [= <- <- <-]. cbn [calls writes]. split; lia.
  - intros Hrun. apply process_files_cost in Hrun as (Hc & Hw & _).
    cbn [calls writes] in Hc, Hw. split; lia.
Qed.

Lemma process_files_appends fs w r w' t l :
  process_files H fs w = (r, w', t) ->
  results w = JList l ->
  ∃ l', results w' = JList (l ++ l')
        ∧ ∀ v, EvWrite metadata_path (FJson v) ∈ t -> ∃ k, v = JList (l ++ k).
Proof.
  intros Hrun. revert l.
  apply (process_files_rect H (λ _ w w' t, ∀ l,
    results w = JList l ->
    ∃ l', results w' = JList (l ++ l')
          ∧ ∀ v, EvWrite metadata_path (FJson v) ∈ t ->
                 ∃ k, v = JList (l ++ k))) in Hrun.
  - by destruct Hrun.
  - intros w0 l Hl. exists []. rewrite app_nil_r. split; [done|].
    intros v Hin. by apply elem_of_nil in Hin.
  - intros f rest w0 r0 w1 t0 w2 t2 Hf IH l Hl.
    destruct (process_file_appends H f w0 r0 w1 t0 l Hf Hl) as (l1 & Hl1 & Hw1).
    destruct (IH _ Hl1) as (l2 & Hl2 & Hw2).
    exists (l1 ++ l2). rewrite app_assoc. split; [done|].
    intros v Hin.
    rewrite elem_of_cons, !elem_of_app in Hin.
    destruct Hin as [?|[[Hin|Hin]|Hin]]; [done| | |].
    + exists l1. rewrite <- Hl1. by apply Hw1.
    + destruct r0; [by apply elem_of_nil in Hin|].
      by apply list_elem_of_singleton in Hin.
    + destruct (Hw2 v Hin) as (k & ->). exists (l1 ++ k). by rewrite app_assoc.
Qed.

Lemma run_appends (directory_path : string) (w w' : world) r t l :
  process_directory H directory_path w = (r, w', t) ->
  read_store (files w) = Ok (JList l) ->
  ∀ v, EvWrite metadata_path (FJson v) ∈ t -> ∃ k, v = JList (l ++ k).
Proof.
  rewrite process_directory_run. intros Hrun Hl.
  destruct (read_ledger (files w)) as [s|e].
  - rewrite Hl in Hrun. cbv zeta in Hrun.
    destruct (unprocessed s (rglob_pdf H directory_path)) as [|f fs].
    + injection Hrun as <- <- <-. intros v Hin.
      by apply list_elem_of_singleton in Hin.
    + eapply process_files_appends in Hrun as (l' & _ & Hw); [exact Hw|done].
  - injection Hrun as <- <- <-. intros v Hin. by apply elem_of_nil in Hin.
Qed.

(** The Store is append-only: when the Store file holds an array at the
    start of a run (or is missing or not JSON, which counts as the empty
    array), every complete Store write of the run begins with the
    records of that array, in their order. *)
Theorem store_append_only (directory_path : string) (w w' : world) r t l :
  process_directory H directory_path w = (r, w', t) ->
  read_store (files w) = Ok (JList l) ->
  ∀ v, EvWrite metadata_path (FJson v) ∈ t -> ∃ k, v = JList (l ++ k).
Proof. apply run_appends. Qed.

Lemma process_files_grows fs w r w' t l :
  process_files H fs w = (r, w', t) ->
  (∀ rel, EvSkipped rel ∉ t) ->
  results w = JList l ->
  ∃ recs, results w' = JList (l ++ recs)
          ∧ Forall2 record_of fs recs
          ∧ (fs = [] ∧ w' = w
             ∨ files w' !! metadata_path = Some (FJson (results w'))).
Proof.
  intros Hrun. revert l.
  apply (process_files_rect H (λ fs w w' t, ∀ l,
    (∀ rel, EvSkipped rel ∉ t) ->
    results w = JList l ->
    ∃ recs, results w' = JList (l ++ recs)
            ∧ Forall2 record_of fs recs
            ∧ (fs = [] ∧ w' = w
               ∨ files w' !! metadata_path = Some (FJson (results w'))))) in Hrun.
  - by destruct Hrun.
  - intros w0 l _ Hl. exists []. rewrite app_nil_r. split; [done|].
    split; [constructor | by left].
  - intros f rest w0 r0 w1 t0 w2 t2 Hf IH l Hnone Hl.
    assert (Hnone2 : ∀ rel, EvSkipped rel ∉ t2).
    { intros rel Hin. apply (Hnone rel). right. apply elem_of_app. by right. }
    destruct r0 as [[]|e].
    + apply process_file_saved in Hf as (l0 & rec & Hl0 & Hrec & Hres & Hstore).
      rewrite Hl in Hl0. injection Hl0 as <-.
      destruct (IH _ Hnone2 Hres) as (recs & Hrecs & Hall & Hlast).
      exists (rec :: recs). rewrite <- app_assoc in Hrecs.
      split; [done|]. split; [by constructor|]. right.
      by destruct Hlast as [[_ ->]|?].
    + exfalso. apply (Hnone (relative_path f)). right.
      apply elem_of_app. left. apply elem_of_app. right. left.
Qed.

(** Resumption: a run in which no candidate is skipped leaves in the
    Store file the records that were there followed by one record for
    each candidate, in enumeration order, each with the candidate's file
    name, relative path and full path. *)
Theorem store_grows_in_order (directory_path : string) (w w' : world) r t s l :
  process_directory H directory_path w = (r, w', t) ->
  (∀ rel, EvSkipped rel ∉ t) ->
  read_ledger (files w) = Ok s ->
  read_store (files w) = Ok (JList l) ->
  ∃ recs,
    read_store (files w') = Ok (JList (l ++ recs))
    ∧ Forall2 record_of (unprocessed s (rglob_pdf H directory_path)) recs.
Proof.
  rewrite process_directory_run. intros Hrun Hnone Hs Hl.
  rewrite Hs, Hl in Hrun. cbv zeta in Hrun.
  destruct (unprocessed s (rglob_pdf H directory_path)) as [|f fs] eqn:Hun.
  - injection Hrun as <- <- <-. exists []. rewrite app_nil_r. cbn [files].
    split; [done | constructor].
  - eapply process_files_grows in Hrun as (recs & Hres & Hall & Hlast);
      [|done|reflexivity].
    exists recs. split; [|done].
    destruct Hlast as [[? _]|Hstore]; [done|].
    unfold read_store. by rewrite Hstore, Hres.
Qed.


Lemma skipped_paths_quiet tq : Forall quiet tq -> skipped_paths tq = [].
Proof.
  induction 1 as [|e tq He _ IH]; [reflexivity|].
  unfold skipped_paths in *. cbn. rewrite IH. by destruct e.
Qed.

Lemma skipped_paths_app t1 t2 :
  skipped_paths (t1 ++ t2) = skipped_paths t1 ++ skipped_paths t2.
Proof. apply omap_app. Qed.

Lemma process_files_no_list fs w r w' t :
  process_files H fs w = (r, w', t) ->
  (∀ l, results w ≠ JList l) ->
  files w' = files w
  ∧ (∀ path c, EvWrite path c ∉ t)
  ∧ (∀ rel, EvSaved rel ∉ t)
  ∧ skipped_paths t = relative_path <$> fs.
Proof.
  intros Hrun.
  apply (process_files_rect H (λ fs w w' t,
    (∀ l, results w ≠ JList l) ->
    files w' = files w
    ∧ (∀ path c, EvWrite path c ∉ t)
    ∧ (∀ rel, EvSaved rel ∉ t)
    ∧ skipped_paths t = relative_path <$> fs)) in Hrun.
  - by destruct Hrun.
  - intros w0 _. split; [done|].
    split; [intros ?? Hin; by apply elem_of_nil in Hin|].
    split; [intros ? Hin; by apply elem_of_nil in Hin|]. done.
  - intros f rest w0 r0 w1 t0 w2 t2 Hf IH Hno.
    apply process_file_no_list in Hf as ([e ->] & Hfiles & Hres & Hq); [|done].
    rewrite <- Hres in Hno. destruct (IH Hno) as (Hfiles2 & Hw2 & Hs2 & Hsk2).
    pose proof Hq as Hq'. rewrite Forall_forall in Hq'.
    split; [congruence|]. split; [|split].
    + intros path c Hin. rewrite elem_of_cons, !elem_of_app in Hin.
      destruct Hin as [?|[[Hin|Hin]|Hin]]; [done| | |].
      * by apply Hq' in Hin.
      * by apply list_elem_of_singleton in Hin.
      * by apply Hw2 in Hin.
    + intros rel Hin. rewrite elem_of_cons, !elem_of_app in Hin.
      destruct Hin as [?|[[Hin|Hin]|Hin]]; [done| | |].
      * by apply Hq' in Hin.
      * by apply list_elem_of_singleton in Hin.
      * by apply Hs2 in Hin.
    + change (EvProcessing (relative_path f) :: ?l)
        with ([EvProcessing (relative_path f)] ++ l).
      by rewrite !skipped_paths_app, (skipped_paths_quiet t0), Hsk2.
Qed.

(** A Store file that holds valid JSON other than an array blocks the
    run: every candidate is skipped, nothing is written and no path is
    marked. *)
Theorem non_array_store_blocks (directory_path : string) (w w' : world) r t
    (v : json) :
  process_directory H directory_path w = (r, w', t) ->
  read_store (files w) = Ok v ->
  (∀ l, v ≠ JList l) ->
  files w' = files w
  ∧ (∀ path c, EvWrite path c ∉ t)
  ∧ (∀ rel, EvSaved rel ∉ t)
  ∧ ∀ s, read_ledger (files w) = Ok s ->
         skipped_paths t
         = relative_path <$> unprocessed s (rglob_pdf H directory_path).
Proof.
  rewrite process_directory_run. intros Hrun Hv Hno.
  destruct (read_ledger (files w)) as [s|e].
  - rewrite Hv in Hrun. cbv zeta in Hrun.
    destruct (unprocessed s (rglob_pdf H directory_path)) as [|f fs] eqn:Hun.
    + injection Hrun as <- <- <-. split; [done|].
      split; [intros ?? Hin; by apply list_elem_of_singleton in Hin|].
      split; [intros ? Hin; by apply list_elem_of_singleton in Hin|].
      intros s' [= <-]. by rewrite Hun.
    + apply process_files_no_list in Hrun as (Hfiles & Hw & Hs & Hsk); [|done].
      split; [done|]. split; [done|]. split; [done|].
      intros s' [= <-]. by rewrite Hun.
  - injection Hrun as <- <- <-. split; [done|].
    split; [intros ?? Hin; by apply elem_of_nil in Hin|].
    split; [intros ? Hin; by apply elem_of_nil in Hin|]. done.
Qed.

End RunFacts.

(** ** Records the report cannot print *)

(** Side conditions on field names. *)
Ltac field_side :=
  first [ done
        | unfold target_fields; rewrite !elem_of_cons;
          repeat ((by left) || right) ].

Section ReportFacts.

Variable H : Host.

Lemma join_check_strings (l : list string) : join_check (JList (JStr <$> l)) = Ok tt.
Proof.
  cbn [join_check].
  assert (Hall : forallb is_str (JStr <$> l) = true)
    by (induction l; [reflexivity | assumption]).
  by rewrite Hall.
Qed.

Lemma report_outcome f (d : gmap string json) :
  complete_record (JDict d) ->
  let m := normalize_metadata (py_repr H) (with_provenance f d) in
  report m = if printable m then Ok tt else Raise TypeError.
Proof.
  intros Hcomplete m. cbn [complete_record] in Hcomplete.
  assert (Hfield : ∀ k, k ∈ target_fields -> k ≠ "authors" -> k ≠ "keywords" ->
            ∃ v, d !! k = Some v ∧ subscript m k = Ok v).
  { intros k Hk Ha Hkw. destruct (Hcomplete k Hk) as [v Hv]. exists v.
    split; [done|]. unfold subscript, m.
    by rewrite normalize_other_lookup, provenance_keeps, Hv. }
  destruct (Hfield "title") as (v1 & _ & H1); [field_side..|].
  destruct (Hfield "year") as (v2 & _ & H2); [field_side..|].
  destruct (Hfield "journal") as (v3 & _ & H3); [field_side..|].
  destruct (Hfield "doi") as (v4 & _ & H4); [field_side..|].
  destruct (Hfield "abstract") as (v5 & Hv5 & H5); [field_side..|].
  assert (Hfn : subscript m "filename" = Ok (JStr (name f))).
  { unfold subscript, m, with_provenance.
    rewrite normalize_other_lookup by done.
    by rewrite !lookup_insert_ne, lookup_insert_eq by done. }
  assert (Hrp : subscript m "relative_path" = Ok (JStr (relative_path f))).
  { unfold subscript, m, with_provenance.
    rewrite normalize_other_lookup by done.
    by rewrite lookup_insert_ne, lookup_insert_eq by done. }
  destruct (Hcomplete "authors") as [a Ha]; [field_side|].
  destruct (Hcomplete "keywords") as [k Hk]; [field_side|].
  assert (Hma : m !! "authors" = Some (normalize_authors (py_repr H) a)).
  { unfold m. by rewrite normalize_authors_lookup, provenance_keeps, Ha
      by field_side. }
  assert (Hmk : m !! "keywords" = Some (normalize_keywords (py_repr H) k)).
  { unfold m. by rewrite normalize_keywords_lookup, provenance_keeps, Hk
      by field_side. }
  assert (Hmb : m !! "abstract" = Some v5).
  { unfold subscript in H5. by destruct (m !! "abstract"); simplify_eq. }
  assert (Hkj : join_check (normalize_keywords (py_repr H) k) = Ok tt).
  { destruct (normalize_keywords_strings (py_repr H) k) as [l ->].
    apply join_check_strings. }
  unfold report, printable.
  rewrite Hfn, Hrp, H1, H2, H3, H4, H5. unfold subscript at 1 2.
  rewrite Hma, Hmk, Hmb. cbn [mbind outcome_bind]. rewrite Hkj.
  destruct (normalize_authors_is_list (py_repr H) a) as [names ->].
  cbn [join_check].
  destruct (forallb is_str names); cbn [andb mbind outcome_bind]; [|done].
  unfold abstract_check. destruct (py_len v5) as [n|]; [|done].
  destruct (Nat.ltb_spec 200 n) as [Hlt|Hle].
  - assert ((n <=? 200)%nat = false) as -> by (apply Nat.leb_gt; lia).
    by destruct v5.
  - assert ((n <=? 200)%nat = true) as -> by (apply Nat.leb_le; lia). done.
Qed.

(** When the record the client returned is an object, the body goes on
    to append and write it exactly when the normalised authors are all
    strings and the abstract has a length (and is a string if longer than
    200); otherwise it raises [TypeError] in the report, with nothing
    appended and nothing written, and the file will never be marked. *)
Theorem unprintable_record_skipped (f : pdf_file) (w w1 : world)
    (t1 : list event) (d : gmap string json) :
  extract_metadata_from_pdf H (full_path f) w = (Ok (JDict d), w1, t1) ->
  let m := normalize_metadata (py_repr H) (with_provenance f d) in
  (printable m = false ->
   process_file H f w = (Raise TypeError, w1, t1)
   ∧ files w1 = files w ∧ results w1 = results w)
  ∧ (printable m = true -> report m = Ok tt).
Proof.
  intros Hclient m.
  pose proof (client_record_complete H _ _ _ _ _ Hclient) as Hcomplete.
  pose proof (report_outcome f d Hcomplete) as Hreport. cbv zeta in Hreport.
  fold m in Hreport. split.
  - intros Hbad. rewrite Hbad in Hreport.
    rewrite process_file_unfold, Hclient. cbv zeta. fold m. rewrite Hreport.
    split; [done|].
    destruct (client_run H (full_path f) w) as (? & ? & ? & Hrun & _).
    rewrite Hclient in Hrun. by injection Hrun as _ -> _.
  - intros Hgood. by rewrite Hgood in Hreport.
Qed.

End ReportFacts.

Lemma unprintable_record_skipped_witness :
  process_file host_null_abstract pdf_a fresh_run
  = (Raise TypeError, World ∅ (JList []) 1 0,
     [EvCall (make_prompt (extract_text_from_pdf host_null_abstract "papers/a.pdf" 3))]).
Proof.
  apply (unprintable_record_skipped host_null_abstract pdf_a fresh_run
           (World ∅ (JList []) 1 0)
           [EvCall (make_prompt (extract_text_from_pdf host_null_abstract "papers/a.pdf" 3))]
           ({["abstract" := JNull]} ∪ get_default_metadata)).
  - vm_compute. reflexivity.
  - vm_compute. reflexivity.
Defined.

(** ** The Ledger file (lines 49-66) and the reset (lines 301-309) *)
Section LedgerFacts.

Variable H : Host.

Lemma save_processed_file_unfold filename w :
  save_processed_file H filename w =
  match read_ledger (files w) with
  | Raise e => (Raise e, w, [])
  | Ok s =>
      let doc := ledger_doc (set_before H (writes w)) (s ∪ {[filename]}) in
      match write_fault H (writes w) with
      | WOk =>
          (Ok tt,
           World (<[processed_files_path := FJson doc]> (files w)) (results w)
                 (calls w) (S (writes w)),
           [EvWrite processed_files_path (FJson doc)])
      | WOpenFails =>
          (Raise IOError, World (files w) (results w) (calls w) (S (writes w)), [])
      | WDumpFails | WDumpTorn =>
          (Raise IOError,
           World (<[processed_files_path := FCorrupt]> (files w)) (results w)
                 (calls w) (S (writes w)),
           [EvWrite processed_files_path FCorrupt])
      end
  end.
Proof.
  rewrite save_processed_file_run.
  destruct (read_ledger (files w)); [|reflexivity].
  unfold write_json. by destruct (write_fault H (writes w)).
Qed.

(** Marking and loading round-trip: after [save_processed_file] has
    returned, [load_processed_files] gives the set it gave before with
    the new path added, the empty set standing for a Ledger file that was
    missing or not JSON; no other file is touched. *)
Theorem mark_then_load (filename : string) (w w' : world) (t : list event) :
  save_processed_file H filename w = (Ok tt, w', t) ->
  ∃ s, read_ledger (files w) = Ok s
       ∧ read_ledger (files w') = Ok (s ∪ {[filename]})
       ∧ ∀ path, path ≠ processed_files_path ->
                 files w' !! path = files w !! path.
Proof.
  rewrite save_processed_file_unfold.
  destruct (read_ledger (files w)) as [s|e]; [|done]. cbv zeta.
  destruct (write_fault H (writes w)); [|done..].
  intros [= <- <-]. exists s. split; [done|]. cbn [files].
  split; [apply read_ledger_marked|].
  intros path Hp. by rewrite lookup_insert_ne.
Qed.

(** Marking a path that is marked already leaves the set of marked
    paths as it was, whatever the order in which the Ledger file is
    written the second time, and no other file changes. *)
Theorem mark_twice (filename : string) (w w1 w2 : world) (t1 t2 : list event) :
  save_processed_file H filename w = (Ok tt, w1, t1) ->
  save_processed_file H filename w1 = (Ok tt, w2, t2) ->
  (∃ s, read_ledger (files w1) = Ok s
        ∧ filename ∈ s
        ∧ read_ledger (files w2) = Ok s)
  ∧ ∀ path, path ≠ processed_files_path ->
            files w2 !! path = files w1 !! path.
Proof.
  rewrite !save_processed_file_unfold.
  destruct (read_ledger (files w)) as [s|e]; [|done]. cbv zeta.
  destruct (write_fault H (writes w)); [|done..].
  intros [= <- <-]. cbn [files writes]. rewrite read_ledger_marked.
  destruct (write_fault H (S (writes w))); [|done..].
  intros [= <- <-]. cbn [files].
  assert ((s ∪ {[filename]}) ∪ {[filename]} = s ∪ {[filename]}) as ->.
  { apply set_eq. intros x. rewrite !elem_of_union. tauto. }
  split.
  - exists (s ∪ {[filename]}). rewrite !read_ledger_marked.
    split; [done|]. split; [|done].
    apply elem_of_union. right. by apply elem_of_singleton.
  - intros path Hp. by rewrite !lookup_insert_ne.
Qed.

(** A marking that fails adds no path.  Either the Ledger file is as it
    was, or the dump broke off in the opened file and the next load
    starts from the empty set: the paths marked before are forgotten. *)
Theorem failed_mark (filename : string) (w w' : world) (e : exn)
    (t : list event) :
  save_processed_file H filename w = (Raise e, w', t) ->
  ledger_paths (files w') ⊆ ledger_paths (files w)
  ∧ (files w' = files w
     ∨ read_ledger (files w') = Ok ∅ ∧ t = [EvWrite processed_files_path FCorrupt]).
Proof.
  rewrite save_processed_file_unfold.
  destruct (read_ledger (files w)) as [s|e0].
  - cbv zeta. destruct (write_fault H (writes w)); [done| | |].
    + intros [= <- <- <-]. split; [done | by left].
    + intros [= <- <- <-]. cbn [files]. rewrite ledger_paths_broken.
      split; [apply empty_subseteq|]. right. split; [|done].
      unfold read_ledger. by rewrite lookup_insert_eq.
    + intros [= <- <- <-]. cbn [files]. rewrite ledger_paths_broken.
      split; [apply empty_subseteq|]. right. split; [|done].
      unfold read_ledger. by rewrite lookup_insert_eq.
  - intros [= <- <- <-]. split; [done | by left].
Qed.

(** A Ledger file that holds a JSON number, boolean or null, or an array
    with an array or an object in it, stops [process_directory] with a
    [TypeError] before it has done anything. *)
Theorem unloadable_ledger_stops_run (directory_path : string) (w : world)
    (v : json) :
  files w !! processed_files_path = Some (FJson v) ->
  py_len v = None ∨ (∃ l, v = JList l ∧ forallb hashable l = false) ->
  process_directory H directory_path w = (Raise TypeError, w, []).
Proof.
  intros Hfile Hbad. rewrite process_directory_run. unfold read_ledger.
  rewrite Hfile.
  assert (py_set v = None) as ->; [|done].
  destruct Hbad as [Hlen|(l & -> & Hl)].
  - by destruct v.
  - cbn [py_set]. by rewrite Hl.
Qed.

(** A Store file on which [json.load] raises an exception the loader
    does not catch (bytes that are not UTF-8, an integer literal over the
    digit limit, nesting too deep) stops [process_directory] with that
    exception at line 233, before any file is begun. *)
Theorem undecodable_store_stops_run (directory_path : string) (w : world)
    (s : gset string) (e : exn) :
  read_ledger (files w) = Ok s ->
  files w !! metadata_path = Some (FUnreadable e) ->
  caught_on_load e = false ->
  process_directory H directory_path w = (Raise e, w, []).
Proof.
  intros Hs Hfile He. rewrite process_directory_run, Hs. unfold read_store.
  by rewrite Hfile, He.
Qed.

Lemma file_run_ledger_loads f fs r fs' tw :
  file_run f fs r fs' tw ->
  (∃ s, read_ledger fs = Ok s) -> ∃ s, read_ledger fs' = Ok s.
Proof.
  destruct 1 as [e|c Hc|e v Hrec|v Hrec|v s before Hrec Hs]; intros Hloads.
  - done.
  - by rewrite read_ledger_store_write.
  - by rewrite read_ledger_store_write.
  - exists ∅. unfold read_ledger. by rewrite lookup_insert_eq.
  - eexists. apply read_ledger_marked.
Qed.

(** The Ledger is never left in a state that stops the next run: a
    Ledger file that loads at the start of a run loads at its end,
    however the writes of the run went.  (It is written as ASCII, so that
    a dump that breaks off leaves text that is not JSON, which loads as
    the empty set.) *)
Theorem ledger_keeps_loading (directory_path : string) (w w' : world) r t s :
  process_directory H directory_path w = (r, w', t) ->
  read_ledger (files w) = Ok s ->
  ∃ s', read_ledger (files w') = Ok s'.
Proof.
  rewrite process_directory_run. intros Hrun Hs. rewrite Hs in Hrun.
  destruct (read_store (files w)) as [rs|e];
    [|injection Hrun as <- <- <-; by exists s].
  cbv zeta in Hrun.
  destruct (unprocessed s (rglob_pdf H directory_path)) as [|f fs].
  { injection Hrun as <- <- <-. by exists s. }
  apply (process_files_rect H (λ _ w w' _,
    (∃ s, read_ledger (files w) = Ok s) ->
    ∃ s', read_ledger (files w') = Ok s')) in Hrun.
  - destruct Hrun as [_ Hkeep]. apply Hkeep. by exists s.
  - auto.
  - intros g rest w0 r0 w1 t0 w2 t2 Hg IH Hloads. apply IH.
    apply process_file_run in Hg as (tq & tw & _ & _ & Hg).
    by apply (file_run_ledger_loads _ _ _ _ _ Hg).
Qed.

Lemma unprocessed_empty (l : list pdf_file) : unprocessed ∅ l = l.
Proof.
  unfold unprocessed. induction l as [|f l IH]; [done|].
  rewrite filter_cons_True by apply not_elem_of_empty. by rewrite IH.
Qed.

(** The Ledger loads as the empty set exactly when the file is missing,
    is not JSON, cannot be opened, or holds an empty array, string or
    object (or an array of numbers, booleans and nulls, which are equal
    to no path). *)
Lemma read_ledger_empty (fs : gmap string fcontent) :
  read_ledger fs = Ok ∅ ↔
  match fs !! processed_files_path with
  | None | Some FCorrupt => True
  | Some (FUnreadable e) => caught_on_load e = true
  | Some (FJson v) => py_set v = Some ∅
  end.
Proof.
  unfold read_ledger.
  destruct (fs !! processed_files_path) as [[v| |e]|]; try done.
  - destruct (py_set v); split; congruence.
  - destruct (caught_on_load e); split; congruence.
Qed.

(** With a Ledger file that is missing, is not JSON, cannot be opened or
    lists no path, and a Store file that loads, every PDF of the
    directory is begun, in enumeration order, and the run returns.  With
    a Ledger file on which [json.load] raises an exception the loader
    does not catch (bytes that are not UTF-8, say) the Ledger does not
    load as the empty set: the run stops with that exception before any
    file is begun. *)
Theorem empty_ledger_processes_all (directory_path : string) (w w' : world) r t :
  process_directory H directory_path w = (r, w', t) ->
  (∀ rs,
     match files w !! processed_files_path with
     | None | Some FCorrupt => True
     | Some (FUnreadable e) => caught_on_load e = true
     | Some (FJson v) => py_set v = Some ∅
     end ->
     read_store (files w) = Ok rs ->
     r = Ok tt
     ∧ processing_order t = relative_path <$> rglob_pdf H directory_path)
  ∧ (∀ e,
       files w !! processed_files_path = Some (FUnreadable e) ->
       caught_on_load e = false ->
       r = Raise e ∧ w' = w ∧ t = []).
Proof.
  rewrite process_directory_run. intros Hrun. split.
  - intros rs Hledger Hrs. apply read_ledger_empty in Hledger.
    rewrite Hledger, Hrs, unprocessed_empty in Hrun. cbv zeta in Hrun.
    destruct (rglob_pdf H directory_path) as [|f fs].
    + by injection Hrun as <- <- <-.
    + by apply process_files_facts in Hrun as (-> & Hpo & _).
  - intros e Hfile He. unfold read_ledger in Hrun. rewrite Hfile, He in Hrun.
    by injection Hrun as <- <- <-.
Qed.

Lemma reset_absent (w : world) :
  files w !! processed_files_path = None ->
  files w !! metadata_path = None ->
  reset_processing_status H w = (Ok tt, w, []).
Proof.
  intros Hl Hs. unfold reset_processing_status. rewrite run_bind.
  unfold remove_if_exists, rename_if_exists. by rewrite Hl, Hs.
Qed.

Lemma reset_clears (w w1 : world) r t :
  reset_processing_status H w = (r, w1, t) ->
  files w1 !! processed_files_path = None ∧ files w1 !! metadata_path = None.
Proof.
  unfold reset_processing_status. rewrite run_bind.
  unfold remove_if_exists, rename_if_exists.
  pose proof (backup_not_ledger H) as Hbl.
  pose proof (backup_not_store H) as Hbs.
  pose proof paths_differ as Hsl.
  destruct (files w !! processed_files_path) as [ledger|] eqn:Hledger;
    cbn [files results calls writes].
  - rewrite lookup_delete_ne by done.
    destruct (files w !! metadata_path) as [store|] eqn:Hstore;
      intros [= <- <- <-]; cbn [files].
    + by rewrite !lookup_insert_ne, lookup_delete_ne, !lookup_delete_eq.
    + by rewrite lookup_delete_eq, lookup_delete_ne.
  - destruct (files w !! metadata_path) as [store|] eqn:Hstore;
      intros [= <- <- <-]; cbn [files].
    + by rewrite !lookup_insert_ne, lookup_delete_ne, lookup_delete_eq.
    + done.
Qed.

(** After a reset the next load of the Ledger gives the empty set and
    the next load of the Store the empty list, and a second reset finds
    nothing to do. *)
Theorem reset_leaves_fresh_state (w : world) :
  let '(r, w1, t) := reset_processing_status H w in
  read_ledger (files w1) = Ok ∅
  ∧ read_store (files w1) = Ok (JList [])
  ∧ reset_processing_status H w1 = (Ok tt, w1, []).
Proof.
  destruct (reset_processing_status H w) as [[r w1] t] eqn:Hreset.
  apply reset_clears in Hreset as [Hl Hs].
  unfold read_ledger, read_store. rewrite Hl, Hs.
  split; [done|]. split; [done|]. by apply reset_absent.
Qed.

End LedgerFacts.

(** ** The further properties at sample inputs *)


Lemma process_directory_frame_witness :
  files (process_directory host_up "papers" used_world).1.2 !! "notes.txt"
  = files used_world !! "notes.txt".
Proof.
  apply (process_directory_frame host_up "papers" used_world
           (process_directory host_up "papers" used_world).1.2
           (process_directory host_up "papers" used_world).1.1
           (process_directory host_up "papers" used_world).2).
  - vm_compute. reflexivity.
  - done.
  - done.
Defined.

Lemma process_directory_cost_witness :
  (calls (process_directory host_down "papers" empty_world).1.2
   ≤ calls empty_world + 3 * length (rglob_pdf host_down "papers"))%nat
  ∧ (writes (process_directory host_down "papers" empty_world).1.2
     ≤ writes empty_world + 2 * length (rglob_pdf host_down "papers"))%nat.
Proof.
  apply (process_directory_cost host_down "papers" empty_world
           (process_directory host_down "papers" empty_world).1.2
           (process_directory host_down "papers" empty_world).1.1
           (process_directory host_down "papers" empty_world).2).
  vm_compute. reflexivity.
Defined.

Lemma store_append_only_witness :
  ∃ k, results (process_directory host_up "papers" used_world).1.2
       = JList ([JDict get_default_metadata] ++ k).
Proof.
  apply (store_append_only host_up "papers" used_world
           (process_directory host_up "papers" used_world).1.2
           (process_directory host_up "papers" used_world).1.1
           (process_directory host_up "papers" used_world).2).
  - vm_compute. reflexivity.
  - reflexivity.
  - apply list_elem_of_In. vm_compute. do 2 right. left. reflexivity.
Defined.

Lemma store_grows_in_order_witness :
  ∃ recs,
    read_store (files (process_directory host_up "papers" used_world).1.2)
    = Ok (JList ([JDict get_default_metadata] ++ recs))
    ∧ Forall2 record_of (unprocessed {["a.pdf"]} (rglob_pdf host_up "papers")) recs.
Proof.
  apply (store_grows_in_order host_up "papers" used_world
           (process_directory host_up "papers" used_world).1.2
           (process_directory host_up "papers" used_world).1.1
           (process_directory host_up "papers" used_world).2).
  - vm_compute. reflexivity.
  - apply none_skipped_check. vm_compute. reflexivity.
  - vm_compute. reflexivity.
  - reflexivity.
Defined.


Lemma non_array_store_blocks_witness :
  files (process_directory host_up "papers" object_store_world).1.2
  = files object_store_world
  ∧ (∀ path c,
       EvWrite path c ∉ (process_directory host_up "papers" object_store_world).2)
  ∧ (∀ rel, EvSaved rel ∉ (process_directory host_up "papers" object_store_world).2)
  ∧ ∀ s, read_ledger (files object_store_world) = Ok s ->
         skipped_paths (process_directory host_up "papers" object_store_world).2
         = relative_path <$> unprocessed s (rglob_pdf host_up "papers").
Proof.
  apply (non_array_store_blocks host_up "papers" object_store_world
           (process_directory host_up "papers" object_store_world).1.2
           (process_directory host_up "papers" object_store_world).1.1
           (process_directory host_up "papers" object_store_world).2
           (JDict ∅)).
  - vm_compute. reflexivity.
  - reflexivity.
  - intros l. discriminate.
Defined.

Lemma mark_then_load_witness :
  ∃ s, read_ledger (files marked_world) = Ok s
       ∧ read_ledger
           (files (save_processed_file host_up "c.pdf" marked_world).1.2)
         = Ok (s ∪ {["c.pdf"]})
       ∧ ∀ path, path ≠ processed_files_path ->
                 files (save_processed_file host_up "c.pdf" marked_world).1.2
                   !! path
                 = files marked_world !! path.
Proof.
  apply (mark_then_load host_up "c.pdf" marked_world
           (save_processed_file host_up "c.pdf" marked_world).1.2
           (save_processed_file host_up "c.pdf" marked_world).2).
  vm_compute. reflexivity.
Defined.

Lemma mark_twice_witness :
  let w1 := (save_processed_file host_shuffling "c.pdf" marked_world).1.2 in
  let w2 := (save_processed_file host_shuffling "c.pdf" w1).1.2 in
  (∃ s, read_ledger (files w1) = Ok s
        ∧ "c.pdf" ∈ s
        ∧ read_ledger (files w2) = Ok s)
  ∧ ∀ path, path ≠ processed_files_path ->
            files w2 !! path = files w1 !! path.
Proof.
  intros w1 w2.
  apply (mark_twice host_shuffling "c.pdf" marked_world w1 w2
           (save_processed_file host_shuffling "c.pdf" marked_world).2
           (save_processed_file host_shuffling "c.pdf" w1).2).
  - vm_compute. reflexivity.
  - vm_compute. reflexivity.
Defined.

Lemma failed_mark_witness :
  ledger_paths
    (files (save_processed_file host_flaky "a.pdf" second_write_world).1.2)
  ⊆ ledger_paths (files second_write_world)
  ∧ (files (save_processed_file host_flaky "a.pdf" second_write_world).1.2
     = files second_write_world
     ∨ read_ledger
         (files (save_processed_file host_flaky "a.pdf" second_write_world).1.2)
       = Ok ∅
       ∧ (save_processed_file host_flaky "a.pdf" second_write_world).2
         = [EvWrite processed_files_path FCorrupt]).
Proof.
  apply (failed_mark host_flaky "a.pdf" second_write_world
           (save_processed_file host_flaky "a.pdf" second_write_world).1.2
           IOError
           (save_processed_file host_flaky "a.pdf" second_write_world).2).
  vm_compute. reflexivity.
Defined.

Lemma unloadable_ledger_stops_run_witness :
  process_directory host_up "papers" number_ledger_world
  = (Raise TypeError, number_ledger_world, []).
Proof.
  apply (unloadable_ledger_stops_run host_up "papers" number_ledger_world (JInt 5)).
  - reflexivity.
  - by left.
Defined.

Lemma ledger_keeps_loading_witness :
  ∃ s', read_ledger (files (process_directory host_flaky "papers" empty_world).1.2)
        = Ok s'.
Proof.
  apply (ledger_keeps_loading host_flaky "papers" empty_world
           (process_directory host_flaky "papers" empty_world).1.2
           (process_directory host_flaky "papers" empty_world).1.1
           (process_directory host_flaky "papers" empty_world).2 ∅).
  - vm_compute. reflexivity.
  - reflexivity.
Defined.

Lemma undecodable_store_stops_run_witness :
  process_directory host_up "papers" undecodable_store_world
  = (Raise UnicodeDecodeError, undecodable_store_world, []).
Proof.
  apply (undecodable_store_stops_run host_up "papers" undecodable_store_world ∅);
    reflexivity.
Defined.

Lemma empty_ledger_processes_all_witness :
  ((process_directory host_up "papers" empty_world).1.1 = Ok tt
   ∧ processing_order (process_directory host_up "papers" empty_world).2
     = relative_path <$> rglob_pdf host_up "papers")
  ∧ ((process_directory host_up "papers" undecodable_ledger_world).1.1
     = Raise UnicodeDecodeError
     ∧ (process_directory host_up "papers" undecodable_ledger_world).1.2
       = undecodable_ledger_world
     ∧ (process_directory host_up "papers" undecodable_ledger_world).2 = []).
Proof.
  split.
  - apply (proj1 (empty_ledger_processes_all host_up "papers" empty_world
                    (process_directory host_up "papers" empty_world).1.2
                    (process_directory host_up "papers" empty_world).1.1
                    (process_directory host_up "papers" empty_world).2
                    ltac:(vm_compute; reflexivity))
                 (JList [])).
    + exact I.
    + reflexivity.
  - apply (proj2 (empty_ledger_processes_all host_up "papers"
                    undecodable_ledger_world
                    (process_directory host_up "papers"
                       undecodable_ledger_world).1.2
                    (process_directory host_up "papers"
                       undecodable_ledger_world).1.1
                    (process_directory host_up "papers"
                       undecodable_ledger_world).2
                    ltac:(vm_compute; reflexivity))
                 UnicodeDecodeError); reflexivity.
Defined.

(** ** The entry point (lines 311-358) *)
Section MainFacts.

Variable H : Host.

Lemma lower_char_y c :
  lower_char c = "y"%char ↔ c = "y"%char ∨ c = "Y"%char.
Proof.
  destruct c as [[] [] [] [] [] [] [] []]; vm_compute;
    (split; [intros Heq; first [discriminate | by left | by right]
            | intros [Heq|Heq]; first [discriminate | reflexivity]]).
Qed.

(** The answer counts as yes exactly when it is [y] or [Y]. *)
Lemma lower_y s : lower s = "y" ↔ s = "y" ∨ s = "Y".
Proof.
  destruct s as [|c [|c' s]]; cbn [lower].
  - split; [done | by intros [?|?]].
  - split.
    + intros [= Hc]. apply lower_char_y in Hc as [->| ->]; auto.
    + intros [[= ->]|[= ->]]; reflexivity.
  - split; [done | by intros [?|?]].
Qed.

Lemma process_directory_order directory_path w r w' t s rs :
  read_ledger (files w) = Ok s ->
  read_store (files w) = Ok rs ->
  process_directory H directory_path w = (r, w', t) ->
  processing_order t
  = relative_path <$> unprocessed s (rglob_pdf H directory_path).
Proof.
  intros Hs Hrs. rewrite process_directory_run, Hs, Hrs. cbv zeta.
  destruct (unprocessed s (rglob_pdf H directory_path)) as [|f fs].
  - by intros [= <- <- <-].
  - intros Hrun. by apply process_files_facts in Hrun as (_ & Hpo & _).
Qed.

(** [main] past its two checks: the offered reset, the run, the report. *)
Lemma main_run (O : Operator) (key : string) w :
  directory_exists O (PyStr.strip (typed_directory O)) = true ->
  api_key O = Some key -> PyStr.is_empty key = false ->
  main H O w =
  let '(r0, w0, t0) := offer_reset H O w in
  match r0 with
  | Raise e => (Raise e, w0, t0)
  | Ok _ =>
      let '(r1, w1, t1) :=
        process_directory H (PyStr.strip (typed_directory O)) w0 in
      match r1 with
      | Raise e => (Raise e, w1, t0 ++ t1)
      | Ok _ =>
          (match read_ledger (files w1) with
           | Raise e => Raise e
           | Ok s =>
               match read_store (files w1) with
               | Raise e => Raise e
               | Ok metadata =>
                   match py_len metadata with
                   | Some entries => Ok (Summary (size s) entries)
                   | None => Raise TypeError
                   end
               end
           end, w1, t0 ++ t1)
      end
  end.
Proof.
  intros Hdir Hkey Hne. unfold main. rewrite Hdir, Hkey, Hne. cbn [negb].
  rewrite run_bind. destruct (offer_reset H O w) as [[[[]|e] w0] t0]; [|done].
  rewrite run_bind.
  destruct (process_directory H _ w0) as [[[[]|e] w1] t1]; [|done].
  rewrite run_bind. unfold load_processed_files.
  destruct (read_ledger (files w1)) as [s|e]; [|by rewrite app_nil_r].
  rewrite run_bind. unfold load_existing_metadata.
  destruct (read_store (files w1)) as [metadata|e]; [|by rewrite !app_nil_r].
  destruct (py_len metadata); cbn; by rewrite !app_nil_r.
Qed.


Lemma reset_backup (w w0 : world) r t0 store :
  files w !! metadata_path = Some store ->
  reset_processing_status H w = (r, w0, t0) ->
  r = Ok tt ∧ files w0 !! backup_name H = Some store ∧ processing_order t0 = [].
Proof.
  intros Hstore. unfold reset_processing_status. rewrite run_bind.
  unfold remove_if_exists, rename_if_exists.
  pose proof paths_differ as Hsl.
  destruct (files w !! processed_files_path) as [ledger|];
    cbn [files results calls writes];
    rewrite ?lookup_delete_ne by done; rewrite Hstore;
    intros [= <- <- <-]; cbn [files];
    by rewrite lookup_insert_eq.
Qed.

(** Starting over.  When a Ledger file exists and the operator answers
    [y] or [Y], [main] processes every PDF of the directory, and the
    Store file that was there is found, unchanged, under the backup name
    at the end of the run. *)
Theorem main_starts_over (O : Operator) (key : string) (w w' : world)
    (r : outcome main_report) (t : list event) (ledger store : fcontent) :
  directory_exists O (PyStr.strip (typed_directory O)) = true ->
  api_key O = Some key -> PyStr.is_empty key = false ->
  PyStr.strip (typed_reset O) = "y" ∨ PyStr.strip (typed_reset O) = "Y" ->
  files w !! processed_files_path = Some ledger ->
  files w !! metadata_path = Some store ->
  main H O w = (r, w', t) ->
  processing_order t
  = relative_path <$> rglob_pdf H (PyStr.strip (typed_directory O))
  ∧ files w' !! backup_name H = Some store.
Proof.
  intros Hdir Hkey Hne Hyes Hledger Hstore.
  rewrite (main_run O key) by done.
  unfold offer_reset. rewrite Hledger. cbv zeta.
  apply lower_y in Hyes. rewrite Hyes. cbn [String.eqb Ascii.eqb Bool.eqb].
  destruct (reset_processing_status H w) as [[r0 w0] t0] eqn:Hreset.
  pose proof Hreset as Hfresh.
  apply (reset_backup _ _ _ _ store) in Hreset as (-> & Hbackup & Hpo0); [|done].
  apply reset_clears in Hfresh as [Hl0 Hm0].
  assert (Hs0 : read_ledger (files w0) = Ok ∅)
    by (unfold read_ledger; by rewrite Hl0).
  assert (Hrs0 : read_store (files w0) = Ok (JList []))
    by (unfold read_store; by rewrite Hm0).
  destruct (process_directory H _ w0) as [[r1 w1] t1] eqn:Hrun.
  assert (Hgoal : processing_order (t0 ++ t1)
                  = relative_path <$> rglob_pdf H (PyStr.strip (typed_directory O))
                  ∧ files w1 !! backup_name H = Some store).
  { split.
    - rewrite processing_order_app, Hpo0.
      apply (process_directory_order _ _ _ _ _ _ _ Hs0 Hrs0) in Hrun as ->.
      by rewrite unprocessed_empty.
    - rewrite <- Hbackup.
      eapply run_frame; [exact Hrun|..].
      + apply backup_not_ledger.
      + apply backup_not_store. }
  destruct r1; intros [= <- <- <-]; exact Hgoal.
Qed.

End MainFacts.


Lemma main_starts_over_witness :
  processing_order (main host_up (operator " Y ") used_world).2
  = relative_path <$> rglob_pdf host_up "papers"
  ∧ files (main host_up (operator " Y ") used_world).1.2
      !! backup_name host_up
    = Some (FJson (JList [JDict get_default_metadata])).
Proof.
  apply (main_starts_over host_up (operator " Y ") "key" used_world
           (main host_up (operator " Y ") used_world).1.2
           (main host_up (operator " Y ") used_world).1.1
           (main host_up (operator " Y ") used_world).2
           (FJson (JList [JStr "a.pdf"]))).
  - reflexivity.
  - reflexivity.
  - reflexivity.
  - right. reflexivity.
  - reflexivity.
  - reflexivity.
  - vm_compute. reflexivity.
Defined.
